(** * CastFlow controller core: a shallow embedding of pox_version/castflow.py

    The Python module keeps its state in one [CastflowManager] object and a
    [Router] object per switch; handlers mutate these in place, send
    OpenFlow messages through connection handles and may raise.  The
    embedding threads a [World] (manager state plus the list of messages
    sent so far) through a small state-and-exception monad: a raise keeps
    every mutation made before it, as in Python. *)

From Stdlib Require Import ZArith List Bool PrimFloat.
From stdpp Require Import gmap list sorting.

Local Open Scope Z_scope.

(** ** Constants *)

(** Line 35 of the module. *)
Definition OFPP_LOCAL : Z := 65534.

(** Names the module takes from POX (libopenflow_01, lib.packet, lib.addresses)
    are not part of the sources at hand; they are parameters of the
    development. *)
Class PoxLib := {
  of_OFPP_CONTROLLER : Z;
  of_OFPP_LOCAL : Z;
  of_OFPP_FLOOD : Z;
  MEMBERSHIP_QUERY : Z;
  IGMP_PROTOCOL : Z;
  IGMP_V3_ALL_SYSTEMS_ADDRESS : Z;
  ETHER_BROADCAST : Z;
  IP_TYPE : Z;
  IP_ANY : Z
}.

(** Modelled from the spec: the POX modules that bind these names are not
    among the sources.  The spec names what they stand for: the "reserved
    port values OFPP_LOCAL and OFPP_CONTROLLER", flooding, and for the query
    the "all-systems group address for query destination, protocol number
    for IGMP identification" in "standard IGMP-style general-query packets
    (IPv4/Ethernet-encapsulated) broadcast".  Each name gets the number its
    standard assigns: OpenFlow 1.0 for the three ports, RFC 3376 for the
    query type 0x11 and the protocol number 2, RFC 1112 for the all-systems
    group 224.0.0.1, and for Ethernet the broadcast address and the IPv4
    ethertype 0x0800; the address left unset is 0.0.0.0. *)
Definition pox_defaults : PoxLib := {|
  of_OFPP_CONTROLLER := 65533;
  of_OFPP_LOCAL := 65534;
  of_OFPP_FLOOD := 65531;
  MEMBERSHIP_QUERY := 17;
  IGMP_PROTOCOL := 2;
  IGMP_V3_ALL_SYSTEMS_ADDRESS := 3758096385;
  ETHER_BROADCAST := 281474976710655;
  IP_TYPE := 2048;
  IP_ANY := 0
|}.

(** CastflowManager.__init__, lines 127-131: set once, never reassigned. *)
Definition igmp_robustness : Z := 2.
Definition igmp_query_interval : Z := 20.
Definition igmp_query_response_interval : Z := 100.

(** ** Packets and OpenFlow messages *)

(** IP and Ethernet addresses are their unsigned integer values. *)
Record igmp := mk_igmp {
  ver_and_type : Z;
  max_response_time : Z;
  address : Z;
  qrv : Z;
  qqic : Z;
  dlen : Z
}.

Inductive ip_payload :=
| IpIgmp (g : igmp)
| IpOther.

Record ipv4 := mk_ipv4 {
  ttl : Z;
  protocol : Z;
  tos : Z;
  srcip : Z;
  dstip : Z;
  ip_data : ip_payload
}.

Inductive eth_payload :=
| EthIpv4 (p : ipv4)
| EthOther.

Record ethernet := mk_ethernet {
  eth_type : Z;
  eth_dst : Z;
  eth_data : eth_payload
}.

(** [packet.find(pkt.ipv4)] and [packet.find(pkt.igmp)]: walk the payload
    chain of a parsed frame. *)
Definition find_ipv4 (e : ethernet) : option ipv4 :=
  match eth_data e with
  | EthIpv4 p => Some p
  | EthOther => None
  end.

Definition find_igmp (e : ethernet) : option igmp :=
  match eth_data e with
  | EthIpv4 p => match ip_data p with
                 | IpIgmp g => Some g
                 | IpOther => None
                 end
  | EthOther => None
  end.

(** Modelled from the spec: [IPAddr.inNetwork('224.0.0.0/4')] belongs to POX's
    address library, which is not among the sources; the spec calls it "the
    destination address falls in the multicast address range (224.0.0.0/4)",
    that is, the top four bits of the 32-bit address are 1110. *)
Definition inNetwork_224_4 (a : Z) : bool :=
  Z.land a 4026531840 =? 3758096384.

Record ofp_packet_in := mk_ofp_packet_in {
  buffer_id : Z
}.

Inductive ofp_action :=
| ofp_action_output (port : Z).

Inductive packet_data :=
| DataPacketIn (ofp : ofp_packet_in)
| DataPacked (frame : ethernet).

(** Fields the code leaves at the constructor's default are [None]. *)
Record ofp_packet_out := mk_ofp_packet_out {
  po_data : packet_data;
  po_buffer_id : option Z;
  po_in_port : option Z;
  po_actions : list ofp_action
}.

Record ofp_match := mk_ofp_match {
  dl_type : option Z;
  nw_dst : option Z;
  in_port : option Z
}.

Record ofp_flow_mod := mk_ofp_flow_mod {
  fm_match : ofp_match;
  fm_actions : list ofp_action
}.

Inductive ofp_msg :=
| PacketOut (m : ofp_packet_out)
| FlowMod (m : ofp_flow_mod).

(** A transport handle: its identity, the dpid of the switch behind it and
    the port numbers of [connection.features.ports]. *)
Record Connection := mk_Connection {
  conn_id : nat;
  conn_dpid : Z;
  conn_ports : list Z
}.

(** [Discovery.Link], a named tuple. *)
Record Link := mk_Link {
  dpid1 : Z;
  port1 : Z;
  dpid2 : Z;
  port2 : Z
}.

#[global] Instance Link_eq_dec : EqDecision Link.
Proof. solve_decision. Defined.

(** Line 219. *)
Definition flip (link : Link) : Link :=
  mk_Link (dpid2 link) (port2 link) (dpid1 link) (port1 link).

(** ** Router (lines 63-115) *)

(** [r_oid] is the identity of the Python object: [Router] defines neither
    [__eq__] nor [__hash__], so the adjacency dictionaries key on it. *)
Record Router := mk_Router {
  r_oid : nat;
  connection : option Connection;
  ports : option (list Z);
  igmp_ports : list Z;
  dpid : option Z;
  listeners : option nat;
  connected_at : option float;
  connected_hosts : gmap Z Z
}.

Definition Router_init (oid : nat) : Router :=
  mk_Router oid None None [] None None None ∅.

Definition set_connection (c : option Connection) (l : option nat) (r : Router) : Router :=
  mk_Router (r_oid r) c (ports r) (igmp_ports r) (dpid r) l
            (connected_at r) (connected_hosts r).

Definition set_ports (ps : option (list Z)) (r : Router) : Router :=
  mk_Router (r_oid r) (connection r) ps (igmp_ports r) (dpid r) (listeners r)
            (connected_at r) (connected_hosts r).

Definition set_igmp_ports (ps : list Z) (r : Router) : Router :=
  mk_Router (r_oid r) (connection r) (ports r) ps (dpid r) (listeners r)
            (connected_at r) (connected_hosts r).

Definition set_dpid (d : option Z) (r : Router) : Router :=
  mk_Router (r_oid r) (connection r) (ports r) (igmp_ports r) d (listeners r)
            (connected_at r) (connected_hosts r).

Definition set_connected_at (t : option float) (r : Router) : Router :=
  mk_Router (r_oid r) (connection r) (ports r) (igmp_ports r) (dpid r)
            (listeners r) t (connected_hosts r).

Definition set_connected_hosts (h : gmap Z Z) (r : Router) : Router :=
  mk_Router (r_oid r) (connection r) (ports r) (igmp_ports r) (dpid r)
            (listeners r) (connected_at r) h.

Inductive exn := KeyError | ValueError | AttributeError | AssertionError | NameError.

Inductive result (A : Type) :=
| Ok (a : A)
| Raised (e : exn).
Arguments Ok {A} a.
Arguments Raised {A} e.

(** Lines 82-87. *)
Definition Router_disconnect (r : Router) : Router :=
  match connection r with
  | Some _ => set_connection None None r
  | None => r
  end.

(** [list.remove(x)]: drops the first occurrence, [ValueError] ([None] here)
    when there is none. *)
Fixpoint list_remove_first (x : Z) (l : list Z) : option (list Z) :=
  match l with
  | [] => None
  | y :: l' => if decide (y = x) then Some l'
               else option_map (cons y) (list_remove_first x l')
  end.

Section WithLib.
Context {lib : PoxLib}.

(** Lines 95-98: the loop over the feature ports. *)
Fixpoint connect_scan_ports (ps : list Z) (acc : list Z) : list Z :=
  match ps with
  | [] => acc
  | port_no :: ps' =>
      if (port_no =? of_OFPP_CONTROLLER) || (port_no =? of_OFPP_LOCAL)
      then connect_scan_ports ps' acc
      else connect_scan_ports ps' (acc ++ [port_no])
  end.

(** Lines 89-104; [now] is the value of [time.time()]. *)
Definition Router_connect (now : float) (c : Connection) (r : Router) : result Router :=
  let r := match dpid r with
           | None => set_dpid (Some (conn_dpid c)) r
           | Some _ => r
           end in
  if decide (dpid r = Some (conn_dpid c)) then
    let r := match ports r with
             | None => set_igmp_ports (connect_scan_ports (conn_ports c) (igmp_ports r))
                         (set_ports (Some (conn_ports c)) r)
             | Some _ => r
             end in
    let r := Router_disconnect r in
    Ok (set_connected_at (Some now) (set_connection (Some c) (Some (conn_id c)) r))
  else Raised AssertionError.

(** The global name [FLOOD_HOLDDOWN].  Line 110 is the only place of the
    module that mentions it: no statement assigns it and no import brings it
    in (POX binds a name of this spelling in forwarding.l2_multi, which the
    module does not import), so the name has no binding when line 110
    looks it up. *)
Definition FLOOD_HOLDDOWN : option float := None.

(** Lines 106-112; [now] is the value of [time.time()].  Line 110 evaluates
    the difference first and then looks the global name up, which is a
    [NameError] for an unbound name; Python's [a - b > h] on floats is
    [h < a - b] on binary64. *)
Definition is_holding_down (now : float) (r : Router) : result bool :=
  match connected_at r with
  | None => Ok true
  | Some t =>
      let elapsed := PrimFloat.sub now t in
      match FLOOD_HOLDDOWN with
      | Some holddown => if PrimFloat.ltb holddown elapsed then Ok false else Ok true
      | None => Raised NameError
      end
  end.

(** Lines 114-115. *)
Definition Router_handle_ConnectionDown (r : Router) : Router :=
  Router_disconnect r.

End WithLib.

(** ** CastflowManager (lines 118-159) *)

(** [routers] stores each Router object under the one key it is registered
    with: handlers reach and mutate a Router only through [self.routers], so
    updating the entry in place is the mutation of the object.  [adjacency]
    is the nested defaultdict keyed by Router objects, hence by [r_oid]; an
    inner value [None] is a key a read has auto-vivified.  [next_oid] is the
    identity the next [Router()] gets.  [general_query_timer] is the
    attribute line 301 binds, seen as the interval of the timer it holds.
    Creating a recoco [Timer] starts it, and the module cancels none:
    [timers_started] lists the recurring timers started so far, oldest
    first, each by its interval; every one of them keeps calling
    [launch_igmp_general_query].  [membership_records] is never read or
    written by a handler and is left out. *)
Record CastflowManager := mk_CastflowManager {
  got_first_connection_up : bool;
  routers : gmap Z Router;
  adjacency : gmap nat (gmap nat (option Z));
  general_query_timer : option Z;
  timers_started : list Z;
  next_oid : nat
}.

Definition CastflowManager_init : CastflowManager :=
  mk_CastflowManager false ∅ ∅ None [] 0%nat.

Definition set_routers (rs : gmap Z Router) (m : CastflowManager) : CastflowManager :=
  mk_CastflowManager (got_first_connection_up m) rs (adjacency m)
                     (general_query_timer m) (timers_started m) (next_oid m).

Definition set_adjacency (a : gmap nat (gmap nat (option Z))) (m : CastflowManager)
  : CastflowManager :=
  mk_CastflowManager (got_first_connection_up m) (routers m) a
                     (general_query_timer m) (timers_started m) (next_oid m).

(** [for router_dpid in self.routers] walks the keys in dictionary order,
    which is the order of insertion (the language guarantees it from
    Python 3.7 on): a key that is deleted and inserted again moves to the
    end, and changing an attribute of the Router stored under a key does
    not move the key.  The one insertion into
    [self.routers] is line 294, of the Router object line 292 has just
    created, so the keys stand in the order in which their Router objects
    were created, the order of the object identities. *)
Definition created_before (x y : Z * Router) : Prop :=
  (r_oid x.2 <= r_oid y.2)%nat.

#[global] Instance created_before_dec (x y : Z * Router) : Decision (created_before x y).
Proof. unfold created_before. apply _. Defined.

(** The items of [self.routers] in dictionary order. *)
Definition dict_items (rs : gmap Z Router) : list (Z * Router) :=
  merge_sort created_before (map_to_list rs).

(** The manager together with everything sent so far, oldest first. *)
Record World := mk_World {
  mgr : CastflowManager;
  wire : list (Connection * ofp_msg)
}.

Definition World_init : World := mk_World CastflowManager_init [].

(** ** The handler monad *)

Definition M (A : Type) : Type := World -> result A * World.

Definition ret {A} (a : A) : M A := fun w => (Ok a, w).

Definition bind {A B} (c : M A) (k : A -> M B) : M B :=
  fun w => match c w with
           | (Ok a, w') => k a w'
           | (Raised e, w') => (Raised e, w')
           end.

Definition raise {A} (e : exn) : M A := fun w => (Raised e, w).

Definition get_mgr : M CastflowManager := fun w => (Ok (mgr w), w).

Definition modify_mgr (f : CastflowManager -> CastflowManager) : M unit :=
  fun w => (Ok tt, mk_World (f (mgr w)) (wire w)).

(** [connection.send(msg)]. *)
Definition send (c : Connection) (msg : ofp_msg) : M unit :=
  fun w => (Ok tt, mk_World (mgr w) (wire w ++ [(c, msg)])).

Declare Scope m_scope.
Delimit Scope m_scope with M.
Notation "'do' x <- c ; k" := (bind c (fun x => k))
  (at level 10, x name, c at level 100, k at level 200) : m_scope.
Notation "c ;; k" := (bind c (fun _ => k))
  (at level 100, k at level 200, right associativity) : m_scope.
Local Open Scope m_scope.

(** A [for] loop whose body may raise. *)
Fixpoint for_each {A} (l : list A) (body : A -> M unit) : M unit :=
  match l with
  | [] => ret tt
  | x :: l' => body x ;; for_each l' body
  end.

(** *** Accesses to [self.routers] and to Router objects *)

(** [self.routers[d]]: a plain dict, [KeyError] on a missing key. *)
Definition routers_getitem (d : Z) : M Router :=
  do m <- get_mgr;
  match routers m !! d with
  | Some r => ret r
  | None => raise KeyError
  end.

(** In-place mutation of the Router object registered under [d]. *)
Definition update_router (d : Z) (f : Router -> Router) : M unit :=
  modify_mgr (fun m => set_routers (alter f d (routers m)) m).

(** [router.igmp_ports.append(p)]. *)
Definition igmp_ports_append (d : Z) (p : Z) : M unit :=
  update_router d (fun r => set_igmp_ports (igmp_ports r ++ [p]) r).

(** [router.igmp_ports.remove(p)]. *)
Definition igmp_ports_remove (d : Z) (p : Z) : M unit :=
  do r <- routers_getitem d;
  match list_remove_first p (igmp_ports r) with
  | Some l' => update_router d (set_igmp_ports l')
  | None => raise ValueError
  end.

(** [if p in router.connected_hosts: del router.connected_hosts[p]],
    lines 276-281. *)
Definition connected_hosts_discard (d : Z) (p : Z) : M unit :=
  do r <- routers_getitem d;
  match connected_hosts r !! p with
  | Some _ => update_router d (fun r => set_connected_hosts (delete p (connected_hosts r)) r)
  | None => ret tt
  end.

(** *** Accesses to [self.adjacency], a defaultdict of defaultdicts *)

Definition put_row (o : nat) (row : gmap nat (option Z)) : M unit :=
  modify_mgr (fun m => set_adjacency (<[o := row]> (adjacency m)) m).

(** [self.adjacency[o]]: a missing key is inserted with an empty row. *)
Definition adjacency_row (o : nat) : M (gmap nat (option Z)) :=
  do m <- get_mgr;
  match adjacency m !! o with
  | Some row => ret row
  | None => put_row o ∅ ;; ret ∅
  end.

(** [self.adjacency[o1][o2]]: a missing inner key is inserted with [None]. *)
Definition adjacency_getitem (o1 o2 : nat) : M (option Z) :=
  do row <- adjacency_row o1;
  match row !! o2 with
  | Some v => ret v
  | None => put_row o1 (<[o2 := None]> row) ;; ret None
  end.

(** [self.adjacency[o1][o2] = p]. *)
Definition adjacency_setitem (o1 o2 : nat) (p : Z) : M unit :=
  do row <- adjacency_row o1;
  put_row o1 (<[o2 := Some p]> row).

(** [o2 in self.adjacency[o1]]. *)
Definition adjacency_contains (o1 o2 : nat) : M bool :=
  do row <- adjacency_row o1;
  ret (bool_decide (is_Some (row !! o2))).

(** [del self.adjacency[o1][o2]]. *)
Definition adjacency_delitem (o1 o2 : nat) : M unit :=
  do row <- adjacency_row o1;
  match row !! o2 with
  | Some _ => put_row o1 (delete o2 row)
  | None => raise KeyError
  end.

(** [for neighbour in self.adjacency[o]: if self.adjacency[o][neighbour] == p],
    lines 340-341 and 374-377: does some key of the row hold port [p]? *)
Definition row_has_port (row : gmap nat (option Z)) (p : Z) : bool :=
  existsb (fun kv => bool_decide (kv.2 = Some p)) (map_to_list row).

Definition adjacency_uses_port (o : nat) (p : Z) : M bool :=
  do row <- adjacency_row o;
  ret (row_has_port row p).

(** ** Events *)

(** POX's ConnectionUp carries the connection and takes [event.dpid] from
    it; [cu_now] is what [time.time()] returns inside [Router.connect]. *)
Record ConnectionUpEvent := mk_ConnectionUpEvent {
  cu_connection : Connection;
  cu_now : float
}.

(** [event.removed] is [not event.added]. *)
Record LinkEvent := mk_LinkEvent {
  le_link : Link;
  le_added : bool
}.

Record PacketInEvent := mk_PacketInEvent {
  pe_connection : Connection;
  pe_port : Z;
  pe_parsed : ethernet;
  pe_ofp : ofp_packet_in
}.

(** ** Handlers of CastflowManager *)

Section Handlers.
Context {lib : PoxLib}.

(** Lines 171-191: the one frame a general query sends. *)
Definition general_query_frame : ethernet :=
  let igmp_pkt := mk_igmp MEMBERSHIP_QUERY igmp_query_response_interval 0
                          igmp_robustness igmp_query_interval 12 in
  let ip_pkt := mk_ipv4 1 IGMP_PROTOCOL 192 IP_ANY IGMP_V3_ALL_SYSTEMS_ADDRESS
                        (IpIgmp igmp_pkt) in
  mk_ethernet IP_TYPE ETHER_BROADCAST (EthIpv4 ip_pkt).

(** Lines 199-202: the body of the inner loop.  With no connection bound,
    [sending_router.connection.send] is an attribute access on [None]. *)
Definition send_query (eth_pkt : ethernet) (sending_router : Router) (port_num : Z) : M unit :=
  let output := mk_ofp_packet_out (DataPacked eth_pkt) None None
                                  [ofp_action_output port_num] in
  match connection sending_router with
  | Some c => send c (PacketOut output)
  | None => raise AttributeError
  end.

(** Lines 161-202.  The outer loop walks the keys of [self.routers] in
    dictionary order and indexes the dictionary, which the loop does not
    change, with each: it walks the items in that order. *)
Definition launch_igmp_general_query : M unit :=
  let eth_pkt := general_query_frame in
  do m <- get_mgr;
  for_each (dict_items (routers m)) (fun item =>
    let sending_router := item.2 in
    for_each (igmp_ports sending_router) (send_query eth_pkt sending_router)).

(** Lines 206-214. *)
Definition drop_packet (packet_in_event : PacketInEvent) : M unit :=
  let msg := mk_ofp_packet_out (DataPacketIn (pe_ofp packet_in_event))
                               (Some (buffer_id (pe_ofp packet_in_event)))
                               (Some (pe_port packet_in_event))
                               [] in
  send (pe_connection packet_in_event) (PacketOut msg).

(** Lines 253-256 and 267-270: commit one link in both directions. *)
Definition commit_adjacency (l : Link) (o1 o2 : nat) (p1 p2 : Z) : M unit :=
  adjacency_setitem o1 o2 p1 ;;
  igmp_ports_remove (dpid1 l) p1 ;;
  adjacency_setitem o2 o1 p2 ;;
  igmp_ports_remove (dpid2 l) p2.

(** Lines 248-258: the scan of [core.openflow_discovery.adjacency], whose
    keys are [disc]; [rest] is what the loop has still to visit. *)
Fixpoint promote_parallel (disc : list Link) (l : Link) (o1 o2 : nat)
                          (rest : list Link) : M unit :=
  match rest with
  | [] => ret tt
  | ll :: rest' =>
      if (dpid1 ll =? dpid1 l) && (dpid2 ll =? dpid2 l) then
        if bool_decide (flip ll ∈ disc) then
          commit_adjacency l o1 o2 (port1 ll) (port2 ll)
        else promote_parallel disc l o1 o2 rest'
      else promote_parallel disc l o1 o2 rest'
  end.

(** Lines 216-285; [disc] is the key set of the discovery module's raw
    link table at the time of the event. *)
Definition _handle_LinkEvent (disc : list Link) (event : LinkEvent) : M unit :=
  let l := le_link event in
  do router1 <- routers_getitem (dpid1 l);
  do router2 <- routers_getitem (dpid2 l);
  let o1 := r_oid router1 in
  let o2 := r_oid router2 in
  if negb (le_added event) then
    do c12 <- adjacency_contains o1 o2;
    (if c12 then adjacency_delitem o1 o2 else ret tt) ;;
    do c21 <- adjacency_contains o2 o1;
    (if c21 then adjacency_delitem o2 o1 else ret tt) ;;
    igmp_ports_append (dpid1 l) (port1 l) ;;
    igmp_ports_append (dpid2 l) (port2 l) ;;
    promote_parallel disc l o1 o2 disc
  else
    do a12 <- adjacency_getitem o1 o2;
    match a12 with
    | Some _ => ret tt
    | None =>
        if bool_decide (flip l ∈ disc) then
          commit_adjacency l o1 o2 (port1 l) (port2 l) ;;
          connected_hosts_discard (dpid1 l) (port1 l) ;;
          connected_hosts_discard (dpid2 l) (port2 l)
        else ret tt
    end.

(** [router.connect(event.connection)] on the Router registered under [d]. *)
Definition connect_router (d : Z) (now : float) (c : Connection) : M unit :=
  do r <- routers_getitem d;
  match Router_connect now c r with
  | Ok r' => update_router d (fun _ => r')
  | Raised e => raise e
  end.

(** Lines 287-302. *)
Definition _handle_ConnectionUp (event : ConnectionUpEvent) : M unit :=
  let event_dpid := conn_dpid (cu_connection event) in
  do m <- get_mgr;
  match routers m !! event_dpid with
  | None =>
      let router := set_dpid (Some event_dpid) (Router_init (next_oid m)) in
      modify_mgr (fun m => mk_CastflowManager (got_first_connection_up m)
                             (<[event_dpid := router]> (routers m)) (adjacency m)
                             (general_query_timer m) (timers_started m)
                             (S (next_oid m))) ;;
      connect_router event_dpid (cu_now event) (cu_connection event)
  | Some _ => ret tt
  end ;;
  do m <- get_mgr;
  if negb (got_first_connection_up m) then
    modify_mgr (fun m => mk_CastflowManager true (routers m) (adjacency m)
                           (Some igmp_query_interval)
                           (timers_started m ++ [igmp_query_interval])
                           (next_oid m))
  else ret tt.

(** Lines 304-311. *)
Definition _handle_ConnectionDown (event_dpid : Z) : M unit :=
  do m <- get_mgr;
  match routers m !! event_dpid with
  | None => ret tt
  | Some _ => modify_mgr (fun m => set_routers (delete event_dpid (routers m)) m)
  end.

(** Lines 358-360 and 380-382. *)
Definition learn_host (d : Z) (receiving_router : Router) (p : Z) (src : Z) : M unit :=
  match connected_hosts receiving_router !! p with
  | None => update_router d (fun r => set_connected_hosts (<[p := src]> (connected_hosts r)) r)
  | Some _ => ret tt
  end.

(** Lines 313-399. *)
Definition _handle_PacketIn (event : PacketInEvent) : M unit :=
  let d := conn_dpid (pe_connection event) in
  do m <- get_mgr;
  match routers m !! d with
  | None => ret tt
  | Some receiving_router =>
      match find_igmp (pe_parsed event) with
      | Some igmp_pkt =>
          match find_ipv4 (pe_parsed event) with
          | None => raise AttributeError
          | Some ipv4_pkt =>
              do from_neighbour <- adjacency_uses_port (r_oid receiving_router) (pe_port event);
              if from_neighbour then drop_packet event
              else
                learn_host d receiving_router (pe_port event) (srcip ipv4_pkt) ;;
                drop_packet event
          end
      | None =>
          match find_ipv4 (pe_parsed event) with
          | None => ret tt
          | Some ipv4_pkt =>
              if inNetwork_224_4 (dstip ipv4_pkt) then
                do from_neighbour_router <-
                   adjacency_uses_port (r_oid receiving_router) (pe_port event);
                (if negb from_neighbour_router
                 then learn_host d receiving_router (pe_port event) (srcip ipv4_pkt)
                 else ret tt) ;;
                send (pe_connection event)
                     (PacketOut (mk_ofp_packet_out (DataPacketIn (pe_ofp event))
                                   (Some (buffer_id (pe_ofp event)))
                                   (Some (pe_port event))
                                   [ofp_action_output of_OFPP_FLOOD])) ;;
                send (pe_connection event)
                     (FlowMod (mk_ofp_flow_mod
                                 (mk_ofp_match (Some 2048) (Some (dstip ipv4_pkt))
                                               (Some (pe_port event)))
                                 [ofp_action_output of_OFPP_FLOOD]))
              else ret tt
          end
      end
  end.

(** ** The event stream (spec section 4.5) *)

Inductive Event :=
| EvConnectionUp (e : ConnectionUpEvent)
| EvConnectionDown (event_dpid : Z)
| EvLinkEvent (disc : list Link) (e : LinkEvent)
| EvPacketIn (e : PacketInEvent)
| EvTimer.

(** The timer exists once line 301 has armed it.  [Router._handle_ConnectionDown]
    listens on the connection of a Router that the manager removes from the
    registry on the same connection-down, so no registered Router shows its
    effect and the stream does not dispatch it. *)
Definition dispatch (ev : Event) : M unit :=
  match ev with
  | EvConnectionUp e => _handle_ConnectionUp e
  | EvConnectionDown d => _handle_ConnectionDown d
  | EvLinkEvent disc e => _handle_LinkEvent disc e
  | EvPacketIn e => _handle_PacketIn e
  | EvTimer =>
      do m <- get_mgr;
      match general_query_timer m with
      | Some _ => launch_igmp_general_query
      | None => ret tt
      end
  end.

(** One event is processed to completion before the next; a handler that
    raises leaves the state as it was at the raise. *)
Fixpoint run_events (evs : list Event) (w : World) : World :=
  match evs with
  | [] => w
  | ev :: evs' => run_events evs' (dispatch ev w).2
  end.

(** What each handler returned, in order. *)
Fixpoint outcomes (evs : list Event) (w : World) : list (result unit) :=
  match evs with
  | [] => []
  | ev :: evs' => (dispatch ev w).1 :: outcomes evs' (dispatch ev w).2
  end.

End Handlers.

(** ** Observations on a state *)

(** The value [self.adjacency[o1][o2]] reads, without the vivification. *)
Definition adj_read (a : gmap nat (gmap nat (option Z))) (o1 o2 : nat) : option Z :=
  match a !! o1 with
  | Some row => match row !! o2 with
                | Some v => v
                | None => None
                end
  | None => None
  end.

Definition adj (w : World) (o1 o2 : nat) : option Z :=
  adj_read (adjacency (mgr w)) o1 o2.

(** Port [p] of Router object [o] is committed to some neighbour. *)
Definition is_router_port (w : World) (o : nat) (p : Z) : Prop :=
  exists neighbour, adj w o neighbour = Some p.

Definition row_of (a : gmap nat (gmap nat (option Z))) (o : nat) : gmap nat (option Z) :=
  default ∅ (a !! o).

Definition w_set_adjacency (a : gmap nat (gmap nat (option Z))) (w : World) : World :=
  mk_World (set_adjacency a (mgr w)) (wire w).

Definition w_set_routers (rs : gmap Z Router) (w : World) : World :=
  mk_World (set_routers rs (mgr w)) (wire w).

(** The state after a read of [self.adjacency[o]]. *)
Definition w_vivify (o : nat) (w : World) : World :=
  match adjacency (mgr w) !! o with
  | Some _ => w
  | None => w_set_adjacency (<[o := ∅]> (adjacency (mgr w))) w
  end.

(** A state [w'] that [w] can turn into by reads alone: the same registry,
    the same messages, the same value under every adjacency read. *)
Definition same_reads (w w' : World) : Prop :=
  routers (mgr w') = routers (mgr w) /\
  wire w' = wire w /\
  forall a b, adj w' a b = adj w a b.

(** A Router object after one of its ports was committed to a neighbour:
    the IGMP port list is [g] and no host is recorded on the port. *)
Definition commit_port (p : Z) (g : list Z) (r : Router) : Router :=
  set_connected_hosts (delete p (connected_hosts r)) (set_igmp_ports g r).

(** The link [l], between the Router objects [r1] and [r2] of state [w], is
    committed in [w']: both directions read the link's ports, every other
    pair reads what it read in [w], the two routers lost the ports from
    their IGMP port lists (leaving [g1] and [g2]) and any host recorded on
    them, and nothing was sent. *)
Definition link_committed (w w' : World) (l : Link) (r1 r2 : Router)
    (g1 g2 : list Z) : Prop :=
  adj w' (r_oid r1) (r_oid r2) = Some (port1 l) /\
  adj w' (r_oid r2) (r_oid r1) = Some (port2 l) /\
  (forall a b, (a, b) <> (r_oid r1, r_oid r2) -> (a, b) <> (r_oid r2, r_oid r1) ->
               adj w' a b = adj w a b) /\
  routers (mgr w')
  = <[dpid2 l := commit_port (port2 l) g2 r2]>
      (<[dpid1 l := commit_port (port1 l) g1 r1]> (routers (mgr w))) /\
  wire w' = wire w.

(** Every registered Router object holds a connection, was created before
    the next object identity, and is registered under one dpid only. *)
Definition registry_ok (w : World) : Prop :=
  (forall d r, routers (mgr w) !! d = Some r ->
               is_Some (connection r) /\ (r_oid r < next_oid (mgr w))%nat) /\
  (forall d1 d2 r1 r2, routers (mgr w) !! d1 = Some r1 ->
                       routers (mgr w) !! d2 = Some r2 ->
                       r_oid r1 = r_oid r2 -> d1 = d2).

(** A computation keeps the invariant, whether it returns or raises. *)
Definition preserves {A} (c : M A) : Prop :=
  forall w, registry_ok w -> registry_ok (c w).2.

(** A mutation of a Router object that leaves identity and handle alone. *)
Definition keeps_identity (f : Router -> Router) : Prop :=
  forall r, r_oid (f r) = r_oid r /\ connection (f r) = connection r.

(** The link the scan of lines 248-258 settles on: the first one in the
    discovery table between the same dpids, in the same direction, whose
    reverse is in the table too. *)
Definition first_parallel (disc : list Link) (l : Link) (rest : list Link) : option Link :=
  find (fun ll => (dpid1 ll =? dpid1 l) && (dpid2 ll =? dpid2 l)
                  && bool_decide (flip ll ∈ disc)) rest.

(** ** Messages and scenarios used below *)

Section Messages.
Context {lib : PoxLib}.

(** The message [drop_packet] sends for an event. *)
Definition drop_message (event : PacketInEvent) : Connection * ofp_msg :=
  (pe_connection event,
   PacketOut (mk_ofp_packet_out (DataPacketIn (pe_ofp event))
                                (Some (buffer_id (pe_ofp event)))
                                (Some (pe_port event)) [])).

Definition flood_message (event : PacketInEvent) : Connection * ofp_msg :=
  (pe_connection event,
   PacketOut (mk_ofp_packet_out (DataPacketIn (pe_ofp event))
                                (Some (buffer_id (pe_ofp event)))
                                (Some (pe_port event))
                                [ofp_action_output of_OFPP_FLOOD])).

Definition flood_flow_message (event : PacketInEvent) (dst : Z) : Connection * ofp_msg :=
  (pe_connection event,
   FlowMod (mk_ofp_flow_mod (mk_ofp_match (Some 2048) (Some dst) (Some (pe_port event)))
                            [ofp_action_output of_OFPP_FLOOD])).

(** The packet-out that carries the general query out of one port. *)
Definition query_packet_out (port_num : Z) : ofp_msg :=
  PacketOut (mk_ofp_packet_out (DataPacked general_query_frame) None None
                               [ofp_action_output port_num]).

(** What a general query sends for one router: the frame on each of its
    IGMP ports, through its connection. *)
Definition query_messages (r : Router) : list (Connection * ofp_msg) :=
  match connection r with
  | Some c => map (fun port_num => (c, query_packet_out port_num)) (igmp_ports r)
  | None => []
  end.

(** The Router object lines 292-296 register for a new dpid. *)
Definition new_router (oid : nat) (c : Connection) (now : float) : Router :=
  mk_Router oid (Some c) (Some (conn_ports c)) (connect_scan_ports (conn_ports c) [])
            (Some (conn_dpid c)) (Some (conn_id c)) (Some now) ∅.

End Messages.

(** Two switches with ports 1 and 2 and the local port; two cables between
    them, [link_a] on the ports 1 and [link_b] on the ports 2. *)
Definition sw1_conn : Connection := mk_Connection 1 1 [1; 2; 65534].
Definition sw2_conn : Connection := mk_Connection 2 2 [1; 2; 65534].
Definition sw1_reconn : Connection := mk_Connection 3 1 [1; 2; 65534].
Definition link_a : Link := mk_Link 1 1 2 1.
Definition link_b : Link := mk_Link 1 2 2 2.

Definition link_up (disc : list Link) (l : Link) : Event :=
  EvLinkEvent disc (mk_LinkEvent l true).
Definition link_down (disc : list Link) (l : Link) : Event :=
  EvLinkEvent disc (mk_LinkEvent l false).

Definition two_switches : list Event :=
  [EvConnectionUp (mk_ConnectionUpEvent sw1_conn 0%float);
   EvConnectionUp (mk_ConnectionUpEvent sw2_conn 1%float)].

(** [link_a] discovered in both directions. *)
Definition a_committed : list Event :=
  two_switches ++ [link_up [link_a] link_a;
                   link_up [link_a; flip link_a] (flip link_a)].

(** Then [link_b] discovered in both directions as well. *)
Definition a_committed_b_spare : list Event :=
  a_committed ++ [link_up [link_a; flip link_a; link_b] link_b;
                  link_up [link_a; flip link_a; link_b; flip link_b] (flip link_b)].

(** An IGMPv3 membership report from [src], as a host sends it. *)
Definition igmp_report (src : Z) : ethernet :=
  mk_ethernet 2048 1101088686102
    (EthIpv4 (mk_ipv4 1 2 192 src 3758096406 (IpIgmp (mk_igmp 34 0 0 0 0 8)))).

Definition host_5 : Z := 167772165.
Definition host_6 : Z := 167772166.

Definition report_on_sw1_port2 (src : Z) : PacketInEvent :=
  mk_PacketInEvent sw1_conn 2 (igmp_report src) (mk_ofp_packet_in 7).

(** A multicast datagram for 224.1.1.1 from [host_5]. *)
Definition multicast_data : ipv4 := mk_ipv4 64 17 0 host_5 3758162177 IpOther.

Definition data_on_sw1_port1 : PacketInEvent :=
  mk_PacketInEvent sw1_conn 1 (mk_ethernet 2048 1101088751873 (EthIpv4 multicast_data))
                   (mk_ofp_packet_in 8).

Definition report_on_sw1_port1 : PacketInEvent :=
  mk_PacketInEvent sw1_conn 1 (igmp_report host_5) (mk_ofp_packet_in 7).

(** The Router objects of the two switches after [two_switches]: switch 1
    connected at time 0, switch 2 at time 1. *)
Definition sw1_router : Router :=
  mk_Router 0%nat (Some sw1_conn) (Some [1; 2; 65534]) [1; 2] (Some 1) (Some 1%nat)
            (Some 0%float) ∅.
Definition sw2_router : Router :=
  mk_Router 1%nat (Some sw2_conn) (Some [1; 2; 65534]) [1; 2] (Some 2) (Some 2%nat)
            (Some 1%float) ∅.

(** ** Predicates and scenarios of the further properties *)

(** A computation keeps [P], whether it returns or raises. *)
Definition keeps {A} (P : World -> Prop) (c : M A) : Prop :=
  forall w, P w -> P (c w).2.

(** Lines 234-285: what is left of [_handle_LinkEvent] once lines 231-232
    have found the two Router objects [o1] and [o2]. *)
Definition link_event_body (disc : list Link) (event : LinkEvent) (o1 o2 : nat) : M unit :=
  (let l := le_link event in
   if negb (le_added event) then
     do c12 <- adjacency_contains o1 o2;
     (if c12 then adjacency_delitem o1 o2 else ret tt) ;;
     do c21 <- adjacency_contains o2 o1;
     (if c21 then adjacency_delitem o2 o1 else ret tt) ;;
     igmp_ports_append (dpid1 l) (port1 l) ;;
     igmp_ports_append (dpid2 l) (port2 l) ;;
     promote_parallel disc l o1 o2 disc
   else
     do a12 <- adjacency_getitem o1 o2;
     match a12 with
     | Some _ => ret tt
     | None =>
         if bool_decide (flip l ∈ disc) then
           commit_adjacency l o1 o2 (port1 l) (port2 l) ;;
           connected_hosts_discard (dpid1 l) (port1 l) ;;
           connected_hosts_discard (dpid2 l) (port2 l)
         else ret tt
     end)%M.

(** What no handler but connection-up and connection-down touches in a
    Router object. *)
Definition router_frame (r r' : Router) : Prop :=
  r_oid r' = r_oid r /\ connection r' = connection r /\ ports r' = ports r /\
  dpid r' = dpid r /\ listeners r' = listeners r /\ connected_at r' = connected_at r.

(** [w'] has the flags, the timer, the started timers, the next object
    identity and the registered dpids of [w], and each Router object of [w']
    is related by [rel] to the one [w] has under the same dpid. *)
Definition registry_frame (rel : Router -> Router -> Prop) (w w' : World) : Prop :=
  got_first_connection_up (mgr w') = got_first_connection_up (mgr w) /\
  general_query_timer (mgr w') = general_query_timer (mgr w) /\
  timers_started (mgr w') = timers_started (mgr w) /\
  next_oid (mgr w') = next_oid (mgr w) /\
  forall d, match routers (mgr w) !! d, routers (mgr w') !! d with
            | Some r, Some r' => rel r r'
            | None, None => True
            | _, _ => False
            end.

(** A link event may change the IGMP port list of a Router and drop hosts. *)
Definition link_event_rel (r r' : Router) : Prop :=
  router_frame r r' /\ connected_hosts r' ⊆ connected_hosts r.

(** A packet-in may add hosts to a Router. *)
Definition packet_in_rel (r r' : Router) : Prop :=
  router_frame r r' /\ igmp_ports r' = igmp_ports r /\
  connected_hosts r ⊆ connected_hosts r'.

(** The Router object registered under [d] is the one lines 292-296 made
    for the connection it still holds. *)
Definition router_wf (d : Z) (r : Router) : Prop :=
  exists c, connection r = Some c /\ conn_dpid c = d /\ dpid r = Some d /\
            ports r = Some (conn_ports c) /\ listeners r = Some (conn_id c) /\
            is_Some (connected_at r).

Definition registry_wf (w : World) : Prop :=
  forall d r, routers (mgr w) !! d = Some r -> router_wf d r.

(** Only Router objects that were created key a value in the adjacency. *)
Definition adj_bounded (w : World) : Prop :=
  forall a b, adj w a b <> None ->
              (a < next_oid (mgr w))%nat /\ (b < next_oid (mgr w))%nat.

(** The same with the next object identity fixed to [n], as it is during a
    link event. *)
Definition adj_below (n : nat) (w : World) : Prop :=
  next_oid (mgr w) = n /\
  forall a b, adj w a b <> None -> (a < n)%nat /\ (b < n)%nat.

(** The timer is armed exactly when the first connection-up was seen, and
    it is then the only timer that was ever started. *)
Definition timer_matches_flag (w : World) : Prop :=
  general_query_timer (mgr w)
  = (if got_first_connection_up (mgr w) then Some igmp_query_interval else None) /\
  timers_started (mgr w)
  = (if got_first_connection_up (mgr w) then [igmp_query_interval] else []).

Definition is_ConnectionUp (ev : Event) : bool :=
  match ev with
  | EvConnectionUp _ => true
  | _ => false
  end.

(** The test of lines 96-97, negated. *)
Definition not_reserved {lib : PoxLib} (port_no : Z) : bool :=
  negb ((port_no =? of_OFPP_CONTROLLER) || (port_no =? of_OFPP_LOCAL)).

(** Switch 2 comes back with a new handle and one port more. *)
Definition sw2_reconn : Connection := mk_Connection 4 2 [1; 2; 3; 65534].

(** A cable on ports the switches never reported. *)
Definition link_unlisted : Link := mk_Link 1 5 2 5.

(** An ARP frame: no IPv4 payload. *)
Definition arp_on_sw1_port2 : PacketInEvent :=
  mk_PacketInEvent sw1_conn 2 (mk_ethernet 2054 281474976710655 EthOther)
                   (mk_ofp_packet_in 9).

Definition data_on_sw1_port2 : PacketInEvent :=
  mk_PacketInEvent sw1_conn 2 (mk_ethernet 2048 1101088751873 (EthIpv4 multicast_data))
                   (mk_ofp_packet_in 10).

(** *** The order of the registry *)






(** *** The general query on the wire *)






(** * Properties *)

Ltac m_simpl :=
  unfold bind, ret, raise, get_mgr, modify_mgr, send in *; simpl in *.

(** ** The monad and the primitive accesses *)

Lemma bind_Ok {A B} (c : M A) (k : A -> M B) (w w' : World) (a : A) :
  c w = (Ok a, w') -> bind c k w = k a w'.
Proof. intros H. unfold bind. rewrite H. reflexivity. Qed.

Lemma bind_Raised {A B} (c : M A) (k : A -> M B) (w w' : World) (e : exn) :
  c w = (Raised e, w') -> bind c k w = (Raised e, w').
Proof. intros H. unfold bind. rewrite H. reflexivity. Qed.

Lemma routers_getitem_Some (d : Z) (r : Router) (w : World) :
  routers (mgr w) !! d = Some r -> routers_getitem d w = (Ok r, w).
Proof. intros H. unfold routers_getitem. m_simpl. rewrite H. reflexivity. Qed.

Lemma routers_getitem_None (d : Z) (w : World) :
  routers (mgr w) !! d = None -> routers_getitem d w = (Raised KeyError, w).
Proof. intros H. unfold routers_getitem. m_simpl. rewrite H. reflexivity. Qed.

Lemma alter_Some_insert (f : Router -> Router) (d : Z) (r : Router) (rs : gmap Z Router) :
  rs !! d = Some r -> alter f d rs = <[d := f r]> rs.
Proof.
  intros H. apply map_eq. intros i.
  destruct (decide (d = i)) as [->|Hne].
  - rewrite lookup_alter_eq, lookup_insert_eq, H. reflexivity.
  - rewrite lookup_alter_ne, lookup_insert_ne by assumption. reflexivity.
Qed.

Lemma find_igmp_find_ipv4 (e : ethernet) (g : igmp) :
  find_igmp e = Some g -> exists p, find_ipv4 e = Some p.
Proof.
  unfold find_igmp, find_ipv4. destruct (eth_data e) as [p|]; [|discriminate].
  intros _. exists p. reflexivity.
Qed.

(** ** Reading the adjacency rows *)

Lemma adj_read_row (a : gmap nat (gmap nat (option Z))) (o nb : nat) (p : Z) :
  adj_read a o nb = Some p <-> row_of a o !! nb = Some (Some p).
Proof.
  unfold adj_read, row_of. destruct (a !! o) as [row|]; simpl.
  - destruct (row !! nb) as [v|]; split; intros H; try discriminate; congruence.
  - rewrite lookup_empty. split; discriminate.
Qed.

Lemma row_has_port_true (row : gmap nat (option Z)) (p : Z) :
  row_has_port row p = true <-> exists nb, row !! nb = Some (Some p).
Proof.
  unfold row_has_port. rewrite existsb_exists. split.
  - intros [[nb v] [Hin Hv]]. simpl in Hv. apply bool_decide_eq_true in Hv. subst v.
    exists nb. apply elem_of_map_to_list. apply list_elem_of_In. exact Hin.
  - intros [nb Hnb]. exists (nb, Some p). split.
    + apply list_elem_of_In. apply elem_of_map_to_list. exact Hnb.
    + simpl. apply bool_decide_eq_true. reflexivity.
Qed.

Lemma row_has_port_is_router_port (w : World) (o : nat) (p : Z) :
  row_has_port (row_of (adjacency (mgr w)) o) p = true <-> is_router_port w o p.
Proof.
  rewrite row_has_port_true. unfold is_router_port, adj.
  split; intros [nb H]; exists nb; apply adj_read_row; exact H.
Qed.

Lemma adjacency_uses_port_eq (o : nat) (p : Z) (w : World) :
  adjacency_uses_port o p w
  = (Ok (row_has_port (row_of (adjacency (mgr w)) o) p), w_vivify o w).
Proof.
  unfold adjacency_uses_port, adjacency_row, put_row, w_vivify, row_of. m_simpl.
  destruct (adjacency (mgr w) !! o); reflexivity.
Qed.

Lemma is_router_port_row (w : World) (o : nat) (p : Z) :
  is_router_port w o p -> is_Some (adjacency (mgr w) !! o).
Proof.
  intros [nb H]. unfold adj, adj_read in H.
  destruct (adjacency (mgr w) !! o); [eauto | discriminate].
Qed.

Lemma w_vivify_router_port (w : World) (o : nat) (p : Z) :
  is_router_port w o p -> w_vivify o w = w.
Proof.
  intros H. apply is_router_port_row in H as [row H].
  unfold w_vivify. rewrite H. reflexivity.
Qed.

Lemma adj_w_vivify (o : nat) (w : World) (a b : nat) :
  adj (w_vivify o w) a b = adj w a b.
Proof.
  unfold w_vivify, adj. destruct (adjacency (mgr w) !! o) eqn:E; [reflexivity|].
  simpl. unfold adj_read. destruct (decide (o = a)) as [->|Hne].
  - rewrite lookup_insert_eq, E, lookup_empty. reflexivity.
  - rewrite lookup_insert_ne by assumption. reflexivity.
Qed.

(** ** Packet-in *)

Section PacketIn.
Context {lib : PoxLib}.

(** The guard of lines 325-327: a packet from a switch that is not
    registered is ignored. *)
Lemma PacketIn_unrecognized_router (event : PacketInEvent) (w : World) :
  routers (mgr w) !! conn_dpid (pe_connection event) = None ->
  _handle_PacketIn event w = (Ok tt, w).
Proof.
  intros H. unfold _handle_PacketIn. m_simpl. rewrite H. reflexivity.
Qed.

(** C6. A packet-in with an IGMP payload that arrives on a port the
    receiving router has committed to a neighbour is answered with one
    packet-out without actions, and the manager state is left exactly as it
    was: in particular no connected-host entry appears. *)
Theorem C6_igmp_on_router_port_dropped
    (event : PacketInEvent) (w : World) (receiving_router : Router) (g : igmp) :
  routers (mgr w) !! conn_dpid (pe_connection event) = Some receiving_router ->
  find_igmp (pe_parsed event) = Some g ->
  is_router_port w (r_oid receiving_router) (pe_port event) ->
  _handle_PacketIn event w
  = (Ok tt, mk_World (mgr w) (wire w ++ [drop_message event])).
Proof.
  intros Hr Hg Hport.
  destruct (find_igmp_find_ipv4 _ _ Hg) as [ip Hip].
  unfold _handle_PacketIn.
  rewrite (bind_Ok get_mgr _ w w (mgr w)) by reflexivity.
  rewrite Hr, Hg, Hip.
  rewrite (bind_Ok _ _ _ _ _ (adjacency_uses_port_eq _ _ _)).
  apply row_has_port_is_router_port in Hport as Hrow. rewrite Hrow.
  rewrite (w_vivify_router_port _ _ _ Hport).
  reflexivity.
Qed.

(** C10. A plain IPv4 packet for a destination in 224.0.0.0/4 that arrives on
    a committed adjacency port is still flooded, and a flow that matches
    ethertype 0x800, the destination and the input port and floods is
    installed; nothing is learned and the state does not change. *)
Theorem C10_multicast_on_router_port_flooded
    (event : PacketInEvent) (w : World) (receiving_router : Router) (ip : ipv4) :
  routers (mgr w) !! conn_dpid (pe_connection event) = Some receiving_router ->
  find_igmp (pe_parsed event) = None ->
  find_ipv4 (pe_parsed event) = Some ip ->
  inNetwork_224_4 (dstip ip) = true ->
  is_router_port w (r_oid receiving_router) (pe_port event) ->
  _handle_PacketIn event w
  = (Ok tt, mk_World (mgr w)
                     (wire w ++ [flood_message event; flood_flow_message event (dstip ip)])).
Proof.
  intros Hr Hg Hip Hnet Hport.
  unfold _handle_PacketIn.
  rewrite (bind_Ok get_mgr _ w w (mgr w)) by reflexivity.
  rewrite Hr, Hg, Hip, Hnet.
  rewrite (bind_Ok _ _ _ _ _ (adjacency_uses_port_eq _ _ _)).
  apply row_has_port_is_router_port in Hport as Hrow. rewrite Hrow.
  rewrite (w_vivify_router_port _ _ _ Hport).
  unfold flood_message, flood_flow_message. m_simpl.
  rewrite <- app_assoc. reflexivity.
Qed.

(** C7, as amended.  A packet-in with an IGMP payload on a port of a
    registered router that is not committed to any neighbour and has no
    connected-host entry yet: the handler returns normally, the port now maps
    to the source address of the packet, every other host entry and every
    other router is as before, the adjacency reads are as before, and the one
    message sent is the drop (no flow is installed, nothing is forwarded). *)
Theorem C7_igmp_on_edge_port_learns_host
    (event : PacketInEvent) (w : World) (receiving_router : Router)
    (g : igmp) (ip : ipv4) :
  routers (mgr w) !! conn_dpid (pe_connection event) = Some receiving_router ->
  find_igmp (pe_parsed event) = Some g ->
  find_ipv4 (pe_parsed event) = Some ip ->
  ~ is_router_port w (r_oid receiving_router) (pe_port event) ->
  connected_hosts receiving_router !! pe_port event = None ->
  let out := _handle_PacketIn event w in
  out.1 = Ok tt /\
  routers (mgr out.2)
  = <[conn_dpid (pe_connection event) :=
        set_connected_hosts (<[pe_port event := srcip ip]> (connected_hosts receiving_router))
                            receiving_router]> (routers (mgr w)) /\
  wire out.2 = wire w ++ [drop_message event] /\
  (forall a b, adj out.2 a b = adj w a b).
Proof.
  intros Hr Hg Hip Hport Hhost out. subst out.
  unfold _handle_PacketIn.
  rewrite (bind_Ok get_mgr _ w w (mgr w)) by reflexivity.
  rewrite Hr, Hg, Hip.
  rewrite (bind_Ok _ _ _ _ _ (adjacency_uses_port_eq _ _ _)).
  destruct (row_has_port _ _) eqn:Hrow.
  { exfalso. apply Hport. apply row_has_port_is_router_port. exact Hrow. }
  unfold learn_host. rewrite Hhost.
  unfold update_router, drop_packet. m_simpl.
  assert (Hsame : routers (mgr (w_vivify (r_oid receiving_router) w)) = routers (mgr w)).
  { unfold w_vivify. destruct (adjacency (mgr w) !! _); reflexivity. }
  assert (Hwire : wire (w_vivify (r_oid receiving_router) w) = wire w).
  { unfold w_vivify. destruct (adjacency (mgr w) !! _); reflexivity. }
  repeat split.
  - rewrite Hsame. rewrite (alter_Some_insert _ _ _ _ Hr). reflexivity.
  - rewrite Hwire. reflexivity.
  - intros a b. apply (adj_w_vivify (r_oid receiving_router) w a b).
Qed.

End PacketIn.

(** Port 2 of switch 1 already maps to [host_5]; a report from [host_6],
    recorded nowhere, arrives on the same edge port.  It is dropped and the
    manager is left as it was: no entry maps the port to [host_6]. *)
Lemma C7_counterexample :
  let w := @run_events pox_defaults
             (two_switches ++ [EvPacketIn (report_on_sw1_port2 host_5)]) World_init in
  let event := report_on_sw1_port2 host_6 in
  let out := @_handle_PacketIn pox_defaults event w in
  (exists r, routers (mgr w) !! conn_dpid (pe_connection event) = Some r /\
             ~ is_router_port w (r_oid r) (pe_port event) /\
             connected_hosts r = {[2 := host_5]}) /\
  (exists r, routers (mgr w) !! 2 = Some r /\ connected_hosts r = ∅) /\
  dom (routers (mgr w)) = {[1; 2]} /\
  find_igmp (pe_parsed event) = Some (mk_igmp 34 0 0 0 0 8) /\
  (srcip <$> find_ipv4 (pe_parsed event)) = Some host_6 /\
  out = (Ok tt, mk_World (mgr w) (wire w ++ [@drop_message event])).
Proof.
  split; [|split; [|split; [|split; [|split]]]].
  - eexists. split; [vm_compute; reflexivity|]. split; [|vm_compute; reflexivity].
    intros [nb H]. vm_compute in H. discriminate.
  - eexists. split; vm_compute; reflexivity.
  - vm_compute. reflexivity.
  - vm_compute. reflexivity.
  - vm_compute. reflexivity.
  - vm_compute. reflexivity.
Qed.

(** ** Connection events *)

Section Connections.
Context {lib : PoxLib}.

(** A connection-up for a dpid that is registered never reaches
    [Router.connect] (line 296 sits inside the branch for a new router): the
    registry, and with it every Router object, is what it was. *)
Lemma ConnectionUp_known_router (event : ConnectionUpEvent) (w : World) (r : Router) :
  routers (mgr w) !! conn_dpid (cu_connection event) = Some r ->
  (_handle_ConnectionUp event w).1 = Ok tt /\
  routers (mgr (_handle_ConnectionUp event w).2) = routers (mgr w) /\
  adjacency (mgr (_handle_ConnectionUp event w).2) = adjacency (mgr w) /\
  wire (_handle_ConnectionUp event w).2 = wire w.
Proof.
  intros H. unfold _handle_ConnectionUp. m_simpl. rewrite H. simpl.
  destruct (got_first_connection_up (mgr w)); simpl; repeat split.
Qed.

(** What [Router.connect] would have done to a router whose ports are known:
    bind the new handle, stamp the time, keep ports and hosts. *)
Lemma Router_connect_again (now : float) (c : Connection) (r : Router) (ps : list Z) :
  dpid r = Some (conn_dpid c) ->
  ports r = Some ps ->
  Router_connect now c r
  = Ok (mk_Router (r_oid r) (Some c) (Some ps) (igmp_ports r) (dpid r)
                  (Some (conn_id c)) (Some now) (connected_hosts r)).
Proof.
  intros Hd Hp. destruct r as [o cn p g d l t h]; simpl in *; subst.
  unfold Router_connect, Router_disconnect; simpl.
  rewrite decide_True by reflexivity.
  destruct cn; reflexivity.
Qed.

(** The guard of lines 306-308. *)
Lemma ConnectionDown_unrecognized_router (d : Z) (w : World) :
  routers (mgr w) !! d = None -> _handle_ConnectionDown d w = (Ok tt, w).
Proof.
  intros H. unfold _handle_ConnectionDown. m_simpl. rewrite H. reflexivity.
Qed.

(** Lines 231-232 have no such guard. *)
Lemma LinkEvent_unrecognized_router1 (disc : list Link) (event : LinkEvent) (w : World) :
  routers (mgr w) !! dpid1 (le_link event) = None ->
  _handle_LinkEvent disc event w = (Raised KeyError, w).
Proof.
  intros H. unfold _handle_LinkEvent.
  rewrite (bind_Raised _ _ _ _ _ (routers_getitem_None _ _ H)). reflexivity.
Qed.

Lemma LinkEvent_unrecognized_router2 (disc : list Link) (event : LinkEvent) (w : World)
    (r : Router) :
  routers (mgr w) !! dpid1 (le_link event) = Some r ->
  routers (mgr w) !! dpid2 (le_link event) = None ->
  _handle_LinkEvent disc event w = (Raised KeyError, w).
Proof.
  intros H1 H2. unfold _handle_LinkEvent.
  rewrite (bind_Ok _ _ _ _ _ (routers_getitem_Some _ _ _ H1)).
  rewrite (bind_Raised _ _ _ _ _ (routers_getitem_None _ _ H2)). reflexivity.
Qed.

End Connections.

(** C1.  Switch 1 is registered through [sw1_conn] at time 0; a second
    connection-up for dpid 1 arrives with the handle [sw1_reconn] at time 7.
    The handler returns normally and changes nothing: the router is still
    bound to [sw1_conn] and still stamped 0, where [Router.connect] on the
    same router would have bound [sw1_reconn] and stamped 7. *)
Theorem C1_second_connection_up_not_bound :
  let w := @run_events pox_defaults two_switches World_init in
  let event := mk_ConnectionUpEvent sw1_reconn 7%float in
  let out := @_handle_ConnectionUp pox_defaults event w in
  out = (Ok tt, w) /\
  (connection <$> routers (mgr out.2) !! 1) = Some (Some sw1_conn) /\
  (connected_at <$> routers (mgr out.2) !! 1) = Some (Some 0%float) /\
  (routers (mgr w) !! 1 ≫= fun r => Some (@Router_connect pox_defaults 7%float sw1_reconn r))
  = Some (Ok (mk_Router 0%nat (Some sw1_reconn) (Some [1; 2; 65534]) [1; 2] (Some 1)
                        (Some 3%nat) (Some 7%float) ∅)).
Proof.
  split; [|split; [|split]]; vm_compute; reflexivity.
Qed.

(** C2.  Both switches are registered and [link_a] is committed; switch 2
    disconnects, which removes it from the registry; the discovery module
    then reports [link_a] as removed.  The handler raises [KeyError] at
    line 232. *)
Theorem C2_link_event_after_connection_down_raises :
  let w := @run_events pox_defaults (a_committed ++ [EvConnectionDown 2]) World_init in
  @dispatch pox_defaults (link_down [] link_a) w = (Raised KeyError, w).
Proof. vm_compute. reflexivity. Qed.

(** C3.  A link seen in one direction only and then timed out leaves its
    ports twice in the IGMP port lists; when the link then comes up in both
    directions, port 1 of switch 2 is committed to the adjacency and still in
    the IGMP port list.  No handler raises on the way. *)
Theorem C3_flapping_link_breaks_port_classification :
  let flap := two_switches ++ [link_up [link_a] link_a; link_down [] link_a] in
  let again := [link_up [link_a] link_a; link_up [link_a; flip link_a] (flip link_a)] in
  let w1 := @run_events pox_defaults flap World_init in
  let w2 := @run_events pox_defaults again w1 in
  @outcomes pox_defaults (flap ++ again) World_init = repeat (Ok tt) 6 /\
  (igmp_ports <$> routers (mgr w1) !! 1) = Some [1; 2; 1] /\
  (igmp_ports <$> routers (mgr w2) !! 2) = Some [2; 1] /\
  (r_oid <$> routers (mgr w2) !! 2) = Some 1%nat /\
  adj w2 1%nat 0%nat = Some 1.
Proof.
  split; [|split; [|split; [|split]]]; vm_compute; reflexivity.
Qed.

(** C4.  [link_a] is committed and [link_b] is known in both directions as
    a spare.  When [link_b] is reported removed, with [link_a] still in the
    discovery table in both directions, the handler deletes the adjacency
    entries of [link_a], appends the ports of [link_b], picks [link_a] as
    the parallel link, writes adjacency[R1][R2] and raises [ValueError] at
    line 254: port 1 is not in R1's IGMP port list.  adjacency[R2][R1] stays
    deleted. *)
Theorem C4_removing_spare_link_raises :
  let w := @run_events pox_defaults a_committed_b_spare World_init in
  let out := @dispatch pox_defaults (link_down [link_a; flip link_a] link_b) w in
  adj w 0%nat 1%nat = Some 1 /\ adj w 1%nat 0%nat = Some 1 /\
  out.1 = Raised ValueError /\
  adj out.2 0%nat 1%nat = Some 1 /\
  adj out.2 1%nat 0%nat = None /\
  (igmp_ports <$> routers (mgr out.2) !! 1) = Some [2; 2] /\
  (igmp_ports <$> routers (mgr out.2) !! 2) = Some [2; 2].
Proof.
  split; [|split; [|split; [|split; [|split; [|split]]]]]; vm_compute; reflexivity.
Qed.

(** The two switches are already adjacent over [link_a]; both directions of
    [link_b] are then reported.  Both reports are ignored by the guard of
    line 262: the adjacency still reads port 1, not port 2 of [link_b], and
    port 2 is still in the IGMP port list. *)
Lemma C5_counterexample :
  let w := @run_events pox_defaults a_committed World_init in
  let D1 := [link_a; flip link_a; link_b] in
  let D2 := [link_a; flip link_a; link_b; flip link_b] in
  let w' := @run_events pox_defaults [link_up D1 link_b; link_up D2 (flip link_b)] w in
  (r_oid <$> routers (mgr w) !! dpid1 link_b) = Some 0%nat /\
  (r_oid <$> routers (mgr w) !! dpid2 link_b) = Some 1%nat /\
  @outcomes pox_defaults [link_up D1 link_b; link_up D2 (flip link_b)] w = [Ok tt; Ok tt] /\
  port1 link_b = 2 /\
  adj w' 0%nat 1%nat = Some 1 /\
  adj w' 1%nat 0%nat = Some 1 /\
  (igmp_ports <$> routers (mgr w') !! 1) = Some [2].
Proof.
  split; [|split; [|split; [|split; [|split; [|split]]]]]; vm_compute; reflexivity.
Qed.

(** ** The adjacency dictionaries *)

Lemma adj_read_insert_row (a : gmap nat (gmap nat (option Z))) (o1 o2 : nat)
    (v : option Z) (x y : nat) :
  adj_read (<[o1 := <[o2 := v]> (row_of a o1)]> a) x y
  = if decide (x = o1 /\ y = o2) then v else adj_read a x y.
Proof.
  unfold adj_read, row_of. destruct (decide (x = o1)) as [->|Hx].
  - rewrite lookup_insert_eq. destruct (decide (y = o2)) as [->|Hy].
    + rewrite lookup_insert_eq. rewrite decide_True by (split; reflexivity).
      destruct v; reflexivity.
    + rewrite lookup_insert_ne by congruence.
      rewrite decide_False by (intros [_ ?]; contradiction).
      destruct (a !! o1); simpl; [reflexivity|]. rewrite lookup_empty. reflexivity.
  - rewrite lookup_insert_ne by congruence.
    rewrite decide_False by (intros [? _]; contradiction). reflexivity.
Qed.

Lemma adj_read_delete (a : gmap nat (gmap nat (option Z))) (o1 o2 : nat) (x y : nat) :
  adj_read (<[o1 := delete o2 (row_of a o1)]> a) x y
  = if decide (x = o1 /\ y = o2) then None else adj_read a x y.
Proof.
  unfold adj_read, row_of. destruct (decide (x = o1)) as [->|Hx].
  - rewrite lookup_insert_eq. destruct (decide (y = o2)) as [->|Hy].
    + rewrite lookup_delete_eq. rewrite decide_True by (split; reflexivity). reflexivity.
    + rewrite lookup_delete_ne by congruence.
      rewrite decide_False by (intros [_ ?]; contradiction).
      destruct (a !! o1); simpl; [reflexivity|]. rewrite lookup_empty. reflexivity.
  - rewrite lookup_insert_ne by congruence.
    rewrite decide_False by (intros [? _]; contradiction). reflexivity.
Qed.

Lemma adjacency_row_eq (o : nat) (w : World) :
  adjacency_row o w = (Ok (row_of (adjacency (mgr w)) o), w_vivify o w).
Proof.
  unfold adjacency_row, put_row, w_vivify, row_of. m_simpl.
  destruct (adjacency (mgr w) !! o); reflexivity.
Qed.

Lemma w_vivify_insert (o : nat) (row : gmap nat (option Z)) (w : World) :
  w_set_adjacency (<[o := row]> (adjacency (mgr (w_vivify o w)))) (w_vivify o w)
  = w_set_adjacency (<[o := row]> (adjacency (mgr w))) w.
Proof.
  unfold w_vivify. destruct (adjacency (mgr w) !! o); [reflexivity|].
  unfold w_set_adjacency. simpl. rewrite insert_insert_eq. reflexivity.
Qed.

(** [self.adjacency[o1][o2] = p] as one update of the state. *)
Lemma adjacency_setitem_eq (o1 o2 : nat) (p : Z) (w : World) :
  adjacency_setitem o1 o2 p w
  = (Ok tt, w_set_adjacency
              (<[o1 := <[o2 := Some p]> (row_of (adjacency (mgr w)) o1)]> (adjacency (mgr w)))
              w).
Proof.
  unfold adjacency_setitem. rewrite (bind_Ok _ _ _ _ _ (adjacency_row_eq _ _)).
  unfold put_row. m_simpl. f_equal. apply w_vivify_insert.
Qed.

Lemma same_reads_refl (w : World) : same_reads w w.
Proof. repeat split. Qed.

Lemma same_reads_vivify (o : nat) (w : World) : same_reads w (w_vivify o w).
Proof.
  unfold same_reads. split; [|split].
  - unfold w_vivify. destruct (adjacency (mgr w) !! o); reflexivity.
  - unfold w_vivify. destruct (adjacency (mgr w) !! o); reflexivity.
  - apply adj_w_vivify.
Qed.

(** [self.adjacency[o1][o2]] returns what [adj] says and changes no read. *)
Lemma adjacency_getitem_read (o1 o2 : nat) (w : World) :
  exists w', adjacency_getitem o1 o2 w = (Ok (adj w o1 o2), w') /\ same_reads w w'.
Proof.
  unfold adjacency_getitem. rewrite (bind_Ok _ _ _ _ _ (adjacency_row_eq _ _)).
  unfold adj, adj_read, row_of.
  destruct (adjacency (mgr w) !! o1) as [row|] eqn:Hrow; simpl.
  - destruct (row !! o2) as [v|] eqn:Hv.
    + eexists. split; [reflexivity|]. apply same_reads_vivify.
    + unfold put_row. m_simpl. eexists. split; [reflexivity|].
      unfold w_vivify. rewrite Hrow. unfold same_reads, adj. simpl.
      split; [reflexivity|]. split; [reflexivity|]. intros a b.
      replace row with (row_of (adjacency (mgr w)) o1)
        by (unfold row_of; rewrite Hrow; reflexivity).
      rewrite adj_read_insert_row. case_decide as Hab; [|reflexivity].
      destruct Hab as [-> ->]. unfold adj_read. rewrite Hrow, Hv. reflexivity.
  - rewrite lookup_empty. unfold put_row. m_simpl. eexists. split; [reflexivity|].
    unfold w_vivify. rewrite Hrow. unfold same_reads, adj. simpl.
    split; [reflexivity|]. split; [reflexivity|]. intros a b.
    rewrite insert_insert_eq.
    replace (∅ : gmap nat (option Z)) with (row_of (adjacency (mgr w)) o1)
      by (unfold row_of; rewrite Hrow; reflexivity).
    rewrite adj_read_insert_row. case_decide as Hab; [|reflexivity].
    destruct Hab as [-> ->]. unfold adj_read. rewrite Hrow. reflexivity.
Qed.

Lemma row_of_vivify (o : nat) (w : World) :
  row_of (adjacency (mgr (w_vivify o w))) o = row_of (adjacency (mgr w)) o.
Proof.
  unfold w_vivify, row_of. destruct (adjacency (mgr w) !! o) eqn:E.
  - rewrite E. reflexivity.
  - simpl. rewrite lookup_insert_eq. reflexivity.
Qed.

Lemma w_vivify_idem (o : nat) (w : World) :
  w_vivify o (w_vivify o w) = w_vivify o w.
Proof.
  unfold w_vivify at 1.
  destruct (adjacency (mgr (w_vivify o w)) !! o) eqn:E; [reflexivity|].
  exfalso. unfold w_vivify in E. destruct (adjacency (mgr w) !! o) eqn:E'.
  - congruence.
  - simpl in E. rewrite lookup_insert_eq in E. discriminate.
Qed.

Lemma adjacency_contains_eq (o1 o2 : nat) (w : World) :
  adjacency_contains o1 o2 w
  = (Ok (bool_decide (is_Some (row_of (adjacency (mgr w)) o1 !! o2))), w_vivify o1 w).
Proof.
  unfold adjacency_contains. rewrite (bind_Ok _ _ _ _ _ (adjacency_row_eq _ _)).
  reflexivity.
Qed.

(** Lines 236-237 (and 238-239): after [if o2 in adjacency[o1]: del ...] the
    pair reads [None] and every other pair reads what it did. *)
Lemma adjacency_discard (o1 o2 : nat) (w : World) :
  exists w',
    bind (adjacency_contains o1 o2)
         (fun c => if c then adjacency_delitem o1 o2 else ret tt) w = (Ok tt, w') /\
    routers (mgr w') = routers (mgr w) /\
    wire w' = wire w /\
    forall a b, adj w' a b = if decide (a = o1 /\ b = o2) then None else adj w a b.
Proof.
  rewrite (bind_Ok _ _ _ _ _ (adjacency_contains_eq _ _ _)).
  destruct (same_reads_vivify o1 w) as (Hr & Hw & Ha).
  destruct (row_of (adjacency (mgr w)) o1 !! o2) as [v|] eqn:Hv.
  - rewrite bool_decide_eq_true_2 by eauto.
    unfold adjacency_delitem. rewrite (bind_Ok _ _ _ _ _ (adjacency_row_eq _ _)).
    pose proof (row_of_vivify o1 w) as Hrow.
    rewrite Hrow, Hv. unfold put_row. m_simpl.
    rewrite w_vivify_idem. eexists. split; [reflexivity|]. simpl.
    split; [exact Hr|]. split; [exact Hw|]. intros a b. unfold adj. simpl.
    rewrite <- Hrow. rewrite adj_read_delete. case_decide; [reflexivity|]. apply Ha.
  - rewrite bool_decide_eq_false_2 by (intros [? ?]; discriminate).
    eexists. split; [reflexivity|]. split; [exact Hr|]. split; [exact Hw|].
    intros a b. rewrite Ha. case_decide as Hab; [|reflexivity].
    destruct Hab as [-> ->]. unfold adj, adj_read. unfold row_of in Hv.
    destruct (adjacency (mgr w) !! o1) as [row|]; [simpl in Hv; rewrite Hv|]; reflexivity.
Qed.

(** ** Link events *)

Lemma list_remove_first_elem (x : Z) (l g : list Z) :
  list_remove_first x l = Some g -> x ∈ l.
Proof.
  revert g. induction l as [|y l IH]; intros g H; simpl in H; [discriminate|].
  destruct (decide (y = x)) as [->|Hne]; [left|].
  destruct (list_remove_first x l) as [g'|] eqn:E; [|discriminate].
  right. eapply IH. reflexivity.
Qed.

Lemma list_remove_first_Some (x : Z) (l : list Z) :
  x ∈ l -> exists g, list_remove_first x l = Some g.
Proof.
  induction l as [|y l IH]; intros H; [inversion H|]. simpl.
  destruct (decide (y = x)) as [->|Hne]; [eauto|].
  apply elem_of_cons in H as [H|H]; [congruence|].
  destruct (IH H) as [g ->]. simpl. eauto.
Qed.

Lemma list_remove_first_NoDup (x : Z) (l g : list Z) :
  NoDup l -> list_remove_first x l = Some g -> x ∉ g.
Proof.
  revert g. induction l as [|y l IH]; intros g Hnd H; simpl in H; [discriminate|].
  apply NoDup_cons in Hnd as [Hy Hnd].
  destruct (decide (y = x)) as [->|Hne].
  - injection H as <-. exact Hy.
  - destruct (list_remove_first x l) as [g'|] eqn:E; [|discriminate].
    injection H as <-. intros Hin. apply elem_of_cons in Hin as [Hin|Hin]; [congruence|].
    exact (IH g' Hnd eq_refl Hin).
Qed.

Lemma igmp_ports_remove_Some (d p : Z) (r : Router) (g : list Z) (w : World) :
  routers (mgr w) !! d = Some r ->
  list_remove_first p (igmp_ports r) = Some g ->
  igmp_ports_remove d p w
  = (Ok tt, w_set_routers (<[d := set_igmp_ports g r]> (routers (mgr w))) w).
Proof.
  intros Hr Hg. unfold igmp_ports_remove.
  rewrite (bind_Ok _ _ _ _ _ (routers_getitem_Some _ _ _ Hr)). rewrite Hg.
  unfold update_router. m_simpl. rewrite (alter_Some_insert _ _ _ _ Hr). reflexivity.
Qed.

Lemma igmp_ports_remove_None (d p : Z) (r : Router) (w : World) :
  routers (mgr w) !! d = Some r ->
  list_remove_first p (igmp_ports r) = None ->
  igmp_ports_remove d p w = (Raised ValueError, w).
Proof.
  intros Hr Hg. unfold igmp_ports_remove.
  rewrite (bind_Ok _ _ _ _ _ (routers_getitem_Some _ _ _ Hr)). rewrite Hg. reflexivity.
Qed.

Lemma igmp_ports_append_eq (d p : Z) (r : Router) (w : World) :
  routers (mgr w) !! d = Some r ->
  igmp_ports_append d p w
  = (Ok tt, w_set_routers (<[d := set_igmp_ports (igmp_ports r ++ [p]) r]> (routers (mgr w))) w).
Proof.
  intros Hr. unfold igmp_ports_append, update_router. m_simpl.
  rewrite (alter_Some_insert _ _ _ _ Hr). reflexivity.
Qed.

Lemma set_connected_hosts_id (r : Router) : set_connected_hosts (connected_hosts r) r = r.
Proof. destruct r; reflexivity. Qed.

Lemma connected_hosts_discard_spec (d p : Z) (r : Router) (w : World) :
  routers (mgr w) !! d = Some r ->
  exists w',
    connected_hosts_discard d p w = (Ok tt, w') /\
    routers (mgr w')
    = <[d := set_connected_hosts (delete p (connected_hosts r)) r]> (routers (mgr w)) /\
    wire w' = wire w /\
    adjacency (mgr w') = adjacency (mgr w).
Proof.
  intros Hr. unfold connected_hosts_discard.
  rewrite (bind_Ok _ _ _ _ _ (routers_getitem_Some _ _ _ Hr)).
  destruct (connected_hosts r !! p) eqn:Hp.
  - unfold update_router. m_simpl. eexists. split; [reflexivity|]. simpl.
    rewrite (alter_Some_insert _ _ _ _ Hr). repeat split.
  - exists w. split; [reflexivity|]. split; [|split; reflexivity].
    rewrite delete_id by exact Hp. rewrite set_connected_hosts_id.
    symmetry. apply insert_id. exact Hr.
Qed.

(** Lines 253-256 and 267-270 when both [remove] calls find their port. *)
Lemma commit_adjacency_spec (l : Link) (o1 o2 : nat) (p1 p2 : Z)
    (r1 r2 : Router) (g1 g2 : list Z) (w : World) :
  routers (mgr w) !! dpid1 l = Some r1 ->
  routers (mgr w) !! dpid2 l = Some r2 ->
  dpid1 l <> dpid2 l ->
  list_remove_first p1 (igmp_ports r1) = Some g1 ->
  list_remove_first p2 (igmp_ports r2) = Some g2 ->
  exists w',
    commit_adjacency l o1 o2 p1 p2 w = (Ok tt, w') /\
    routers (mgr w')
    = <[dpid2 l := set_igmp_ports g2 r2]>
        (<[dpid1 l := set_igmp_ports g1 r1]> (routers (mgr w))) /\
    wire w' = wire w /\
    forall a b, adj w' a b
                = if decide (a = o2 /\ b = o1) then Some p2
                  else if decide (a = o1 /\ b = o2) then Some p1
                  else adj w a b.
Proof.
  intros H1 H2 Hne Hg1 Hg2. unfold commit_adjacency.
  rewrite (bind_Ok _ _ _ _ _ (adjacency_setitem_eq _ _ _ _)).
  set (w1 := w_set_adjacency _ w).
  assert (Hr1 : routers (mgr w1) !! dpid1 l = Some r1) by exact H1.
  rewrite (bind_Ok _ _ _ _ _ (igmp_ports_remove_Some _ _ _ _ _ Hr1 Hg1)).
  set (w2 := w_set_routers _ w1).
  rewrite (bind_Ok _ _ _ _ _ (adjacency_setitem_eq _ _ _ _)).
  set (w3 := w_set_adjacency _ w2).
  assert (Hr2 : routers (mgr w3) !! dpid2 l = Some r2).
  { simpl. rewrite lookup_insert_ne by exact Hne. exact H2. }
  rewrite (igmp_ports_remove_Some _ _ _ _ _ Hr2 Hg2).
  eexists. split; [reflexivity|]. split; [reflexivity|]. split; [reflexivity|].
  intros a b. unfold adj. simpl. rewrite adj_read_insert_row.
  case_decide; [reflexivity|]. rewrite adj_read_insert_row. reflexivity.
Qed.

Section LinkUp.
Context {lib : PoxLib}.

(** Line 262 false: the pair is considered connected and the report is
    ignored. *)
Lemma LinkEvent_up_ignored (disc : list Link) (l : Link) (r1 r2 : Router) (p : Z)
    (w : World) :
  routers (mgr w) !! dpid1 l = Some r1 ->
  routers (mgr w) !! dpid2 l = Some r2 ->
  adj w (r_oid r1) (r_oid r2) = Some p ->
  exists w', _handle_LinkEvent disc (mk_LinkEvent l true) w = (Ok tt, w') /\
             same_reads w w'.
Proof.
  intros H1 H2 Ha. unfold _handle_LinkEvent. simpl.
  rewrite (bind_Ok _ _ _ _ _ (routers_getitem_Some _ _ _ H1)).
  rewrite (bind_Ok _ _ _ _ _ (routers_getitem_Some _ _ _ H2)).
  destruct (adjacency_getitem_read (r_oid r1) (r_oid r2) w) as (w' & Hget & Hsame).
  rewrite (bind_Ok _ _ _ _ _ Hget). rewrite Ha. eauto.
Qed.

(** Line 265 false: the reverse direction is not reported; nothing but
    vivified keys changes. *)
Lemma LinkEvent_up_pending (disc : list Link) (l : Link) (r1 r2 : Router) (w : World) :
  routers (mgr w) !! dpid1 l = Some r1 ->
  routers (mgr w) !! dpid2 l = Some r2 ->
  flip l ∉ disc ->
  exists w', _handle_LinkEvent disc (mk_LinkEvent l true) w = (Ok tt, w') /\
             same_reads w w'.
Proof.
  intros H1 H2 Hflip. unfold _handle_LinkEvent. simpl.
  rewrite (bind_Ok _ _ _ _ _ (routers_getitem_Some _ _ _ H1)).
  rewrite (bind_Ok _ _ _ _ _ (routers_getitem_Some _ _ _ H2)).
  destruct (adjacency_getitem_read (r_oid r1) (r_oid r2) w) as (w' & Hget & Hsame).
  rewrite (bind_Ok _ _ _ _ _ Hget).
  destruct (adj w (r_oid r1) (r_oid r2)); [eauto|].
  rewrite bool_decide_eq_false_2 by exact Hflip. eauto.
Qed.

(** Lines 262-281: the pair is not connected and the reverse direction is
    reported. *)
Lemma LinkEvent_up_commit (disc : list Link) (l : Link) (r1 r2 : Router)
    (g1 g2 : list Z) (w : World) :
  routers (mgr w) !! dpid1 l = Some r1 ->
  routers (mgr w) !! dpid2 l = Some r2 ->
  dpid1 l <> dpid2 l ->
  adj w (r_oid r1) (r_oid r2) = None ->
  flip l ∈ disc ->
  list_remove_first (port1 l) (igmp_ports r1) = Some g1 ->
  list_remove_first (port2 l) (igmp_ports r2) = Some g2 ->
  exists w',
    _handle_LinkEvent disc (mk_LinkEvent l true) w = (Ok tt, w') /\
    routers (mgr w')
    = <[dpid2 l := commit_port (port2 l) g2 r2]>
        (<[dpid1 l := commit_port (port1 l) g1 r1]> (routers (mgr w))) /\
    wire w' = wire w /\
    forall a b, adj w' a b
                = if decide (a = r_oid r2 /\ b = r_oid r1) then Some (port2 l)
                  else if decide (a = r_oid r1 /\ b = r_oid r2) then Some (port1 l)
                  else adj w a b.
Proof.
  intros H1 H2 Hne Ha Hflip Hg1 Hg2. unfold _handle_LinkEvent. simpl.
  rewrite (bind_Ok _ _ _ _ _ (routers_getitem_Some _ _ _ H1)).
  rewrite (bind_Ok _ _ _ _ _ (routers_getitem_Some _ _ _ H2)).
  destruct (adjacency_getitem_read (r_oid r1) (r_oid r2) w) as (w0 & Hget & Hr0 & Hw0 & Ha0).
  rewrite (bind_Ok _ _ _ _ _ Hget). rewrite Ha.
  rewrite bool_decide_eq_true_2 by exact Hflip.
  rewrite <- Hr0 in H1, H2.
  destruct (commit_adjacency_spec l (r_oid r1) (r_oid r2) (port1 l) (port2 l)
              r1 r2 g1 g2 w0 H1 H2 Hne Hg1 Hg2) as (w1 & Hc & Hr1 & Hw1 & Ha1).
  rewrite (bind_Ok _ _ _ _ _ Hc).
  assert (L1 : routers (mgr w1) !! dpid1 l = Some (set_igmp_ports g1 r1)).
  { rewrite Hr1. rewrite lookup_insert_ne by congruence. apply lookup_insert_eq. }
  destruct (connected_hosts_discard_spec _ (port1 l) _ w1 L1) as (w2 & Hd1 & Hr2 & Hw2 & Ha2).
  rewrite (bind_Ok _ _ _ _ _ Hd1).
  assert (L2 : routers (mgr w2) !! dpid2 l = Some (set_igmp_ports g2 r2)).
  { rewrite Hr2, Hr1. rewrite lookup_insert_ne by exact Hne. apply lookup_insert_eq. }
  destruct (connected_hosts_discard_spec _ (port2 l) _ w2 L2) as (w3 & Hd2 & Hr3 & Hw3 & Ha3).
  exists w3. split; [exact Hd2|]. split; [|split].
  - rewrite Hr3, Hr2, Hr1, Hr0. unfold commit_port. simpl.
    apply map_eq. intros i. rewrite !lookup_insert.
    repeat case_decide; congruence.
  - congruence.
  - intros a b. unfold adj in *. rewrite Ha3, Ha2. rewrite Ha1.
    repeat case_decide; try reflexivity. apply Ha0.
Qed.

(** Lines 267-268 when the port is not in the IGMP port list: the first
    direction is written and [list.remove] raises. *)
Lemma LinkEvent_up_commit_raises (disc : list Link) (l : Link) (r1 r2 : Router)
    (w : World) :
  routers (mgr w) !! dpid1 l = Some r1 ->
  routers (mgr w) !! dpid2 l = Some r2 ->
  adj w (r_oid r1) (r_oid r2) = None ->
  flip l ∈ disc ->
  list_remove_first (port1 l) (igmp_ports r1) = None ->
  exists w',
    _handle_LinkEvent disc (mk_LinkEvent l true) w = (Raised ValueError, w') /\
    routers (mgr w') = routers (mgr w) /\
    adj w' (r_oid r1) (r_oid r2) = Some (port1 l).
Proof.
  intros H1 H2 Ha Hflip Hg. unfold _handle_LinkEvent. simpl.
  rewrite (bind_Ok _ _ _ _ _ (routers_getitem_Some _ _ _ H1)).
  rewrite (bind_Ok _ _ _ _ _ (routers_getitem_Some _ _ _ H2)).
  destruct (adjacency_getitem_read (r_oid r1) (r_oid r2) w) as (w0 & Hget & Hr0 & Hw0 & Ha0).
  rewrite (bind_Ok _ _ _ _ _ Hget). rewrite Ha.
  rewrite bool_decide_eq_true_2 by exact Hflip.
  unfold commit_adjacency.
  set (w1 := w_set_adjacency
               (<[r_oid r1 := <[r_oid r2 := Some (port1 l)]>
                                (row_of (adjacency (mgr w0)) (r_oid r1))]> (adjacency (mgr w0)))
               w0).
  assert (L1 : routers (mgr w1) !! dpid1 l = Some r1) by (simpl; congruence).
  assert (E : bind (adjacency_setitem (r_oid r1) (r_oid r2) (port1 l))
                (fun _ => bind (igmp_ports_remove (dpid1 l) (port1 l))
                            (fun _ => bind (adjacency_setitem (r_oid r2) (r_oid r1) (port2 l))
                                        (fun _ => igmp_ports_remove (dpid2 l) (port2 l)))) w0
              = (Raised ValueError, w1)).
  { rewrite (bind_Ok _ _ _ _ _ (adjacency_setitem_eq _ _ _ _)). fold w1.
    apply bind_Raised. apply (igmp_ports_remove_None _ _ r1); assumption. }
  rewrite (bind_Raised _ _ _ _ _ E).
  exists w1. split; [reflexivity|]. split; [simpl; exact Hr0|].
  unfold adj. simpl. rewrite adj_read_insert_row.
  rewrite decide_True by (split; reflexivity). reflexivity.
Qed.

End LinkUp.

Lemma link_committed_flip (w w' : World) (l : Link) (r1 r2 : Router) (g1 g2 : list Z) :
  dpid1 l <> dpid2 l ->
  link_committed w w' (flip l) r2 r1 g2 g1 -> link_committed w w' l r1 r2 g1 g2.
Proof.
  intros Hne (A1 & A2 & A3 & R & W). simpl in *.
  split; [exact A2|]. split; [exact A1|]. split; [|split; [|exact W]].
  - intros a b H1 H2. apply A3; assumption.
  - rewrite R. apply map_eq. intros i. rewrite !lookup_insert.
    repeat case_decide; congruence.
Qed.

Section LinkUpPair.
Context {lib : PoxLib}.

Lemma link_up_then_reverse (w : World) (l : Link) (r1 r2 : Router) (g1 g2 : list Z)
    (D1 D2 : list Link) :
  routers (mgr w) !! dpid1 l = Some r1 ->
  routers (mgr w) !! dpid2 l = Some r2 ->
  dpid1 l <> dpid2 l ->
  r_oid r1 <> r_oid r2 ->
  adj w (r_oid r1) (r_oid r2) = None ->
  adj w (r_oid r2) (r_oid r1) = None ->
  list_remove_first (port1 l) (igmp_ports r1) = Some g1 ->
  list_remove_first (port2 l) (igmp_ports r2) = Some g2 ->
  l ∈ D2 ->
  exists w1 w2,
    dispatch (link_up D1 l) w = (Ok tt, w1) /\
    dispatch (link_up D2 (flip l)) w1 = (Ok tt, w2) /\
    link_committed w w2 l r1 r2 g1 g2.
Proof.
  intros H1 H2 Hne Ho A12 A21 Hg1 Hg2 HD2. unfold link_up, dispatch.
  destruct (decide (flip l ∈ D1)) as [Hin|Hnin].
  - (* committed by the first report, the second is ignored *)
    destruct (LinkEvent_up_commit D1 l r1 r2 g1 g2 w H1 H2 Hne A12 Hin Hg1 Hg2)
      as (w1 & E1 & R1 & W1 & Ad1).
    assert (L2 : routers (mgr w1) !! dpid1 (flip l) = Some (commit_port (port2 l) g2 r2)).
    { simpl. rewrite R1. apply lookup_insert_eq. }
    assert (L1 : routers (mgr w1) !! dpid2 (flip l) = Some (commit_port (port1 l) g1 r1)).
    { simpl. rewrite R1. rewrite lookup_insert_ne by congruence. apply lookup_insert_eq. }
    assert (Ha : adj w1 (r_oid (commit_port (port2 l) g2 r2))
                        (r_oid (commit_port (port1 l) g1 r1)) = Some (port2 l)).
    { simpl. rewrite Ad1. rewrite decide_True by (split; reflexivity). reflexivity. }
    destruct (LinkEvent_up_ignored D2 (flip l) _ _ _ w1 L2 L1 Ha) as (w2 & E2 & R2 & W2 & Ad2).
    exists w1, w2. split; [exact E1|]. split; [exact E2|].
    split; [|split; [|split; [|split]]].
    + rewrite Ad2, Ad1. rewrite decide_False by (intros [? ?]; congruence).
      rewrite decide_True by (split; reflexivity). reflexivity.
    + rewrite Ad2, Ad1. rewrite decide_True by (split; reflexivity). reflexivity.
    + intros a b N1 N2. rewrite Ad2, Ad1.
      rewrite decide_False by (intros [-> ->]; apply N2; reflexivity).
      rewrite decide_False by (intros [-> ->]; apply N1; reflexivity). reflexivity.
    + congruence.
    + congruence.
  - (* held pending by the first report, committed by the second *)
    destruct (LinkEvent_up_pending D1 l r1 r2 w H1 H2 Hnin) as (w1 & E1 & R1 & W1 & Ad1).
    assert (L2 : routers (mgr w1) !! dpid1 (flip l) = Some r2) by (simpl; congruence).
    assert (L1 : routers (mgr w1) !! dpid2 (flip l) = Some r1) by (simpl; congruence).
    assert (Hne' : dpid1 (flip l) <> dpid2 (flip l)) by (simpl; congruence).
    assert (Ha : adj w1 (r_oid r2) (r_oid r1) = None) by (rewrite Ad1; exact A21).
    assert (HD : flip (flip l) ∈ D2) by (destruct l; exact HD2).
    destruct (LinkEvent_up_commit D2 (flip l) r2 r1 g2 g1 w1 L2 L1 Hne' Ha HD Hg2 Hg1)
      as (w2 & E2 & R2 & W2 & Ad2).
    exists w1, w2. split; [exact E1|]. split; [exact E2|].
    apply link_committed_flip; [exact Hne|].
    split; [|split; [|split; [|split]]].
    + rewrite Ad2. rewrite decide_False by (intros [? ?]; congruence).
      rewrite decide_True by (split; reflexivity). reflexivity.
    + rewrite Ad2. rewrite decide_True by (split; reflexivity). reflexivity.
    + intros a b N1 N2. rewrite Ad2.
      rewrite decide_False by (intros [-> ->]; apply N2; reflexivity).
      rewrite decide_False by (intros [-> ->]; apply N1; reflexivity). apply Ad1.
    + rewrite R2, R1. reflexivity.
    + congruence.
Qed.

End LinkUpPair.

(** C5, as amended.  [l] is a link between two distinct registered routers
    that are not yet adjacent in either direction, and each end's port is in
    its router's IGMP port list.  Whatever the discovery table held at the
    first report, once both directions have been reported, in either order,
    with the first report still in the table at the second, both handlers
    return normally and the link is committed: adjacency[R1][R2] is the port
    on R1, adjacency[R2][R1] the port on R2, no other pair changed, and the
    first occurrence of each port is gone from its router's IGMP port list
    (so the port is not in the list any more when the list had no
    duplicates).  A report whose reverse is not in the table changes no
    adjacency read and no router. *)
Theorem C5_link_up_both_directions {lib : PoxLib}
    (w : World) (l : Link) (r1 r2 : Router) (g1 g2 : list Z) :
  routers (mgr w) !! dpid1 l = Some r1 ->
  routers (mgr w) !! dpid2 l = Some r2 ->
  dpid1 l <> dpid2 l ->
  r_oid r1 <> r_oid r2 ->
  adj w (r_oid r1) (r_oid r2) = None ->
  adj w (r_oid r2) (r_oid r1) = None ->
  list_remove_first (port1 l) (igmp_ports r1) = Some g1 ->
  list_remove_first (port2 l) (igmp_ports r2) = Some g2 ->
  (forall D1 D2, l ∈ D2 ->
     outcomes [link_up D1 l; link_up D2 (flip l)] w = [Ok tt; Ok tt] /\
     link_committed w (run_events [link_up D1 l; link_up D2 (flip l)] w) l r1 r2 g1 g2) /\
  (forall D1 D2, flip l ∈ D2 ->
     outcomes [link_up D1 (flip l); link_up D2 l] w = [Ok tt; Ok tt] /\
     link_committed w (run_events [link_up D1 (flip l); link_up D2 l] w) l r1 r2 g1 g2) /\
  (forall D, flip l ∉ D ->
     (dispatch (link_up D l) w).1 = Ok tt /\ same_reads w (dispatch (link_up D l) w).2) /\
  (forall D, l ∉ D ->
     (dispatch (link_up D (flip l)) w).1 = Ok tt /\
     same_reads w (dispatch (link_up D (flip l)) w).2) /\
  (NoDup (igmp_ports r1) -> port1 l ∉ g1) /\
  (NoDup (igmp_ports r2) -> port2 l ∉ g2).
Proof.
  intros H1 H2 Hne Ho A12 A21 Hg1 Hg2.
  assert (Hff : flip (flip l) = l) by (destruct l; reflexivity).
  split; [|split; [|split; [|split; [|split]]]].
  - intros D1 D2 HD.
    destruct (link_up_then_reverse w l r1 r2 g1 g2 D1 D2 H1 H2 Hne Ho A12 A21 Hg1 Hg2 HD)
      as (w1 & w2 & E1 & E2 & Hc).
    cbn [outcomes run_events]. rewrite E1. cbn [fst snd]. rewrite E2.
    split; [reflexivity | exact Hc].
  - intros D1 D2 HD.
    assert (HD' : flip l ∈ D2) by exact HD.
    destruct (link_up_then_reverse w (flip l) r2 r1 g2 g1 D1 D2) as (w1 & w2 & E1 & E2 & Hc);
      try assumption; try (simpl; congruence).
    rewrite Hff in E2. cbn [outcomes run_events]. rewrite E1. cbn [fst snd]. rewrite E2.
    split; [reflexivity|]. apply link_committed_flip; assumption.
  - intros D HD. unfold link_up, dispatch.
    destruct (LinkEvent_up_pending D l r1 r2 w H1 H2 HD) as (w1 & E1 & Hs).
    rewrite E1. split; [reflexivity | exact Hs].
  - intros D HD. unfold link_up, dispatch.
    assert (HD' : flip (flip l) ∉ D) by (rewrite Hff; exact HD).
    destruct (LinkEvent_up_pending D (flip l) r2 r1 w H2 H1 HD') as (w1 & E1 & Hs).
    rewrite E1. split; [reflexivity | exact Hs].
  - intros Hnd. eapply list_remove_first_NoDup; eassumption.
  - intros Hnd. eapply list_remove_first_NoDup; eassumption.
Qed.

(** The theorem on the two freshly connected switches and [link_a]. *)
Lemma C5_link_up_both_directions_witness :
  let w := @run_events pox_defaults two_switches World_init in
  (forall D1 D2, link_a ∈ D2 ->
     @outcomes pox_defaults [link_up D1 link_a; link_up D2 (flip link_a)] w
     = [Ok tt; Ok tt] /\
     link_committed w
       (@run_events pox_defaults [link_up D1 link_a; link_up D2 (flip link_a)] w)
       link_a sw1_router sw2_router [2] [2]) /\
  (forall D1 D2, flip link_a ∈ D2 ->
     @outcomes pox_defaults [link_up D1 (flip link_a); link_up D2 link_a] w
     = [Ok tt; Ok tt] /\
     link_committed w
       (@run_events pox_defaults [link_up D1 (flip link_a); link_up D2 link_a] w)
       link_a sw1_router sw2_router [2] [2]) /\
  (forall D, flip link_a ∉ D ->
     (@dispatch pox_defaults (link_up D link_a) w).1 = Ok tt /\
     same_reads w (@dispatch pox_defaults (link_up D link_a) w).2) /\
  (forall D, link_a ∉ D ->
     (@dispatch pox_defaults (link_up D (flip link_a)) w).1 = Ok tt /\
     same_reads w (@dispatch pox_defaults (link_up D (flip link_a)) w).2) /\
  (NoDup (igmp_ports sw1_router) -> port1 link_a ∉ [2]) /\
  (NoDup (igmp_ports sw2_router) -> port2 link_a ∉ [2]).
Proof.
  intros w.
  apply (@C5_link_up_both_directions pox_defaults w link_a sw1_router sw2_router [2] [2]).
  - vm_compute. reflexivity.
  - vm_compute. reflexivity.
  - vm_compute. discriminate.
  - vm_compute. discriminate.
  - vm_compute. reflexivity.
  - vm_compute. reflexivity.
  - vm_compute. reflexivity.
  - vm_compute. reflexivity.
Defined.

(** ** Packet-in at concrete inputs *)

(** A report on port 1 of switch 1 once [link_a] is committed. *)
Lemma C6_igmp_on_router_port_dropped_witness :
  let w := @run_events pox_defaults a_committed World_init in
  @_handle_PacketIn pox_defaults report_on_sw1_port1 w
  = (Ok tt, mk_World (mgr w) (wire w ++ [drop_message report_on_sw1_port1])).
Proof.
  intros w.
  apply (@C6_igmp_on_router_port_dropped pox_defaults report_on_sw1_port1 w
           (commit_port 1 [2] sw1_router) (mk_igmp 34 0 0 0 0 8)).
  - vm_compute. reflexivity.
  - vm_compute. reflexivity.
  - exists 1%nat. vm_compute. reflexivity.
Defined.

(** A datagram for 224.1.1.1 on port 1 of switch 1 once [link_a] is
    committed. *)
Lemma C10_multicast_on_router_port_flooded_witness :
  let w := @run_events pox_defaults a_committed World_init in
  @_handle_PacketIn pox_defaults data_on_sw1_port1 w
  = (Ok tt, mk_World (mgr w)
                     (wire w ++ [@flood_message pox_defaults data_on_sw1_port1;
                                 @flood_flow_message pox_defaults data_on_sw1_port1
                                                     (dstip multicast_data)])).
Proof.
  intros w.
  apply (@C10_multicast_on_router_port_flooded pox_defaults data_on_sw1_port1 w
           (commit_port 1 [2] sw1_router) multicast_data).
  - vm_compute. reflexivity.
  - vm_compute. reflexivity.
  - vm_compute. reflexivity.
  - vm_compute. reflexivity.
  - exists 1%nat. vm_compute. reflexivity.
Defined.

(** The first report on port 2 of switch 1. *)
Lemma C7_igmp_on_edge_port_learns_host_witness :
  let w := @run_events pox_defaults two_switches World_init in
  let event := report_on_sw1_port2 host_5 in
  let out := @_handle_PacketIn pox_defaults event w in
  out.1 = Ok tt /\
  routers (mgr out.2)
  = <[conn_dpid (pe_connection event) :=
        set_connected_hosts (<[pe_port event := host_5]> (connected_hosts sw1_router))
                            sw1_router]> (routers (mgr w)) /\
  wire out.2 = wire w ++ [drop_message event] /\
  (forall a b, adj out.2 a b = adj w a b).
Proof.
  intros w event.
  apply (@C7_igmp_on_edge_port_learns_host pox_defaults event w sw1_router
           (mk_igmp 34 0 0 0 0 8) (mk_ipv4 1 2 192 host_5 3758096406
                                            (IpIgmp (mk_igmp 34 0 0 0 0 8)))).
  - vm_compute. reflexivity.
  - vm_compute. reflexivity.
  - vm_compute. reflexivity.
  - intros [nb H]. vm_compute in H. discriminate.
  - vm_compute. reflexivity.
Defined.

(** ** An invariant of the registry *)

Lemma registry_ok_frame (w w' : World) :
  routers (mgr w') = routers (mgr w) ->
  next_oid (mgr w') = next_oid (mgr w) ->
  registry_ok w -> registry_ok w'.
Proof. unfold registry_ok. intros -> ->. exact id. Qed.

(** In a sound registry two dpids never share a Router object. *)
Lemma registry_ok_distinct_objects (w : World) (d1 d2 : Z) (r1 r2 : Router) :
  registry_ok w ->
  routers (mgr w) !! d1 = Some r1 ->
  routers (mgr w) !! d2 = Some r2 ->
  d1 <> d2 -> r_oid r1 <> r_oid r2.
Proof. intros [_ H] L1 L2 Hne Ho. apply Hne. eapply H; eassumption. Qed.

Lemma registry_ok_init : registry_ok World_init.
Proof.
  split.
  - intros d r H. simpl in H. rewrite lookup_empty in H. discriminate.
  - intros d1 d2 r1 r2 H. simpl in H. rewrite lookup_empty in H. discriminate.
Qed.

Lemma pres_ret {A} (a : A) : preserves (ret a).
Proof. intros w H. exact H. Qed.

Lemma pres_raise {A} (e : exn) : preserves (@raise A e).
Proof. intros w H. exact H. Qed.

Lemma pres_get_mgr : preserves get_mgr.
Proof. intros w H. exact H. Qed.

Lemma pres_send (c : Connection) (msg : ofp_msg) : preserves (send c msg).
Proof. intros w H. exact H. Qed.

Lemma pres_bind {A B} (c : M A) (k : A -> M B) :
  preserves c -> (forall a, preserves (k a)) -> preserves (bind c k).
Proof.
  intros Hc Hk w H. unfold bind. specialize (Hc w H).
  destruct (c w) as [[a|e] w']; simpl in *; [apply Hk; exact Hc | exact Hc].
Qed.

Lemma pres_for_each {A} (l : list A) (body : A -> M unit) :
  (forall x, preserves (body x)) -> preserves (for_each l body).
Proof.
  intros Hb. induction l as [|x l IH]; simpl.
  - apply pres_ret.
  - apply pres_bind; [apply Hb | intros _; exact IH].
Qed.

Lemma pres_put_row (o : nat) (row : gmap nat (option Z)) : preserves (put_row o row).
Proof. intros w H. eapply registry_ok_frame; [| |exact H]; reflexivity. Qed.

Lemma pres_update_router (d : Z) (f : Router -> Router) :
  keeps_identity f -> preserves (update_router d f).
Proof.
  intros Hf w [H1 H2]. split; simpl.
  - intros d' r' Hl. apply lookup_alter_Some in Hl as [(-> & r & Hr & ->)|(_ & Hr)].
    + destruct (Hf r) as [-> ->]. eapply H1; eassumption.
    + eapply H1; eassumption.
  - intros d1 d2 r1 r2 L1 L2 Ho.
    apply lookup_alter_Some in L1 as [(_ & x1 & X1 & ->)|(_ & X1)];
    apply lookup_alter_Some in L2 as [(_ & x2 & X2 & ->)|(_ & X2)];
    try (rewrite (proj1 (Hf x1)) in Ho); try (rewrite (proj1 (Hf x2)) in Ho);
    eapply H2; eassumption.
Qed.

Lemma keeps_identity_igmp_ports (g : list Z) : keeps_identity (set_igmp_ports g).
Proof. intros r. split; reflexivity. Qed.

Lemma keeps_identity_igmp_append (p : Z) :
  keeps_identity (fun r => set_igmp_ports (igmp_ports r ++ [p]) r).
Proof. intros r. split; reflexivity. Qed.

Lemma keeps_identity_hosts (h : Router -> gmap Z Z) :
  keeps_identity (fun r => set_connected_hosts (h r) r).
Proof. intros r. split; reflexivity. Qed.

Create HintDb pres.
#[local] Hint Resolve pres_ret pres_raise pres_get_mgr pres_send pres_put_row
  pres_update_router keeps_identity_igmp_ports keeps_identity_igmp_append
  keeps_identity_hosts : pres.

(** Structural descent through a computation built from the primitives. *)
Ltac pres_step :=
  match goal with
  | |- preserves (bind _ _) => apply pres_bind; [|intros ?]
  | |- preserves (for_each _ _) => apply pres_for_each; intros ?
  | |- preserves (match ?x with _ => _ end) => destruct x
  | |- preserves _ => solve [eauto with pres]
  end.

Ltac pres_auto := repeat pres_step.

Lemma pres_routers_getitem (d : Z) : preserves (routers_getitem d).
Proof. unfold routers_getitem. pres_auto. Qed.

Lemma pres_adjacency_row (o : nat) : preserves (adjacency_row o).
Proof. unfold adjacency_row. pres_auto. Qed.

#[local] Hint Resolve pres_routers_getitem pres_adjacency_row : pres.

Lemma pres_adjacency_getitem (o1 o2 : nat) : preserves (adjacency_getitem o1 o2).
Proof. unfold adjacency_getitem. pres_auto. Qed.

Lemma pres_adjacency_setitem (o1 o2 : nat) (p : Z) : preserves (adjacency_setitem o1 o2 p).
Proof. unfold adjacency_setitem. pres_auto. Qed.

Lemma pres_adjacency_contains (o1 o2 : nat) : preserves (adjacency_contains o1 o2).
Proof. unfold adjacency_contains. pres_auto. Qed.

Lemma pres_adjacency_delitem (o1 o2 : nat) : preserves (adjacency_delitem o1 o2).
Proof. unfold adjacency_delitem. pres_auto. Qed.

Lemma pres_adjacency_uses_port (o : nat) (p : Z) : preserves (adjacency_uses_port o p).
Proof. unfold adjacency_uses_port. pres_auto. Qed.

Lemma pres_igmp_ports_append (d p : Z) : preserves (igmp_ports_append d p).
Proof. unfold igmp_ports_append. pres_auto. Qed.

Lemma pres_igmp_ports_remove (d p : Z) : preserves (igmp_ports_remove d p).
Proof. unfold igmp_ports_remove. pres_auto. Qed.

Lemma pres_connected_hosts_discard (d p : Z) : preserves (connected_hosts_discard d p).
Proof.
  unfold connected_hosts_discard. pres_auto.
Qed.

Lemma pres_learn_host (d : Z) (r : Router) (p src : Z) : preserves (learn_host d r p src).
Proof.
  unfold learn_host. pres_auto.
Qed.

#[local] Hint Resolve pres_adjacency_getitem pres_adjacency_setitem pres_adjacency_contains
  pres_adjacency_delitem pres_adjacency_uses_port pres_igmp_ports_append
  pres_igmp_ports_remove pres_connected_hosts_discard pres_learn_host : pres.

Section Invariant.
Context {lib : PoxLib}.

Lemma pres_commit_adjacency (l : Link) (o1 o2 : nat) (p1 p2 : Z) :
  preserves (commit_adjacency l o1 o2 p1 p2).
Proof. unfold commit_adjacency. pres_auto. Qed.

Lemma pres_promote_parallel (disc : list Link) (l : Link) (o1 o2 : nat) (rest : list Link) :
  preserves (promote_parallel disc l o1 o2 rest).
Proof.
  induction rest as [|ll rest IH]; simpl.
  - apply pres_ret.
  - destruct ((dpid1 ll =? dpid1 l) && (dpid2 ll =? dpid2 l)); [|exact IH].
    destruct (bool_decide (flip ll ∈ disc)); [apply pres_commit_adjacency | exact IH].
Qed.

Lemma pres_handle_LinkEvent (disc : list Link) (event : LinkEvent) :
  preserves (_handle_LinkEvent disc event).
Proof.
  pose proof pres_commit_adjacency. pose proof pres_promote_parallel.
  unfold _handle_LinkEvent. pres_auto.
Qed.

Lemma pres_drop_packet (event : PacketInEvent) : preserves (drop_packet event).
Proof. unfold drop_packet. pres_auto. Qed.

Lemma pres_handle_PacketIn (event : PacketInEvent) : preserves (_handle_PacketIn event).
Proof.
  pose proof pres_drop_packet.
  unfold _handle_PacketIn. pres_auto.
Qed.

Lemma pres_handle_ConnectionDown (d : Z) : preserves (_handle_ConnectionDown d).
Proof.
  intros w [H1 H2]. unfold _handle_ConnectionDown. m_simpl.
  destruct (routers (mgr w) !! d) eqn:E; simpl; [|split; assumption].
  split; simpl.
  - intros d' r' Hl. apply lookup_delete_Some in Hl as [_ Hl]. eapply H1; eassumption.
  - intros d1 d2 r1 r2 L1 L2. apply lookup_delete_Some in L1 as [_ L1].
    apply lookup_delete_Some in L2 as [_ L2]. eapply H2; eassumption.
Qed.

Lemma pres_send_query (f : ethernet) (r : Router) (p : Z) : preserves (send_query f r p).
Proof. unfold send_query. pres_auto. Qed.

Lemma pres_launch_igmp_general_query : preserves launch_igmp_general_query.
Proof.
  pose proof pres_send_query.
  unfold launch_igmp_general_query. pres_auto.
Qed.

(** Lines 289-302 for a dpid that is not registered. *)
Lemma ConnectionUp_new_router (event : ConnectionUpEvent) (w : World) :
  routers (mgr w) !! conn_dpid (cu_connection event) = None ->
  let out := _handle_ConnectionUp event w in
  out.1 = Ok tt /\
  routers (mgr out.2)
  = <[conn_dpid (cu_connection event) :=
        new_router (next_oid (mgr w)) (cu_connection event) (cu_now event)]> (routers (mgr w)) /\
  next_oid (mgr out.2) = S (next_oid (mgr w)) /\
  adjacency (mgr out.2) = adjacency (mgr w) /\
  wire out.2 = wire w.
Proof.
  intros H out. subst out. unfold _handle_ConnectionUp. m_simpl. rewrite H. simpl.
  unfold connect_router, routers_getitem, update_router. m_simpl.
  rewrite lookup_insert_eq. unfold Router_connect. simpl.
  rewrite decide_True by reflexivity. simpl.
  assert (E : forall (r : Router) (rs : gmap Z Router) (d : Z) (r0 : Router),
             alter (fun _ => r) d (<[d := r0]> rs) = <[d := r]> rs).
  { intros r rs d r0. apply map_eq. intros i. destruct (decide (d = i)) as [->|Hne].
    - rewrite lookup_alter_eq, !lookup_insert_eq. reflexivity.
    - rewrite lookup_alter_ne, !lookup_insert_ne by assumption. reflexivity. }
  destruct (got_first_connection_up (mgr w)); simpl; rewrite E; repeat split.
Qed.

Lemma pres_handle_ConnectionUp (event : ConnectionUpEvent) :
  preserves (_handle_ConnectionUp event).
Proof.
  intros w Hok.
  destruct (routers (mgr w) !! conn_dpid (cu_connection event)) as [r|] eqn:E.
  - destruct (ConnectionUp_known_router event w r E) as (_ & Hr & _ & _).
    revert Hr. unfold _handle_ConnectionUp. m_simpl. rewrite E. simpl.
    destruct (got_first_connection_up (mgr w)); simpl; intros _; exact Hok.
  - destruct (ConnectionUp_new_router event w E) as (_ & Hr & Hn & _ & _).
    destruct Hok as [H1 H2]. split.
    + intros d r. rewrite Hr, Hn. intros Hl.
      apply lookup_insert_Some in Hl as [[_ <-]|[_ Hl]]; simpl.
      * split; [eauto | lia].
      * destruct (H1 d r Hl). split; [assumption | lia].
    + intros d1 d2 r1 r2. rewrite Hr. intros L1 L2 Ho.
      apply lookup_insert_Some in L1 as [[<- <-]|[N1 L1]];
      apply lookup_insert_Some in L2 as [[<- <-]|[N2 L2]]; simpl in Ho.
      * reflexivity.
      * destruct (H1 d2 r2 L2). lia.
      * destruct (H1 d1 r1 L1). lia.
      * eapply H2; eassumption.
Qed.

Lemma pres_dispatch (ev : Event) : preserves (dispatch ev).
Proof.
  destruct ev; simpl.
  - apply pres_handle_ConnectionUp.
  - apply pres_handle_ConnectionDown.
  - apply pres_handle_LinkEvent.
  - apply pres_handle_PacketIn.
  - pose proof pres_launch_igmp_general_query. pres_auto.
Qed.

(** After any sequence of events from the start the registry is sound. *)
Lemma registry_ok_run_events (evs : list Event) (w : World) :
  registry_ok w -> registry_ok (run_events evs w).
Proof.
  revert w. induction evs as [|ev evs IH]; intros w H; simpl; [exact H|].
  apply IH. apply pres_dispatch. exact H.
Qed.

End Invariant.

(** ** The general query *)

Section GeneralQuery.
Context {lib : PoxLib}.

Lemma World_wire_nil (w : World) : mk_World (mgr w) (wire w ++ []) = w.
Proof. destruct w. simpl. rewrite app_nil_r. reflexivity. Qed.

(** Lines 198-202 for a router that holds a connection. *)
Lemma send_query_ports (r : Router) (c : Connection) (ps : list Z) (w : World) :
  connection r = Some c ->
  for_each ps (send_query general_query_frame r) w
  = (Ok tt, mk_World (mgr w) (wire w ++ map (fun p => (c, query_packet_out p)) ps)).
Proof.
  intros Hc. revert w. induction ps as [|p ps IH]; intros w; simpl.
  - unfold ret. rewrite World_wire_nil. reflexivity.
  - assert (Hs : send_query general_query_frame r p w
                 = (Ok tt, mk_World (mgr w) (wire w ++ [(c, query_packet_out p)]))).
    { unfold send_query. rewrite Hc. reflexivity. }
    rewrite (bind_Ok _ _ _ _ _ Hs). rewrite IH. simpl.
    rewrite <- app_assoc. reflexivity.
Qed.

(** Lines 194-202 over any list of registered items. *)
Lemma send_query_routers (items : list (Z * Router)) (w : World) :
  Forall (fun item => is_Some (connection item.2)) items ->
  for_each items
    (fun item => for_each (igmp_ports item.2) (send_query general_query_frame item.2)) w
  = (Ok tt, mk_World (mgr w) (wire w ++ flat_map query_messages (map snd items))).
Proof.
  intros H. revert w. induction H as [|[d r] items [c Hc] _ IH]; intros w; simpl.
  - unfold ret. rewrite World_wire_nil. reflexivity.
  - simpl in Hc. rewrite (bind_Ok _ _ _ _ _ (send_query_ports r c _ w Hc)).
    rewrite IH. simpl.
    unfold query_messages at 2. rewrite Hc. rewrite <- app_assoc. reflexivity.
Qed.

(** The dictionary order lists the items of the dictionary, each once. *)
Lemma dict_items_Permutation (rs : gmap Z Router) : dict_items rs ≡ₚ map_to_list rs.
Proof. apply merge_sort_Permutation. Qed.

Lemma elem_of_dict_items (rs : gmap Z Router) (d : Z) (r : Router) :
  (d, r) ∈ dict_items rs <-> rs !! d = Some r.
Proof. rewrite dict_items_Permutation. apply elem_of_map_to_list. Qed.

Lemma launch_igmp_general_query_connected (w : World) :
  registry_ok w ->
  launch_igmp_general_query w
  = (Ok tt, mk_World (mgr w)
              (wire w ++ flat_map query_messages (map snd (dict_items (routers (mgr w)))))).
Proof.
  intros [H _]. unfold launch_igmp_general_query.
  rewrite (bind_Ok get_mgr _ w w (mgr w)) by reflexivity.
  apply send_query_routers. apply Forall_forall. intros [d r] Hin. simpl.
  apply elem_of_dict_items in Hin. apply (H d r Hin).
Qed.

End GeneralQuery.

(** ** Link removal *)

Lemma bind_assoc {A B C} (c : M A) (k : A -> M B) (k' : B -> M C) (w : World) :
  bind (bind c k) k' w = bind c (fun a => bind (k a) k') w.
Proof. unfold bind. destruct (c w) as [[a|e] w1]; reflexivity. Qed.

Lemma adjacency_discard_then (o1 o2 : nat) (w : World) :
  exists w',
    (forall B (K : unit -> M B),
        bind (adjacency_contains o1 o2)
             (fun c => bind (if c then adjacency_delitem o1 o2 else ret tt) K) w
        = K tt w') /\
    routers (mgr w') = routers (mgr w) /\
    wire w' = wire w /\
    forall a b, adj w' a b = if decide (a = o1 /\ b = o2) then None else adj w a b.
Proof.
  destruct (adjacency_discard o1 o2 w) as (w' & E & H).
  exists w'. split; [|exact H]. intros B K.
  rewrite <- bind_assoc. apply bind_Ok. exact E.
Qed.

Section LinkDown.
Context {lib : PoxLib}.

Lemma promote_parallel_first (disc : list Link) (l : Link) (o1 o2 : nat)
    (rest : list Link) (w : World) :
  promote_parallel disc l o1 o2 rest w
  = match first_parallel disc l rest with
    | Some ll => commit_adjacency l o1 o2 (port1 ll) (port2 ll) w
    | None => (Ok tt, w)
    end.
Proof.
  unfold first_parallel. induction rest as [|ll rest IH]; simpl; [reflexivity|].
  destruct ((dpid1 ll =? dpid1 l) && (dpid2 ll =? dpid2 l)); simpl; [|exact IH].
  destruct (bool_decide (flip ll ∈ disc)); [reflexivity | exact IH].
Qed.

(** Lines 234-245: the part of a removal that always runs. *)
Lemma LinkEvent_removed_prefix (disc : list Link) (l : Link) (r1 r2 : Router) (w : World) :
  routers (mgr w) !! dpid1 l = Some r1 ->
  routers (mgr w) !! dpid2 l = Some r2 ->
  dpid1 l <> dpid2 l ->
  exists w',
    _handle_LinkEvent disc (mk_LinkEvent l false) w
    = promote_parallel disc l (r_oid r1) (r_oid r2) disc w' /\
    routers (mgr w')
    = <[dpid2 l := set_igmp_ports (igmp_ports r2 ++ [port2 l]) r2]>
        (<[dpid1 l := set_igmp_ports (igmp_ports r1 ++ [port1 l]) r1]> (routers (mgr w))) /\
    wire w' = wire w /\
    forall a b, adj w' a b
                = if decide (a = r_oid r2 /\ b = r_oid r1) then None
                  else if decide (a = r_oid r1 /\ b = r_oid r2) then None
                  else adj w a b.
Proof.
  intros H1 H2 Hne. unfold _handle_LinkEvent. simpl.
  rewrite (bind_Ok _ _ _ _ _ (routers_getitem_Some _ _ _ H1)).
  rewrite (bind_Ok _ _ _ _ _ (routers_getitem_Some _ _ _ H2)).
  destruct (adjacency_discard_then (r_oid r1) (r_oid r2) w) as (w1 & E1 & R1 & W1 & A1).
  rewrite E1.
  destruct (adjacency_discard_then (r_oid r2) (r_oid r1) w1) as (w2 & E2 & R2 & W2 & A2).
  rewrite E2.
  assert (L1 : routers (mgr w2) !! dpid1 l = Some r1) by congruence.
  rewrite (bind_Ok _ _ _ _ _ (igmp_ports_append_eq _ (port1 l) _ _ L1)).
  set (w3 := w_set_routers _ w2).
  assert (L2 : routers (mgr w3) !! dpid2 l = Some r2).
  { simpl. rewrite lookup_insert_ne by exact Hne. congruence. }
  rewrite (bind_Ok _ _ _ _ _ (igmp_ports_append_eq _ (port2 l) _ _ L2)).
  eexists. split; [reflexivity|]. split; [|split].
  - simpl. rewrite R2, R1. reflexivity.
  - simpl. congruence.
  - intros a b. unfold adj in *. simpl. rewrite A2. case_decide; [reflexivity|]. apply A1.
Qed.

(** Lines 234-258 when the scan settles on [ll] and both of its ports are in
    the IGMP port lists once the removed link's ports have been appended:
    the adjacency points at the ports of [ll] in both directions. *)
Lemma LinkEvent_removed_promotes (disc : list Link) (l ll : Link) (r1 r2 : Router)
    (g1 g2 : list Z) (w : World) :
  routers (mgr w) !! dpid1 l = Some r1 ->
  routers (mgr w) !! dpid2 l = Some r2 ->
  dpid1 l <> dpid2 l ->
  first_parallel disc l disc = Some ll ->
  list_remove_first (port1 ll) (igmp_ports r1 ++ [port1 l]) = Some g1 ->
  list_remove_first (port2 ll) (igmp_ports r2 ++ [port2 l]) = Some g2 ->
  exists w',
    _handle_LinkEvent disc (mk_LinkEvent l false) w = (Ok tt, w') /\
    routers (mgr w')
    = <[dpid2 l := set_igmp_ports g2 r2]>
        (<[dpid1 l := set_igmp_ports g1 r1]> (routers (mgr w))) /\
    wire w' = wire w /\
    forall a b, adj w' a b
                = if decide (a = r_oid r2 /\ b = r_oid r1) then Some (port2 ll)
                  else if decide (a = r_oid r1 /\ b = r_oid r2) then Some (port1 ll)
                  else adj w a b.
Proof.
  intros H1 H2 Hne Hfirst Hg1 Hg2.
  destruct (LinkEvent_removed_prefix disc l r1 r2 w H1 H2 Hne) as (w1 & E & R1 & W1 & A1).
  rewrite E, promote_parallel_first, Hfirst.
  assert (L1 : routers (mgr w1) !! dpid1 l
               = Some (set_igmp_ports (igmp_ports r1 ++ [port1 l]) r1)).
  { rewrite R1. rewrite lookup_insert_ne by congruence. apply lookup_insert_eq. }
  assert (L2 : routers (mgr w1) !! dpid2 l
               = Some (set_igmp_ports (igmp_ports r2 ++ [port2 l]) r2)).
  { rewrite R1. apply lookup_insert_eq. }
  destruct (commit_adjacency_spec l (r_oid r1) (r_oid r2) (port1 ll) (port2 ll) _ _ g1 g2 w1
              L1 L2 Hne Hg1 Hg2) as (w2 & Ec & R2 & W2 & A2).
  exists w2. split; [exact Ec|]. split; [|split].
  - rewrite R2, R1. unfold set_igmp_ports. simpl. apply map_eq. intros i.
    rewrite !lookup_insert. repeat case_decide; congruence.
  - congruence.
  - intros a b. rewrite A2, A1. repeat case_decide; reflexivity.
Qed.

(** Lines 234-258 when no link of the table qualifies: the pair is no
    longer adjacent and the ports are back in the IGMP port lists. *)
Lemma LinkEvent_removed_no_parallel (disc : list Link) (l : Link) (r1 r2 : Router)
    (w : World) :
  routers (mgr w) !! dpid1 l = Some r1 ->
  routers (mgr w) !! dpid2 l = Some r2 ->
  dpid1 l <> dpid2 l ->
  first_parallel disc l disc = None ->
  exists w',
    _handle_LinkEvent disc (mk_LinkEvent l false) w = (Ok tt, w') /\
    routers (mgr w')
    = <[dpid2 l := set_igmp_ports (igmp_ports r2 ++ [port2 l]) r2]>
        (<[dpid1 l := set_igmp_ports (igmp_ports r1 ++ [port1 l]) r1]> (routers (mgr w))) /\
    wire w' = wire w /\
    adj w' (r_oid r1) (r_oid r2) = None /\
    adj w' (r_oid r2) (r_oid r1) = None.
Proof.
  intros H1 H2 Hne Hfirst.
  destruct (LinkEvent_removed_prefix disc l r1 r2 w H1 H2 Hne) as (w1 & E & R1 & W1 & A1).
  rewrite E, promote_parallel_first, Hfirst.
  exists w1. split; [reflexivity|]. split; [exact R1|]. split; [exact W1|]. split.
  - rewrite A1. case_decide; [reflexivity|].
    rewrite decide_True by (split; reflexivity). reflexivity.
  - rewrite A1. rewrite decide_True by (split; reflexivity). reflexivity.
Qed.

(** The scenario of the spec: [link_a] committed, [link_b] a spare known in
    both directions; [link_a] goes down and [link_b] takes over. *)
Example removing_committed_link_promotes_spare :
  let w := @run_events pox_defaults a_committed_b_spare World_init in
  let out := @dispatch pox_defaults (link_down [link_b; flip link_b] link_a) w in
  out.1 = Ok tt /\
  adj out.2 0%nat 1%nat = Some 2 /\ adj out.2 1%nat 0%nat = Some 2 /\
  (igmp_ports <$> routers (mgr out.2) !! 1) = Some [1] /\
  (igmp_ports <$> routers (mgr out.2) !! 2) = Some [1].
Proof.
  split; [|split; [|split; [|split]]]; vm_compute; reflexivity.
Qed.

End LinkDown.

(** * Further properties of the handlers *)

(** ** Keeping a predicate through a handler *)

Lemma keeps_ret {A} (P : World -> Prop) (a : A) : keeps P (ret a).
Proof. intros w H. exact H. Qed.

Lemma keeps_raise {A} (P : World -> Prop) (e : exn) : keeps P (@raise A e).
Proof. intros w H. exact H. Qed.

Lemma keeps_get_mgr (P : World -> Prop) : keeps P get_mgr.
Proof. intros w H. exact H. Qed.

Lemma keeps_bind {A B} (P : World -> Prop) (c : M A) (k : A -> M B) :
  keeps P c -> (forall a, keeps P (k a)) -> keeps P (bind c k).
Proof.
  intros Hc Hk w H. unfold bind. specialize (Hc w H).
  destruct (c w) as [[a|e] w']; simpl in *; [apply Hk; exact Hc | exact Hc].
Qed.

Lemma keeps_for_each {A} (P : World -> Prop) (l : list A) (body : A -> M unit) :
  (forall x, keeps P (body x)) -> keeps P (for_each l body).
Proof.
  intros Hb. induction l as [|x l IH]; simpl.
  - apply keeps_ret.
  - apply keeps_bind; [apply Hb | intros _; exact IH].
Qed.

Lemma keeps_routers_getitem (P : World -> Prop) (d : Z) : keeps P (routers_getitem d).
Proof.
  intros w H. unfold routers_getitem. m_simpl. destruct (routers (mgr w) !! d); exact H.
Qed.

Lemma handle_LinkEvent_body (disc : list Link) (event : LinkEvent) :
  _handle_LinkEvent disc event
  = bind (routers_getitem (dpid1 (le_link event)))
         (fun router1 => bind (routers_getitem (dpid2 (le_link event)))
            (fun router2 => link_event_body disc event (r_oid router1) (r_oid router2))).
Proof. reflexivity. Qed.

Ltac keeps_step :=
  match goal with
  | |- keeps _ (bind _ _) => apply keeps_bind; [|intros ?]
  | |- keeps _ (for_each _ _) => apply keeps_for_each; intros ?
  | |- keeps _ (ret _) => apply keeps_ret
  | |- keeps _ (raise _) => apply keeps_raise
  | |- keeps _ get_mgr => apply keeps_get_mgr
  | |- keeps _ (routers_getitem _) => apply keeps_routers_getitem
  | |- keeps _ (match ?x with _ => _ end) => destruct x
  | |- keeps _ _ => solve [auto]
  end.

Ltac keeps_auto := repeat keeps_step.

(** The body of a link event keeps whatever the accesses it is made of
    keep, for the two Router objects it works on. *)
Section KeepsLinkBody.
Variable P : World -> Prop.
Variables o1 o2 : nat.
Hypothesis K_contains12 : keeps P (adjacency_contains o1 o2).
Hypothesis K_contains21 : keeps P (adjacency_contains o2 o1).
Hypothesis K_del12 : keeps P (adjacency_delitem o1 o2).
Hypothesis K_del21 : keeps P (adjacency_delitem o2 o1).
Hypothesis K_get12 : keeps P (adjacency_getitem o1 o2).
Hypothesis K_set12 : forall p, keeps P (adjacency_setitem o1 o2 p).
Hypothesis K_set21 : forall p, keeps P (adjacency_setitem o2 o1 p).
Hypothesis K_append : forall d p, keeps P (igmp_ports_append d p).
Hypothesis K_remove : forall d p, keeps P (igmp_ports_remove d p).
Hypothesis K_discard : forall d p, keeps P (connected_hosts_discard d p).

Lemma keeps_commit_adjacency (l : Link) (p1 p2 : Z) :
  keeps P (commit_adjacency l o1 o2 p1 p2).
Proof. unfold commit_adjacency. keeps_auto. Qed.

Lemma keeps_promote_parallel (disc : list Link) (l : Link) (rest : list Link) :
  keeps P (promote_parallel disc l o1 o2 rest).
Proof.
  induction rest as [|ll rest IH]; simpl.
  - apply keeps_ret.
  - destruct ((dpid1 ll =? dpid1 l) && (dpid2 ll =? dpid2 l)); [|exact IH].
    destruct (bool_decide (flip ll ∈ disc)); [apply keeps_commit_adjacency | exact IH].
Qed.

Lemma keeps_link_event_body (disc : list Link) (event : LinkEvent) :
  keeps P (link_event_body disc event o1 o2).
Proof.
  pose proof keeps_commit_adjacency. pose proof keeps_promote_parallel.
  unfold link_event_body. keeps_auto.
Qed.

End KeepsLinkBody.

(** A predicate that no adjacency write, none of the four mutations of a
    Router object and no send can break is kept by the link, packet-in and
    query handlers. *)
Section KeepsLow.
Variable P : World -> Prop.
Hypothesis P_adjacency : forall w a, P w -> P (w_set_adjacency a w).
Hypothesis P_igmp_ports :
  forall w d (g : Router -> list Z),
    P w -> P (w_set_routers (alter (fun r => set_igmp_ports (g r) r) d (routers (mgr w))) w).
Hypothesis P_hosts_delete :
  forall w d p,
    P w -> P (w_set_routers
                (alter (fun r => set_connected_hosts (delete p (connected_hosts r)) r) d
                       (routers (mgr w))) w).
Hypothesis P_hosts_insert :
  forall w d p src,
    P w -> P (w_set_routers
                (alter (fun r => set_connected_hosts (<[p := src]> (connected_hosts r)) r) d
                       (routers (mgr w))) w).
Hypothesis P_send : forall w c msg, P w -> P (mk_World (mgr w) (wire w ++ [(c, msg)])).

Lemma keeps_put_row (o : nat) (row : gmap nat (option Z)) : keeps P (put_row o row).
Proof. intros w H. apply (P_adjacency w _ H). Qed.

Lemma keeps_adjacency_row (o : nat) : keeps P (adjacency_row o).
Proof. pose proof keeps_put_row. unfold adjacency_row. keeps_auto. Qed.

Lemma keeps_adjacency_getitem (o1 o2 : nat) : keeps P (adjacency_getitem o1 o2).
Proof.
  pose proof keeps_put_row. pose proof keeps_adjacency_row.
  unfold adjacency_getitem. keeps_auto.
Qed.

Lemma keeps_adjacency_setitem (o1 o2 : nat) (p : Z) : keeps P (adjacency_setitem o1 o2 p).
Proof.
  pose proof keeps_put_row. pose proof keeps_adjacency_row.
  unfold adjacency_setitem. keeps_auto.
Qed.

Lemma keeps_adjacency_contains (o1 o2 : nat) : keeps P (adjacency_contains o1 o2).
Proof. pose proof keeps_adjacency_row. unfold adjacency_contains. keeps_auto. Qed.

Lemma keeps_adjacency_delitem (o1 o2 : nat) : keeps P (adjacency_delitem o1 o2).
Proof.
  pose proof keeps_put_row. pose proof keeps_adjacency_row.
  unfold adjacency_delitem. keeps_auto.
Qed.

Lemma keeps_adjacency_uses_port (o : nat) (p : Z) : keeps P (adjacency_uses_port o p).
Proof. pose proof keeps_adjacency_row. unfold adjacency_uses_port. keeps_auto. Qed.

Lemma keeps_igmp_ports_append (d p : Z) : keeps P (igmp_ports_append d p).
Proof.
  intros w H. apply (P_igmp_ports w d (fun r => igmp_ports r ++ [p]) H).
Qed.

Lemma keeps_igmp_ports_remove (d p : Z) : keeps P (igmp_ports_remove d p).
Proof.
  unfold igmp_ports_remove. keeps_auto.
  intros w H. apply (P_igmp_ports w d (fun _ => l) H).
Qed.

Lemma keeps_connected_hosts_discard (d p : Z) : keeps P (connected_hosts_discard d p).
Proof.
  unfold connected_hosts_discard. keeps_auto.
  intros w H. apply (P_hosts_delete w d p H).
Qed.

Lemma keeps_learn_host (d : Z) (r : Router) (p src : Z) : keeps P (learn_host d r p src).
Proof.
  unfold learn_host. keeps_auto.
  intros w H. apply (P_hosts_insert w d p src H).
Qed.

Lemma keeps_send (c : Connection) (msg : ofp_msg) : keeps P (send c msg).
Proof. intros w H. apply (P_send w c msg H). Qed.

Lemma keeps_handle_LinkEvent (disc : list Link) (event : LinkEvent) :
  keeps P (_handle_LinkEvent disc event).
Proof.
  rewrite handle_LinkEvent_body. keeps_auto.
  apply keeps_link_event_body;
    auto using keeps_adjacency_contains, keeps_adjacency_delitem, keeps_adjacency_getitem,
      keeps_adjacency_setitem, keeps_igmp_ports_append, keeps_igmp_ports_remove,
      keeps_connected_hosts_discard.
Qed.

Lemma keeps_handle_PacketIn {lib : PoxLib} (event : PacketInEvent) :
  keeps P (_handle_PacketIn event).
Proof.
  pose proof keeps_adjacency_uses_port. pose proof keeps_learn_host.
  pose proof keeps_send.
  assert (keeps P (drop_packet event)) by (unfold drop_packet; keeps_auto).
  unfold _handle_PacketIn. keeps_auto.
Qed.

Lemma keeps_launch_igmp_general_query {lib : PoxLib} : keeps P launch_igmp_general_query.
Proof.
  pose proof keeps_send.
  unfold launch_igmp_general_query. keeps_auto.
  unfold send_query. keeps_auto.
Qed.

End KeepsLow.

Section KeepsStream.
Context {lib : PoxLib}.
Variable P : World -> Prop.
Hypothesis K_dispatch : forall ev, keeps P (dispatch ev).

Lemma keeps_run_events (evs : list Event) (w : World) :
  P w -> P (run_events evs w).
Proof.
  revert w. induction evs as [|ev evs IH]; intros w H; simpl; [exact H|].
  apply IH. apply K_dispatch. exact H.
Qed.

End KeepsStream.

(** ** Router.connect *)

Section RouterConnect.
Context {lib : PoxLib}.

Lemma connect_scan_ports_filter (ps acc : list Z) :
  connect_scan_ports ps acc = acc ++ List.filter not_reserved ps.
Proof.
  revert acc. induction ps as [|p ps IH]; intros acc; simpl.
  - rewrite app_nil_r. reflexivity.
  - unfold not_reserved at 1.
    destruct ((p =? of_OFPP_CONTROLLER) || (p =? of_OFPP_LOCAL)); simpl.
    + apply IH.
    + rewrite IH, <- app_assoc. reflexivity.
Qed.

(** X1.  The loop of lines 95-98 appends to the IGMP port list the feature
    ports that are neither the controller port nor the local port, in the
    order the switch reports them: a port is in the list afterwards exactly
    when it was there before or is a reported port other than those two. *)
Theorem X1_connect_scan_ports_skips_reserved (ps acc : list Z) :
  connect_scan_ports ps acc = acc ++ List.filter not_reserved ps /\
  forall p, p ∈ connect_scan_ports ps acc <->
            p ∈ acc \/ (p ∈ ps /\ p <> of_OFPP_CONTROLLER /\ p <> of_OFPP_LOCAL).
Proof.
  split; [apply connect_scan_ports_filter|].
  intros p. rewrite connect_scan_ports_filter, elem_of_app.
  rewrite !list_elem_of_In, filter_In.
  unfold not_reserved. rewrite negb_true_iff, orb_false_iff, !Z.eqb_neq. tauto.
Qed.

(** Lines 89-104 on a router that has no port list yet. *)
Lemma Router_connect_first (now : float) (c : Connection) (r : Router) :
  ports r = None ->
  dpid r = None \/ dpid r = Some (conn_dpid c) ->
  Router_connect now c r
  = Ok (mk_Router (r_oid r) (Some c) (Some (conn_ports c))
                  (connect_scan_ports (conn_ports c) (igmp_ports r))
                  (Some (conn_dpid c)) (Some (conn_id c)) (Some now) (connected_hosts r)).
Proof.
  intros Hp Hd. destruct r as [o cn ps g d l t h]; simpl in *; subst.
  unfold Router_connect, Router_disconnect; simpl.
  destruct Hd as [->| ->]; simpl; rewrite decide_True by reflexivity;
    destruct cn; reflexivity.
Qed.

(** X2.  [Router.connect] raises, with [AssertionError], exactly when the
    router already has a dpid other than the connection's.  Otherwise it
    binds the handle and the listeners to the connection, stamps the time,
    sets the dpid, and keeps the identity and the host table; the port list
    and the IGMP port list are filled from the connection only when the
    router had no port list yet and are kept as they are otherwise. *)
Theorem X2_Router_connect_outcome (now : float) (c : Connection) (r : Router) :
  match Router_connect now c r with
  | Ok r' =>
      (dpid r = None \/ dpid r = Some (conn_dpid c)) /\
      connection r' = Some c /\ listeners r' = Some (conn_id c) /\
      connected_at r' = Some now /\ dpid r' = Some (conn_dpid c) /\
      r_oid r' = r_oid r /\ connected_hosts r' = connected_hosts r /\
      match ports r with
      | Some ps => ports r' = Some ps /\ igmp_ports r' = igmp_ports r
      | None => ports r' = Some (conn_ports c) /\
                igmp_ports r' = igmp_ports r ++ List.filter not_reserved (conn_ports c)
      end
  | Raised e =>
      e = AssertionError /\ exists d, dpid r = Some d /\ d <> conn_dpid c
  end.
Proof.
  destruct r as [o cn ps g d l t h]. unfold Router_connect, Router_disconnect. simpl.
  destruct d as [d|]; simpl.
  - destruct (decide (Some d = Some (conn_dpid c))) as [E|N].
    + injection E as ->.
      destruct ps as [ps|]; destruct cn; simpl; rewrite ?connect_scan_ports_filter;
        repeat split; auto.
    + split; [reflexivity|]. exists d. split; [reflexivity|]. congruence.
  - rewrite decide_True by reflexivity.
    destruct ps as [ps|]; destruct cn; simpl; rewrite ?connect_scan_ports_filter;
      repeat split; auto.
Qed.

(** X3.  Ports are read once.  When a router without a port list connects
    through [c1] and later through [c2], a connection of the same switch,
    both calls succeed and the router ends bound to [c2] and stamped with the
    second time, but its port list and its IGMP port list are those the
    first connection gave, whatever ports [c2] reports. *)
Theorem X3_Router_connect_twice_keeps_first_ports
    (now1 now2 : float) (c1 c2 : Connection) (r : Router) :
  ports r = None ->
  dpid r = None \/ dpid r = Some (conn_dpid c1) ->
  conn_dpid c2 = conn_dpid c1 ->
  exists r1 r2,
    Router_connect now1 c1 r = Ok r1 /\
    Router_connect now2 c2 r1 = Ok r2 /\
    connection r2 = Some c2 /\ connected_at r2 = Some now2 /\
    ports r2 = Some (conn_ports c1) /\
    igmp_ports r2 = igmp_ports r ++ List.filter not_reserved (conn_ports c1) /\
    connected_hosts r2 = connected_hosts r.
Proof.
  intros Hp Hd Hc.
  eexists. eexists. split; [apply Router_connect_first; assumption|].
  split.
  - apply (Router_connect_again now2 c2 _ (conn_ports c1)); simpl; congruence.
  - simpl. rewrite connect_scan_ports_filter. repeat split.
Qed.

End RouterConnect.

(** ** Connection-up and connection-down *)

Section ConnectionEvents.
Context {lib : PoxLib}.

(** Lines 298-302 after either branch of line 290. *)
Lemma ConnectionUp_flags (event : ConnectionUpEvent) (w : World) :
  got_first_connection_up (mgr (_handle_ConnectionUp event w).2) = true /\
  general_query_timer (mgr (_handle_ConnectionUp event w).2)
  = if got_first_connection_up (mgr w) then general_query_timer (mgr w)
    else Some igmp_query_interval.
Proof.
  unfold _handle_ConnectionUp. m_simpl.
  destruct (routers (mgr w) !! conn_dpid (cu_connection event)) as [r|]; simpl.
  - destruct (got_first_connection_up (mgr w)) eqn:E; simpl; rewrite ?E; split; reflexivity.
  - unfold connect_router, routers_getitem, update_router. m_simpl.
    rewrite lookup_insert_eq. unfold Router_connect. simpl.
    rewrite decide_True by reflexivity. simpl.
    destruct (got_first_connection_up (mgr w)) eqn:E; simpl; rewrite ?E; split; reflexivity.
Qed.

(** Line 301 runs exactly when line 298 finds the flag unset. *)
Lemma ConnectionUp_timers (event : ConnectionUpEvent) (w : World) :
  timers_started (mgr (_handle_ConnectionUp event w).2)
  = if got_first_connection_up (mgr w) then timers_started (mgr w)
    else timers_started (mgr w) ++ [igmp_query_interval].
Proof.
  unfold _handle_ConnectionUp. m_simpl.
  destruct (routers (mgr w) !! conn_dpid (cu_connection event)) as [r|]; simpl.
  - destruct (got_first_connection_up (mgr w)) eqn:E; simpl; rewrite ?E; reflexivity.
  - unfold connect_router, routers_getitem, update_router. m_simpl.
    rewrite lookup_insert_eq. unfold Router_connect. simpl.
    rewrite decide_True by reflexivity. simpl.
    destruct (got_first_connection_up (mgr w)) eqn:E; simpl; rewrite ?E; reflexivity.
Qed.

(** X4.  A connection-up for a dpid that is not registered returns normally
    and registers one new Router object under that dpid: it has the next
    object identity, is bound to the event's connection and stamped with the
    time of the event, knows the connection's ports, offers IGMP on those
    that are not reserved and has no host.  No other router changes, the
    adjacency is untouched, nothing is sent, and the query timer is armed
    with the query interval, as one more started timer, if the flag was not
    set before; no timer is started otherwise. *)
Theorem X4_ConnectionUp_registers_new_router (event : ConnectionUpEvent) (w : World) :
  routers (mgr w) !! conn_dpid (cu_connection event) = None ->
  let c := cu_connection event in
  let out := _handle_ConnectionUp event w in
  out.1 = Ok tt /\
  routers (mgr out.2)
  = <[conn_dpid c :=
        mk_Router (next_oid (mgr w)) (Some c) (Some (conn_ports c))
                  (List.filter not_reserved (conn_ports c)) (Some (conn_dpid c))
                  (Some (conn_id c)) (Some (cu_now event)) ∅]> (routers (mgr w)) /\
  next_oid (mgr out.2) = S (next_oid (mgr w)) /\
  adjacency (mgr out.2) = adjacency (mgr w) /\
  wire out.2 = wire w /\
  got_first_connection_up (mgr out.2) = true /\
  general_query_timer (mgr out.2)
  = (if got_first_connection_up (mgr w) then general_query_timer (mgr w)
     else Some igmp_query_interval) /\
  timers_started (mgr out.2)
  = (if got_first_connection_up (mgr w) then timers_started (mgr w)
     else timers_started (mgr w) ++ [igmp_query_interval]).
Proof.
  intros H c out. subst c out.
  destruct (ConnectionUp_new_router event w H) as (Hok & Hr & Hn & Ha & Hw).
  destruct (ConnectionUp_flags event w) as [Hf Ht].
  pose proof (ConnectionUp_timers event w) as Hs.
  split; [exact Hok|]. split.
  - rewrite Hr. unfold new_router. rewrite connect_scan_ports_filter. reflexivity.
  - repeat split; assumption.
Qed.

(** Lines 304-311 in one equation for both branches. *)
Lemma ConnectionDown_outcome (d : Z) (w : World) :
  (_handle_ConnectionDown d w).1 = Ok tt /\
  routers (mgr (_handle_ConnectionDown d w).2) = delete d (routers (mgr w)) /\
  adjacency (mgr (_handle_ConnectionDown d w).2) = adjacency (mgr w) /\
  wire (_handle_ConnectionDown d w).2 = wire w /\
  got_first_connection_up (mgr (_handle_ConnectionDown d w).2)
  = got_first_connection_up (mgr w) /\
  general_query_timer (mgr (_handle_ConnectionDown d w).2) = general_query_timer (mgr w) /\
  next_oid (mgr (_handle_ConnectionDown d w).2) = next_oid (mgr w).
Proof.
  unfold _handle_ConnectionDown. m_simpl.
  destruct (routers (mgr w) !! d) eqn:E; simpl; repeat split.
  symmetry. apply delete_id. exact E.
Qed.

Lemma ConnectionDown_timers (d : Z) (w : World) :
  timers_started (mgr (_handle_ConnectionDown d w).2) = timers_started (mgr w).
Proof.
  unfold _handle_ConnectionDown. m_simpl.
  destruct (routers (mgr w) !! d); reflexivity.
Qed.

(** X6.  A connection-down never raises and never sends.  It removes the
    dpid from the registry and changes nothing else: the other routers, the
    flags and the timer stay, and so does every adjacency entry, also those
    keyed by the Router object that has just left.  For a dpid that is not
    registered the state is left exactly as it was. *)
Theorem X6_ConnectionDown_removes_only_the_router (d : Z) (w : World) :
  let out := _handle_ConnectionDown d w in
  out.1 = Ok tt /\
  routers (mgr out.2) = delete d (routers (mgr w)) /\
  (forall d', d' <> d -> routers (mgr out.2) !! d' = routers (mgr w) !! d') /\
  routers (mgr out.2) !! d = None /\
  adjacency (mgr out.2) = adjacency (mgr w) /\
  wire out.2 = wire w /\
  got_first_connection_up (mgr out.2) = got_first_connection_up (mgr w) /\
  general_query_timer (mgr out.2) = general_query_timer (mgr w) /\
  timers_started (mgr out.2) = timers_started (mgr w) /\
  (routers (mgr w) !! d = None -> out.2 = w).
Proof.
  intros out. subst out.
  destruct (ConnectionDown_outcome d w) as (Hok & Hr & Ha & Hw & Hf & Ht & _).
  pose proof (ConnectionDown_timers d w) as Hs.
  split; [exact Hok|]. split; [exact Hr|]. split; [|split].
  - intros d' Hne. rewrite Hr. apply lookup_delete_ne. congruence.
  - rewrite Hr. apply lookup_delete_eq.
  - repeat split; try assumption.
    intros Hnone. rewrite (ConnectionDown_unrecognized_router d w Hnone). reflexivity.
Qed.


End ConnectionEvents.

(** ** What the event stream keeps *)

Section KeepsDispatch.
Context {lib : PoxLib}.
Variable P : World -> Prop.
Hypothesis P_adjacency : forall w a, P w -> P (w_set_adjacency a w).
Hypothesis P_igmp_ports :
  forall w d (g : Router -> list Z),
    P w -> P (w_set_routers (alter (fun r => set_igmp_ports (g r) r) d (routers (mgr w))) w).
Hypothesis P_hosts_delete :
  forall w d p,
    P w -> P (w_set_routers
                (alter (fun r => set_connected_hosts (delete p (connected_hosts r)) r) d
                       (routers (mgr w))) w).
Hypothesis P_hosts_insert :
  forall w d p src,
    P w -> P (w_set_routers
                (alter (fun r => set_connected_hosts (<[p := src]> (connected_hosts r)) r) d
                       (routers (mgr w))) w).
Hypothesis P_send : forall w c msg, P w -> P (mk_World (mgr w) (wire w ++ [(c, msg)])).
Hypothesis K_up : forall e, keeps P (_handle_ConnectionUp e).
Hypothesis K_down : forall d, keeps P (_handle_ConnectionDown d).

Lemma keeps_dispatch (ev : Event) : keeps P (dispatch ev).
Proof.
  destruct ev; simpl.
  - apply K_up.
  - apply K_down.
  - apply keeps_handle_LinkEvent; assumption.
  - apply keeps_handle_PacketIn; assumption.
  - pose proof (keeps_launch_igmp_general_query P P_send). keeps_auto.
Qed.

Lemma keeps_stream (evs : list Event) (w : World) : P w -> P (run_events evs w).
Proof. apply keeps_run_events. exact keeps_dispatch. Qed.

End KeepsDispatch.

Section StreamInvariants.
Context {lib : PoxLib}.

Lemma alter_lookup_Some (f : Router -> Router) (d d' : Z) (rs : gmap Z Router) (r' : Router) :
  alter f d rs !! d' = Some r' ->
  exists r, rs !! d' = Some r /\ (r' = r \/ r' = f r).
Proof.
  intros H. apply lookup_alter_Some in H as [(-> & r & Hr & ->)|(_ & Hr)]; eauto.
Qed.

(** *** The flag and the timer *)

Lemma dispatch_flag (ev : Event) (w : World) :
  got_first_connection_up (mgr (dispatch ev w).2)
  = got_first_connection_up (mgr w) || is_ConnectionUp ev.
Proof.
  destruct ev as [e|d|disc e|e|].
  - simpl. rewrite (proj1 (ConnectionUp_flags e w)). rewrite orb_true_r. reflexivity.
  - simpl. rewrite orb_false_r. apply ConnectionDown_outcome.
  - simpl. rewrite orb_false_r.
    apply (keeps_handle_LinkEvent
             (fun w' => got_first_connection_up (mgr w') = got_first_connection_up (mgr w)));
      auto.
  - simpl. rewrite orb_false_r.
    apply (keeps_handle_PacketIn
             (fun w' => got_first_connection_up (mgr w') = got_first_connection_up (mgr w)));
      auto.
  - rewrite orb_false_r.
    assert (K : keeps (fun w' => got_first_connection_up (mgr w')
                                 = got_first_connection_up (mgr w)) (dispatch EvTimer)).
    { simpl.
      pose proof (keeps_launch_igmp_general_query
                    (fun w' => got_first_connection_up (mgr w')
                               = got_first_connection_up (mgr w))) as L.
      keeps_auto. }
    apply K. reflexivity.
Qed.

Lemma dispatch_timer_matches_flag (ev : Event) : keeps timer_matches_flag (dispatch ev).
Proof.
  apply keeps_dispatch; unfold timer_matches_flag; auto.
  - intros e w [Ht Hs]. destruct (ConnectionUp_flags e w) as [-> ->].
    rewrite ConnectionUp_timers, Ht, Hs.
    destruct (got_first_connection_up (mgr w)); split; reflexivity.
  - intros d w H. rewrite ConnectionDown_timers.
    destruct (ConnectionDown_outcome d w) as (_ & _ & _ & _ & -> & -> & _). exact H.
Qed.

(** X5.  The query timer is armed exactly once, by the first connection-up
    (lines 298-302): after any sequence of events from the start the flag
    [got_first_connection_up] is set exactly when the sequence holds a
    connection-up, the timer attribute holds a timer of the query interval,
    20 seconds, exactly when the flag is set, and that timer is then the one
    timer that was ever started; before the first connection-up none was.
    No later connection-up starts a second timer and no connection-down,
    not even that of the last router, disarms the first. *)
Theorem X5_query_timer_armed_by_first_connection_up (evs : list Event) :
  let w := run_events evs World_init in
  got_first_connection_up (mgr w) = existsb is_ConnectionUp evs /\
  general_query_timer (mgr w)
  = (if existsb is_ConnectionUp evs then Some 20 else None) /\
  timers_started (mgr w)
  = (if existsb is_ConnectionUp evs then [20] else []).
Proof.
  intros w. subst w.
  assert (Hflag : forall evs w0,
             got_first_connection_up (mgr (run_events evs w0))
             = got_first_connection_up (mgr w0) || existsb is_ConnectionUp evs).
  { clear evs. induction evs as [|ev evs IH]; intros w0; simpl.
    - rewrite orb_false_r. reflexivity.
    - rewrite IH, dispatch_flag, orb_assoc. reflexivity. }
  assert (Ht : timer_matches_flag (run_events evs World_init)).
  { apply keeps_run_events; [exact dispatch_timer_matches_flag | split; reflexivity]. }
  unfold timer_matches_flag in Ht. rewrite Hflag in *. simpl in *.
  split; [reflexivity | exact Ht].
Qed.

(** *** The registry *)

Lemma dispatch_registry_wf (ev : Event) : keeps registry_wf (dispatch ev).
Proof.
  apply keeps_dispatch; unfold registry_wf; auto.
  - intros w d g H d' r' Hl. simpl in Hl.
    apply alter_lookup_Some in Hl as (r & Hr & [->| ->]); [eauto|].
    destruct (H d' r Hr) as (c & ?). exists c. assumption.
  - intros w d p H d' r' Hl. simpl in Hl.
    apply alter_lookup_Some in Hl as (r & Hr & [->| ->]); [eauto|].
    destruct (H d' r Hr) as (c & ?). exists c. assumption.
  - intros w d p src H d' r' Hl. simpl in Hl.
    apply alter_lookup_Some in Hl as (r & Hr & [->| ->]); [eauto|].
    destruct (H d' r Hr) as (c & ?). exists c. assumption.
  - intros e w H d r.
    destruct (routers (mgr w) !! conn_dpid (cu_connection e)) as [r0|] eqn:E.
    + destruct (ConnectionUp_known_router e w r0 E) as (_ & -> & _). apply H.
    + destruct (ConnectionUp_new_router e w E) as (_ & -> & _). intros Hl.
      apply lookup_insert_Some in Hl as [[<- <-]|[_ Hl]]; [|eauto].
      exists (cu_connection e). unfold new_router. simpl. repeat split. eauto.
  - intros d w H d' r'.
    destruct (ConnectionDown_outcome d w) as (_ & -> & _). intros Hl.
    apply lookup_delete_Some in Hl as [_ Hl]. eauto.
Qed.

(** *** The hold-down query *)

(** Lines 108-112 in one equation: the answer for a router that never
    connected comes from line 109, every other router reaches line 110. *)
Lemma is_holding_down_outcome (now : float) (r : Router) :
  is_holding_down now r
  = match connected_at r with
    | None => Ok true
    | Some _ => Raised NameError
    end.
Proof. unfold is_holding_down. destruct (connected_at r); reflexivity. Qed.

(** C9.  For every router the registry holds after any sequence of events,
    and at every time of asking, the hold-down query faults instead of
    answering: the router has a connection time, so line 110 is reached, and
    the name [FLOOD_HOLDDOWN] that its comparison reads is bound nowhere (a
    [NameError]).  The query answers, with true, only for a Router object
    that never connected, and it never answers false. *)
Theorem C9_is_holding_down_raises_NameError
    (evs : list Event) (d : Z) (r : Router) (now : float) :
  routers (mgr (run_events evs World_init)) !! d = Some r ->
  is_holding_down now r = Raised NameError /\
  (forall r' now', is_holding_down now' r' <> Ok false) /\
  (forall o now', is_holding_down now' (Router_init o) = Ok true).
Proof.
  intros Hr.
  assert (Hwf : registry_wf (run_events evs World_init)).
  { apply keeps_run_events; [exact dispatch_registry_wf|].
    intros d' r' H. simpl in H. rewrite lookup_empty in H. discriminate. }
  destruct (Hwf d r Hr) as (c & _ & _ & _ & _ & _ & [t Ht]).
  split; [|split].
  - rewrite is_holding_down_outcome, Ht. reflexivity.
  - intros r' now'. rewrite is_holding_down_outcome.
    destruct (connected_at r'); discriminate.
  - intros o now'. reflexivity.
Qed.

(** X8.  After any sequence of events from the start, every dpid of the
    registry holds a Router object that is still what line 292-296 made of
    the connection it was registered with: it is bound to a connection of
    that dpid, carries the dpid, the port list and the listeners of that
    connection and a connection time, and was created before the next
    object identity; two dpids never share a Router object. *)
Theorem X8_registry_well_formed (evs : list Event) :
  registry_wf (run_events evs World_init) /\
  registry_ok (run_events evs World_init).
Proof.
  split.
  - apply keeps_run_events; [exact dispatch_registry_wf|].
    intros d r H. simpl in H. rewrite lookup_empty in H. discriminate.
  - apply registry_ok_run_events. apply registry_ok_init.
Qed.

(** *** The wire *)

Lemma LinkEvent_wire (disc : list Link) (event : LinkEvent) (w : World) :
  wire (_handle_LinkEvent disc event w).2 = wire w.
Proof.
  apply (keeps_handle_LinkEvent (fun w' => wire w' = wire w)); auto.
Qed.

Lemma ConnectionUp_wire (event : ConnectionUpEvent) (w : World) :
  wire (_handle_ConnectionUp event w).2 = wire w.
Proof.
  destruct (routers (mgr w) !! conn_dpid (cu_connection event)) as [r0|] eqn:E.
  - apply (ConnectionUp_known_router event w r0 E).
  - apply (ConnectionUp_new_router event w E).
Qed.

(** X9.  Messages are only ever appended, and only by packet-in and timer
    events: a connection-up, a connection-down and a link event leave the
    list of sent messages as it is, whatever the state and whether or not
    the handler raises, and after any sequence of events the messages sent
    before are still there, in order, as a prefix. *)
Theorem X9_only_packet_in_and_timer_send :
  (forall e w, wire (dispatch (EvConnectionUp e) w).2 = wire w) /\
  (forall d w, wire (dispatch (EvConnectionDown d) w).2 = wire w) /\
  (forall disc e w, wire (dispatch (EvLinkEvent disc e) w).2 = wire w) /\
  (forall evs w, exists sent, wire (run_events evs w) = wire w ++ sent).
Proof.
  split; [exact ConnectionUp_wire|].
  split; [intros d w; apply ConnectionDown_outcome|].
  split; [exact LinkEvent_wire|].
  intros evs w.
  apply (keeps_stream (fun w' => exists sent, wire w' = wire w ++ sent)); auto.
  - intros w' c msg [sent H]. exists (sent ++ [(c, msg)]). simpl.
    rewrite H, app_assoc. reflexivity.
  - intros e w' [sent H]. exists sent. rewrite ConnectionUp_wire. exact H.
  - intros d w' [sent H]. exists sent.
    destruct (ConnectionDown_outcome d w') as (_ & _ & _ & -> & _). exact H.
  - exists []. rewrite app_nil_r. reflexivity.
Qed.

End StreamInvariants.

(** ** Link events, whatever the state *)

Lemma registry_frame_refl (rel : Router -> Router -> Prop) (w : World) :
  (forall r, rel r r) -> registry_frame rel w w.
Proof.
  intros Hrefl. repeat split. intros d. destruct (routers (mgr w) !! d); auto.
Qed.

Lemma registry_frame_alter (rel : Router -> Router -> Prop) (f : Router -> Router)
    (d : Z) (w0 w : World) :
  (forall r0 r, rel r0 r -> rel r0 (f r)) ->
  registry_frame rel w0 w ->
  registry_frame rel w0 (w_set_routers (alter f d (routers (mgr w))) w).
Proof.
  intros Hf (H1 & H2 & H3 & H5 & H4). split; [exact H1|]. split; [exact H2|].
  split; [exact H3|]. split; [exact H5|]. intros d'. specialize (H4 d'). simpl.
  destruct (decide (d = d')) as [->|Hne].
  - rewrite lookup_alter_eq.
    destruct (routers (mgr w0) !! d'), (routers (mgr w) !! d'); simpl; auto.
  - rewrite lookup_alter_ne by exact Hne. exact H4.
Qed.

Lemma list_remove_first_None (x : Z) (l : list Z) :
  x ∉ l -> list_remove_first x l = None.
Proof.
  intros H. destruct (list_remove_first x l) as [g|] eqn:E; [|reflexivity].
  exfalso. apply H. eapply list_remove_first_elem. exact E.
Qed.

Lemma list_remove_first_Permutation (x : Z) (l g : list Z) :
  list_remove_first x l = Some g -> l ≡ₚ x :: g.
Proof.
  revert g. induction l as [|y l IH]; intros g H; simpl in H; [discriminate|].
  destruct (decide (y = x)) as [->|Hne]; [injection H as <-; reflexivity|].
  destruct (list_remove_first x l) as [g'|] eqn:E; [|discriminate].
  injection H as <-. rewrite (IH g' eq_refl). apply Permutation_swap.
Qed.

Lemma adjacency_getitem_Some (o1 o2 : nat) (p : Z) (w : World) :
  adj w o1 o2 = Some p -> adjacency_getitem o1 o2 w = (Ok (Some p), w).
Proof.
  unfold adj, adj_read, adjacency_getitem, adjacency_row. m_simpl.
  destruct (adjacency (mgr w) !! o1) as [row|]; [|discriminate]. simpl.
  destruct (row !! o2) as [v|]; [|discriminate]. intros ->. reflexivity.
Qed.

(** X10.  Whatever the state, the discovery table and the event, and whether
    it returns or raises, [_handle_LinkEvent] sends nothing, leaves the flag,
    the timer and the set of registered dpids alone, and changes of a Router
    object at most the IGMP port list and the host table, from which it only
    ever removes: identity, connection, port list, dpid, listeners and
    connection time of every router stay as they are. *)
Theorem X10_LinkEvent_frame (disc : list Link) (event : LinkEvent) (w : World) :
  registry_frame link_event_rel w (_handle_LinkEvent disc event w).2 /\
  wire (_handle_LinkEvent disc event w).2 = wire w.
Proof.
  assert (Hrefl : forall r, link_event_rel r r)
    by (intros r; split; [repeat split | reflexivity]).
  split.
  - apply (keeps_handle_LinkEvent (registry_frame link_event_rel w)).
    + intros w' a H. exact H.
    + intros w' d g H. apply registry_frame_alter; [|exact H].
      intros r0 r Hr. exact Hr.
    + intros w' d p H. apply registry_frame_alter; [|exact H].
      intros r0 r [Hfr Hsub]. split; [exact Hfr|]. simpl.
      etransitivity; [apply delete_subseteq | exact Hsub].
    + apply registry_frame_refl. exact Hrefl.
  - apply (keeps_handle_LinkEvent (fun w' => wire w' = wire w)); auto.
Qed.

(** X11.  A link event one of whose two dpids is not registered makes
    [_handle_LinkEvent] raise [KeyError] at line 231 or 232, before it has
    changed anything. *)
Theorem X11_LinkEvent_unregistered_dpid_raises
    (disc : list Link) (event : LinkEvent) (w : World) :
  routers (mgr w) !! dpid1 (le_link event) = None \/
  routers (mgr w) !! dpid2 (le_link event) = None ->
  _handle_LinkEvent disc event w = (Raised KeyError, w).
Proof.
  intros [H|H].
  - apply LinkEvent_unrecognized_router1. exact H.
  - destruct (routers (mgr w) !! dpid1 (le_link event)) as [r1|] eqn:E.
    + eapply LinkEvent_unrecognized_router2; eassumption.
    + apply LinkEvent_unrecognized_router1. exact E.
Qed.

(** X12.  A link-up between registered routers commits nothing when the
    pair already has an adjacency entry in that direction (line 262) or when
    the reverse direction is not in the discovery table (line 265): the
    handler returns normally, no router and no adjacency value changes and
    nothing is sent; in the first case the state is exactly what it was. *)
Theorem X12_link_up_without_commit
    (disc : list Link) (l : Link) (r1 r2 : Router) (w : World) :
  routers (mgr w) !! dpid1 l = Some r1 ->
  routers (mgr w) !! dpid2 l = Some r2 ->
  adj w (r_oid r1) (r_oid r2) <> None \/ flip l ∉ disc ->
  let out := _handle_LinkEvent disc (mk_LinkEvent l true) w in
  out.1 = Ok tt /\ same_reads w out.2 /\
  (adj w (r_oid r1) (r_oid r2) <> None -> out.2 = w).
Proof.
  intros H1 H2 Hcase out. subst out.
  assert (Hexact : adj w (r_oid r1) (r_oid r2) <> None ->
                   _handle_LinkEvent disc (mk_LinkEvent l true) w = (Ok tt, w)).
  { intros Hadj. destruct (adj w (r_oid r1) (r_oid r2)) as [p|] eqn:E; [|congruence].
    unfold _handle_LinkEvent. simpl.
    rewrite (bind_Ok _ _ _ _ _ (routers_getitem_Some _ _ _ H1)).
    rewrite (bind_Ok _ _ _ _ _ (routers_getitem_Some _ _ _ H2)).
    rewrite (bind_Ok _ _ _ _ _ (adjacency_getitem_Some _ _ _ _ E)). reflexivity. }
  destruct Hcase as [Hadj|Hflip].
  - rewrite (Hexact Hadj). split; [reflexivity|]. split; [apply same_reads_refl|].
    reflexivity.
  - destruct (LinkEvent_up_pending disc l r1 r2 w H1 H2 Hflip) as (w' & E & Hs).
    rewrite E. split; [reflexivity|]. split; [exact Hs|].
    intros Hadj. rewrite (Hexact Hadj) in E. injection E as <-. reflexivity.
Qed.

(** X13.  When a link-up is to be committed (the pair has no entry, the
    reverse is in the discovery table) but the link's port is not in the
    first router's IGMP port list, the handler raises [ValueError] at line
    268 after line 267 has written the first direction: adjacency[R1][R2] is
    the port, no router has changed and nothing was sent. *)
Theorem X13_link_up_commit_without_port_raises
    (disc : list Link) (l : Link) (r1 r2 : Router) (w : World) :
  routers (mgr w) !! dpid1 l = Some r1 ->
  routers (mgr w) !! dpid2 l = Some r2 ->
  adj w (r_oid r1) (r_oid r2) = None ->
  flip l ∈ disc ->
  port1 l ∉ igmp_ports r1 ->
  let out := _handle_LinkEvent disc (mk_LinkEvent l true) w in
  out.1 = Raised ValueError /\
  routers (mgr out.2) = routers (mgr w) /\
  wire out.2 = wire w /\
  adj out.2 (r_oid r1) (r_oid r2) = Some (port1 l).
Proof.
  intros H1 H2 Ha Hflip Hport out. subst out.
  pose proof (LinkEvent_wire disc (mk_LinkEvent l true) w) as Hw.
  destruct (LinkEvent_up_commit_raises disc l r1 r2 w H1 H2 Ha Hflip
              (list_remove_first_None _ _ Hport)) as (w' & E & Hr & Hadj).
  rewrite E in *. repeat split; assumption.
Qed.

(** X14.  A link removal between two different registered routers, when no
    link of the discovery table between the same dpids has its reverse in
    the table: the handler returns normally, the pair has no adjacency entry
    in either direction any more, every other pair reads what it did, the
    link's two ports are appended to the IGMP port lists of their routers
    and nothing else changes. *)
Theorem X14_link_removal_without_parallel
    (disc : list Link) (l : Link) (r1 r2 : Router) (w : World) :
  routers (mgr w) !! dpid1 l = Some r1 ->
  routers (mgr w) !! dpid2 l = Some r2 ->
  dpid1 l <> dpid2 l ->
  first_parallel disc l disc = None ->
  let out := _handle_LinkEvent disc (mk_LinkEvent l false) w in
  out.1 = Ok tt /\
  routers (mgr out.2)
  = <[dpid2 l := set_igmp_ports (igmp_ports r2 ++ [port2 l]) r2]>
      (<[dpid1 l := set_igmp_ports (igmp_ports r1 ++ [port1 l]) r1]> (routers (mgr w))) /\
  wire out.2 = wire w /\
  forall a b, adj out.2 a b
              = if decide (a = r_oid r2 /\ b = r_oid r1) then None
                else if decide (a = r_oid r1 /\ b = r_oid r2) then None
                else adj w a b.
Proof.
  intros H1 H2 Hne Hfirst out. subst out.
  destruct (LinkEvent_removed_prefix disc l r1 r2 w H1 H2 Hne) as (w1 & E & R1 & W1 & A1).
  rewrite E, promote_parallel_first, Hfirst. simpl.
  split; [reflexivity|]. split; [exact R1|]. split; [exact W1 | exact A1].
Qed.

(** X15.  A link removal between two different registered routers, when the
    scan of the discovery table settles on a link [ll] whose two ports are in
    the IGMP port lists once the removed link's ports have been appended: the
    handler returns normally, the adjacency reads the ports of [ll] in both
    directions, every other pair reads what it did, and the IGMP port lists
    are the old ones with the removed link's port appended and the first
    occurrence of the port of [ll] taken out. *)
Theorem X15_link_removal_promotes_parallel
    (disc : list Link) (l ll : Link) (r1 r2 : Router) (g1 g2 : list Z) (w : World) :
  routers (mgr w) !! dpid1 l = Some r1 ->
  routers (mgr w) !! dpid2 l = Some r2 ->
  dpid1 l <> dpid2 l ->
  first_parallel disc l disc = Some ll ->
  list_remove_first (port1 ll) (igmp_ports r1 ++ [port1 l]) = Some g1 ->
  list_remove_first (port2 ll) (igmp_ports r2 ++ [port2 l]) = Some g2 ->
  let out := _handle_LinkEvent disc (mk_LinkEvent l false) w in
  out.1 = Ok tt /\
  routers (mgr out.2)
  = <[dpid2 l := set_igmp_ports g2 r2]>
      (<[dpid1 l := set_igmp_ports g1 r1]> (routers (mgr w))) /\
  wire out.2 = wire w /\
  (forall a b, adj out.2 a b
               = if decide (a = r_oid r2 /\ b = r_oid r1) then Some (port2 ll)
                 else if decide (a = r_oid r1 /\ b = r_oid r2) then Some (port1 ll)
                 else adj w a b) /\
  dpid1 ll = dpid1 l /\ dpid2 ll = dpid2 l /\ ll ∈ disc /\ flip ll ∈ disc.
Proof.
  intros H1 H2 Hne Hfirst Hg1 Hg2 out. subst out.
  destruct (LinkEvent_removed_promotes disc l ll r1 r2 g1 g2 w H1 H2 Hne Hfirst Hg1 Hg2)
    as (w' & E & R & W & A).
  rewrite E. simpl. split; [reflexivity|]. split; [exact R|]. split; [exact W|].
  split; [exact A|].
  unfold first_parallel in Hfirst. apply find_some in Hfirst as [Hin Hp].
  apply andb_true_iff in Hp as [Hp Hflip]. apply andb_true_iff in Hp as [Hd1 Hd2].
  apply Z.eqb_eq in Hd1, Hd2. apply bool_decide_eq_true in Hflip.
  repeat split; try assumption. apply list_elem_of_In. exact Hin.
Qed.

(** X16.  Link up, link down.  [l] is a link between two different
    registered routers that are not adjacent, its ports are in their IGMP
    port lists, and it is reported up with its reverse in the discovery
    table and then removed with no parallel link left in the table.  Both
    handlers return normally and every adjacency read is what it was before
    the two events; each port is back in its router's IGMP port list, moved
    to the end (the list is a permutation of the old one); a host that was
    recorded on either port is gone. *)
Theorem X16_link_up_then_down {lib : PoxLib}
    (D D' : list Link) (l : Link) (r1 r2 : Router) (g1 g2 : list Z) (w : World) :
  routers (mgr w) !! dpid1 l = Some r1 ->
  routers (mgr w) !! dpid2 l = Some r2 ->
  dpid1 l <> dpid2 l ->
  adj w (r_oid r1) (r_oid r2) = None ->
  adj w (r_oid r2) (r_oid r1) = None ->
  flip l ∈ D ->
  list_remove_first (port1 l) (igmp_ports r1) = Some g1 ->
  list_remove_first (port2 l) (igmp_ports r2) = Some g2 ->
  first_parallel D' l D' = None ->
  let evs := [EvLinkEvent D (mk_LinkEvent l true); EvLinkEvent D' (mk_LinkEvent l false)] in
  outcomes evs w = [Ok tt; Ok tt] /\
  (forall a b, adj (run_events evs w) a b = adj w a b) /\
  routers (mgr (run_events evs w))
  = <[dpid2 l := commit_port (port2 l) (g2 ++ [port2 l]) r2]>
      (<[dpid1 l := commit_port (port1 l) (g1 ++ [port1 l]) r1]> (routers (mgr w))) /\
  g1 ++ [port1 l] ≡ₚ igmp_ports r1 /\
  g2 ++ [port2 l] ≡ₚ igmp_ports r2 /\
  wire (run_events evs w) = wire w.
Proof.
  intros H1 H2 Hne A12 A21 Hflip Hg1 Hg2 Hfirst evs. subst evs.
  cbn [outcomes run_events dispatch].
  destruct (LinkEvent_up_commit D l r1 r2 g1 g2 w H1 H2 Hne A12 Hflip Hg1 Hg2)
    as (w1 & E1 & R1 & W1 & Ad1).
  rewrite E1. cbn [fst snd].
  assert (L1 : routers (mgr w1) !! dpid1 l = Some (commit_port (port1 l) g1 r1)).
  { rewrite R1. rewrite lookup_insert_ne by congruence. apply lookup_insert_eq. }
  assert (L2 : routers (mgr w1) !! dpid2 l = Some (commit_port (port2 l) g2 r2)).
  { rewrite R1. apply lookup_insert_eq. }
  destruct (LinkEvent_removed_prefix D' l _ _ w1 L1 L2 Hne) as (w2 & E2 & R2 & W2 & Ad2).
  rewrite E2, promote_parallel_first, Hfirst. cbn [fst snd]. simpl in Ad2.
  split; [reflexivity|]. split; [|split; [|split; [|split]]].
  - intros a b. rewrite Ad2, Ad1. repeat case_decide; try reflexivity.
    + destruct H as [-> ->]. symmetry. exact A21.
    + destruct H0 as [-> ->]. symmetry. exact A12.
  - rewrite R2, R1. unfold commit_port, set_connected_hosts, set_igmp_ports. simpl.
    apply map_eq. intros i. rewrite !lookup_insert. repeat case_decide; congruence.
  - rewrite (list_remove_first_Permutation _ _ _ Hg1).
    symmetry. apply Permutation_cons_append.
  - rewrite (list_remove_first_Permutation _ _ _ Hg2).
    symmetry. apply Permutation_cons_append.
  - congruence.
Qed.

(** ** Packet-in, whatever the state *)

Section PacketInAny.
Context {lib : PoxLib}.

Lemma w_vivify_frame (o : nat) (w : World) :
  routers (mgr (w_vivify o w)) = routers (mgr w) /\
  wire (w_vivify o w) = wire w /\
  got_first_connection_up (mgr (w_vivify o w)) = got_first_connection_up (mgr w) /\
  general_query_timer (mgr (w_vivify o w)) = general_query_timer (mgr w) /\
  next_oid (mgr (w_vivify o w)) = next_oid (mgr w).
Proof. unfold w_vivify. destruct (adjacency (mgr w) !! o); repeat split. Qed.

(** What lines 313-399 can do, over all their branches: the handler
    returns; the adjacency reads, the flag, the timer and the next identity
    stay; it sends nothing, the drop, or the flood and the flood flow; and
    the registry is the old one, or the old one with the event's port of the
    receiving router newly mapped to the source of the packet. *)
Lemma PacketIn_outcome (event : PacketInEvent) (w : World) :
  let d := conn_dpid (pe_connection event) in
  exists w' msgs,
    _handle_PacketIn event w = (Ok tt, w') /\
    wire w' = wire w ++ msgs /\
    (msgs = [] \/ msgs = [drop_message event] \/
     exists ip, find_ipv4 (pe_parsed event) = Some ip /\
                msgs = [flood_message event; flood_flow_message event (dstip ip)]) /\
    (forall a b, adj w' a b = adj w a b) /\
    got_first_connection_up (mgr w') = got_first_connection_up (mgr w) /\
    general_query_timer (mgr w') = general_query_timer (mgr w) /\
    next_oid (mgr w') = next_oid (mgr w) /\
    (routers (mgr w') = routers (mgr w) \/
     exists rr ip,
       routers (mgr w) !! d = Some rr /\
       connected_hosts rr !! pe_port event = None /\
       find_ipv4 (pe_parsed event) = Some ip /\
       ~ is_router_port w (r_oid rr) (pe_port event) /\
       routers (mgr w')
       = <[d := set_connected_hosts
                  (<[pe_port event := srcip ip]> (connected_hosts rr)) rr]> (routers (mgr w))).
Proof.
  intros d. subst d. unfold _handle_PacketIn.
  rewrite (bind_Ok get_mgr _ w w (mgr w)) by reflexivity.
  destruct (routers (mgr w) !! conn_dpid (pe_connection event)) as [rr|] eqn:Hr.
  2:{ exists w, []. rewrite app_nil_r. repeat split; auto. }
  set (o := r_oid rr).
  destruct (w_vivify_frame o w) as (Vr & Vw & Vf & Vt & Vn).
  pose proof (adj_w_vivify o w) as Va.
  assert (Hnotport : row_has_port (row_of (adjacency (mgr w)) o) (pe_port event) = false ->
                     ~ is_router_port w o (pe_port event)).
  { intros Hrow Hp. apply row_has_port_is_router_port in Hp. congruence. }
  destruct (find_igmp (pe_parsed event)) as [g|] eqn:Hg.
  - destruct (find_igmp_find_ipv4 _ _ Hg) as [ip Hip]. rewrite Hip.
    rewrite (bind_Ok _ _ _ _ _ (adjacency_uses_port_eq _ _ _)). fold o.
    destruct (row_has_port _ _) eqn:Hrow.
    + eexists. exists [drop_message event]. split; [reflexivity|]. simpl.
      rewrite Vw. repeat split; auto.
    + unfold learn_host. destruct (connected_hosts rr !! pe_port event) eqn:Hh.
      * eexists. exists [drop_message event]. split; [reflexivity|]. simpl.
        rewrite Vw. repeat split; auto.
      * eexists. exists [drop_message event]. split; [reflexivity|]. simpl.
        rewrite Vw, Vr. repeat split; auto.
        right. exists rr, ip. rewrite (alter_Some_insert _ _ _ _ Hr). repeat split; auto.
  - destruct (find_ipv4 (pe_parsed event)) as [ip|] eqn:Hip.
    2:{ exists w, []. rewrite app_nil_r. repeat split; auto. }
    destruct (inNetwork_224_4 (dstip ip)) eqn:Hnet.
    2:{ exists w, []. rewrite app_nil_r. repeat split; auto. }
    rewrite (bind_Ok _ _ _ _ _ (adjacency_uses_port_eq _ _ _)). fold o.
    destruct (row_has_port _ _) eqn:Hrow; simpl.
    + eexists. exists [flood_message event; flood_flow_message event (dstip ip)].
      split; [reflexivity|]. simpl. rewrite Vw, <- app_assoc.
      repeat split; eauto.
    + unfold learn_host. destruct (connected_hosts rr !! pe_port event) eqn:Hh.
      * eexists. exists [flood_message event; flood_flow_message event (dstip ip)].
        split; [reflexivity|]. simpl. rewrite Vw, <- app_assoc.
        repeat split; eauto.
      * eexists. exists [flood_message event; flood_flow_message event (dstip ip)].
        split; [reflexivity|]. simpl. rewrite Vw, Vr, <- app_assoc.
        repeat split; eauto.
        right. exists rr, ip. rewrite (alter_Some_insert _ _ _ _ Hr). repeat split; auto.
Qed.

End PacketInAny.

Section PacketInCases.
Context {lib : PoxLib}.

(** X17.  A packet-in is ignored altogether, with no message sent and the
    state exactly as it was, when its switch is not registered (line 325),
    and also when the frame holds no IGMP message and either no IPv4 packet
    or an IPv4 packet whose destination is outside 224.0.0.0/4. *)
Theorem X17_PacketIn_ignored (event : PacketInEvent) (w : World) :
  routers (mgr w) !! conn_dpid (pe_connection event) = None \/
  (find_igmp (pe_parsed event) = None /\
   (find_ipv4 (pe_parsed event) = None \/
    exists ip, find_ipv4 (pe_parsed event) = Some ip /\ inNetwork_224_4 (dstip ip) = false)) ->
  _handle_PacketIn event w = (Ok tt, w).
Proof.
  intros [Hr|[Hg Hip]].
  - apply PacketIn_unrecognized_router. exact Hr.
  - unfold _handle_PacketIn. rewrite (bind_Ok get_mgr _ w w (mgr w)) by reflexivity.
    destruct (routers (mgr w) !! conn_dpid (pe_connection event)); [|reflexivity].
    rewrite Hg. destruct Hip as [->|(ip & -> & ->)]; reflexivity.
Qed.

Lemma PacketIn_timers (event : PacketInEvent) (w : World) :
  timers_started (mgr (_handle_PacketIn event w).2) = timers_started (mgr w).
Proof.
  apply (keeps_handle_PacketIn
           (fun w' => timers_started (mgr w') = timers_started (mgr w))); auto.
Qed.

(** X18.  [_handle_PacketIn] never raises.  Whatever the state and the
    event, it leaves every adjacency read, the flag, the timer, the set of
    registered dpids and, of every Router object, the identity, connection,
    ports, IGMP port list, dpid, listeners and connection time as they
    were, and it never removes or overwrites a host entry; it sends at most
    two messages, all of them through the connection of the event. *)
Theorem X18_PacketIn_never_raises (event : PacketInEvent) (w : World) :
  let out := _handle_PacketIn event w in
  out.1 = Ok tt /\
  (forall a b, adj out.2 a b = adj w a b) /\
  registry_frame packet_in_rel w out.2 /\
  exists msgs, wire out.2 = wire w ++ msgs /\ (length msgs <= 2)%nat /\
               forall c m, (c, m) ∈ msgs -> c = pe_connection event.
Proof.
  intros out. subst out.
  pose proof (PacketIn_timers event w) as Hs.
  destruct (PacketIn_outcome event w)
    as (w' & msgs & E & Hw & Hm & Ha & Hf & Ht & Hn & Hr).
  rewrite E in Hs |- *. cbn [fst snd] in Hs |- *.
  assert (Hrefl : forall r, packet_in_rel r r)
    by (intros r; split; [repeat split | split; reflexivity]).
  split; [reflexivity|]. split; [exact Ha|]. split.
  - split; [exact Hf|]. split; [exact Ht|]. split; [exact Hs|]. split; [exact Hn|].
    intros d.
    destruct Hr as [->|(rr & ip & Hrr & Hh & _ & _ & ->)].
    + destruct (routers (mgr w) !! d); auto.
    + destruct (decide (conn_dpid (pe_connection event) = d)) as [<-|Hne].
      * rewrite Hrr, lookup_insert_eq. split; [repeat split|]. split; [reflexivity|].
        simpl. apply insert_subseteq. exact Hh.
      * rewrite lookup_insert_ne by exact Hne. destruct (routers (mgr w) !! d); auto.
  - exists msgs. split; [exact Hw|].
    destruct Hm as [->|[->|(ip & _ & ->)]]; simpl.
    + split; [lia|]. intros c m H. inversion H.
    + split; [lia|]. intros c m H. apply list_elem_of_singleton in H.
      injection H as -> _. reflexivity.
    + split; [lia|]. intros c m H.
      apply elem_of_cons in H as [H|H]; [injection H as -> _; reflexivity|].
      apply list_elem_of_singleton in H. injection H as -> _. reflexivity.
Qed.

(** X19.  A packet-in learns at most one host, and only where none was
    known: afterwards the registry is the old one, or the old one with the
    event's port of the receiving router mapped to the source address of the
    packet, and the second happens only if that port had no host entry and
    is not committed to a neighbour.  A port that has an entry or is an
    inter-router port keeps the registry as it is. *)
Theorem X19_PacketIn_learns_first_host_only (event : PacketInEvent) (w : World) :
  let d := conn_dpid (pe_connection event) in
  let out := _handle_PacketIn event w in
  (routers (mgr out.2) = routers (mgr w) \/
   exists rr ip,
     routers (mgr w) !! d = Some rr /\
     connected_hosts rr !! pe_port event = None /\
     find_ipv4 (pe_parsed event) = Some ip /\
     ~ is_router_port w (r_oid rr) (pe_port event) /\
     routers (mgr out.2)
     = <[d := set_connected_hosts
                (<[pe_port event := srcip ip]> (connected_hosts rr)) rr]> (routers (mgr w))) /\
  (forall rr, routers (mgr w) !! d = Some rr ->
              is_Some (connected_hosts rr !! pe_port event) \/
              is_router_port w (r_oid rr) (pe_port event) ->
              routers (mgr out.2) = routers (mgr w)).
Proof.
  intros d out. subst d out.
  destruct (PacketIn_outcome event w)
    as (w' & msgs & E & _ & _ & _ & _ & _ & _ & Hr).
  rewrite E. cbn [fst snd]. split; [exact Hr|].
  intros rr Hrr Hcase.
  destruct Hr as [Hr|(rr' & ip & Hrr' & Hh & _ & Hp & _)]; [exact Hr|].
  exfalso. rewrite Hrr in Hrr'. injection Hrr' as <-.
  destruct Hcase as [[h Hsome]|Hport]; [congruence | contradiction].
Qed.

(** X20.  An IGMP packet on a port that is not committed to a neighbour but
    already has a host entry, from whatever source: lines 358-364 leave the
    entry and every router as they are and send the drop and nothing else. *)
Theorem X20_igmp_on_edge_port_with_known_host
    (event : PacketInEvent) (w : World) (receiving_router : Router) (g : igmp) (h : Z) :
  routers (mgr w) !! conn_dpid (pe_connection event) = Some receiving_router ->
  find_igmp (pe_parsed event) = Some g ->
  ~ is_router_port w (r_oid receiving_router) (pe_port event) ->
  connected_hosts receiving_router !! pe_port event = Some h ->
  let out := _handle_PacketIn event w in
  out.1 = Ok tt /\
  routers (mgr out.2) = routers (mgr w) /\
  wire out.2 = wire w ++ [drop_message event] /\
  (forall a b, adj out.2 a b = adj w a b).
Proof.
  intros Hr Hg Hport Hhost out. subst out.
  destruct (find_igmp_find_ipv4 _ _ Hg) as [ip Hip].
  unfold _handle_PacketIn.
  rewrite (bind_Ok get_mgr _ w w (mgr w)) by reflexivity.
  rewrite Hr, Hg, Hip.
  rewrite (bind_Ok _ _ _ _ _ (adjacency_uses_port_eq _ _ _)).
  destruct (row_has_port _ _) eqn:Hrow.
  { exfalso. apply Hport. apply row_has_port_is_router_port. exact Hrow. }
  unfold learn_host. rewrite Hhost.
  destruct (w_vivify_frame (r_oid receiving_router) w) as (Vr & Vw & _).
  unfold drop_packet. m_simpl. rewrite Vw.
  repeat split; auto. intros a b. apply (adj_w_vivify (r_oid receiving_router) w a b).
Qed.

(** X21.  A plain IPv4 packet for a destination in 224.0.0.0/4 on a port
    that is not committed to a neighbour (lines 366-399): the source is
    recorded as the host of the port if the port had no entry, and an
    existing entry is kept; the packet is flooded and a flood flow matching
    ethertype 0x800, the destination and the input port is installed, in
    that order. *)
Theorem X21_multicast_on_edge_port
    (event : PacketInEvent) (w : World) (receiving_router : Router) (ip : ipv4) :
  routers (mgr w) !! conn_dpid (pe_connection event) = Some receiving_router ->
  find_igmp (pe_parsed event) = None ->
  find_ipv4 (pe_parsed event) = Some ip ->
  inNetwork_224_4 (dstip ip) = true ->
  ~ is_router_port w (r_oid receiving_router) (pe_port event) ->
  let out := _handle_PacketIn event w in
  out.1 = Ok tt /\
  routers (mgr out.2)
  = match connected_hosts receiving_router !! pe_port event with
    | None => <[conn_dpid (pe_connection event) :=
                  set_connected_hosts
                    (<[pe_port event := srcip ip]> (connected_hosts receiving_router))
                    receiving_router]> (routers (mgr w))
    | Some _ => routers (mgr w)
    end /\
  wire out.2 = wire w ++ [flood_message event; flood_flow_message event (dstip ip)] /\
  (forall a b, adj out.2 a b = adj w a b).
Proof.
  intros Hr Hg Hip Hnet Hport out. subst out.
  unfold _handle_PacketIn.
  rewrite (bind_Ok get_mgr _ w w (mgr w)) by reflexivity.
  rewrite Hr, Hg, Hip, Hnet.
  rewrite (bind_Ok _ _ _ _ _ (adjacency_uses_port_eq _ _ _)).
  destruct (row_has_port _ _) eqn:Hrow.
  { exfalso. apply Hport. apply row_has_port_is_router_port. exact Hrow. }
  destruct (w_vivify_frame (r_oid receiving_router) w) as (Vr & Vw & _).
  pose proof (adj_w_vivify (r_oid receiving_router) w) as Va.
  unfold learn_host, flood_message, flood_flow_message. simpl.
  destruct (connected_hosts receiving_router !! pe_port event) eqn:Hh;
    unfold update_router; m_simpl; rewrite Vw, <- app_assoc, ?Vr;
    rewrite ?(alter_Some_insert _ _ _ _ Hr); repeat split; auto.
Qed.

End PacketInCases.

(** ** The general query, whatever the state *)

Section GeneralQueryAny.
Context {lib : PoxLib}.

(** Lines 198-202 for a router without a connection. *)
Lemma send_query_ports_unbound (r : Router) (ps : list Z) (w : World) :
  connection r = None ->
  for_each ps (send_query general_query_frame r) w
  = (match ps with [] => Ok tt | _ :: _ => Raised AttributeError end, w).
Proof.
  intros Hc. destruct ps as [|p ps]; simpl; [reflexivity|].
  unfold bind, send_query. rewrite Hc. reflexivity.
Qed.

Lemma send_query_routers_any (items : list (Z * Router)) (w : World) :
  let out := for_each items
               (fun item => for_each (igmp_ports item.2)
                              (send_query general_query_frame item.2)) w in
  mgr out.2 = mgr w /\
  (exists sent, wire out.2 = wire w ++ sent /\
                forall c m, (c, m) ∈ sent -> exists p, m = query_packet_out p) /\
  (out.1 = Ok tt \/ out.1 = Raised AttributeError) /\
  (out.1 = Ok tt <->
   Forall (fun item => igmp_ports item.2 = [] \/ is_Some (connection item.2)) items).
Proof.
  revert w. induction items as [|[d r] items IH]; intros w out; subst out.
  - simpl. split; [reflexivity|]. split.
    + exists []. rewrite app_nil_r. split; [reflexivity|]. intros c m H. inversion H.
    + split; [left; reflexivity|]. split; [intros _; constructor | reflexivity].
  - cbn [for_each]. cbn [snd]. destruct (connection r) as [c|] eqn:Hc.
    + rewrite (bind_Ok _ _ _ _ _ (send_query_ports r c _ w Hc)).
      specialize (IH (mk_World (mgr w)
                        (wire w ++ map (fun p => (c, query_packet_out p)) (igmp_ports r)))).
      destruct IH as (Hm & (sent & Hs & Hq) & Hres & Hiff).
      split; [exact Hm|]. split; [|split; [exact Hres|]].
      * exists (map (fun p => (c, query_packet_out p)) (igmp_ports r) ++ sent).
        split; [rewrite Hs; simpl; rewrite app_assoc; reflexivity|].
        intros c' m H. apply elem_of_app in H as [H|H]; [|eauto].
        apply list_elem_of_fmap in H as (p & Hp & _). injection Hp as _ ->. eauto.
      * rewrite Hiff. split; intros H.
        -- constructor; [right; simpl; rewrite Hc; eauto | exact H].
        -- inversion H; assumption.
    + destruct (igmp_ports r) as [|p ps] eqn:Hp.
      * rewrite (bind_Ok _ _ w w tt) by reflexivity.
        specialize (IH w). destruct IH as (Hm & Hs & Hres & Hiff).
        split; [exact Hm|]. split; [exact Hs|]. split; [exact Hres|].
        rewrite Hiff. split; intros H.
        -- constructor; [left; exact Hp | exact H].
        -- inversion H; assumption.
      * rewrite (bind_Raised _ _ w w AttributeError)
          by (apply (send_query_ports_unbound r (p :: ps) w Hc)).
        split; [reflexivity|]. split.
        -- exists []. rewrite app_nil_r. split; [reflexivity|]. intros c m H. inversion H.
        -- split; [right; reflexivity|]. split; [discriminate|].
           intros H. exfalso. inversion H as [|x l [Hnil|[c Hsome]] _]; subst; simpl in *.
           ++ congruence.
           ++ congruence.
Qed.

(** X23.  In any state, [launch_igmp_general_query] leaves the manager as
    it is and only appends packet-outs of the general query to the messages
    already sent.  It returns normally exactly when every registered router
    with a non-empty IGMP port list holds a connection; otherwise it raises
    [AttributeError] at line 202, after the messages of the routers visited
    before. *)
Theorem X23_general_query_any_state (w : World) :
  let out := launch_igmp_general_query w in
  mgr out.2 = mgr w /\
  (exists sent, wire out.2 = wire w ++ sent /\
                forall c m, (c, m) ∈ sent -> exists p, m = query_packet_out p) /\
  (out.1 = Ok tt \/ out.1 = Raised AttributeError) /\
  (out.1 = Ok tt <->
   forall d r, routers (mgr w) !! d = Some r ->
               igmp_ports r = [] \/ is_Some (connection r)).
Proof.
  intros out. subst out. unfold launch_igmp_general_query.
  rewrite (bind_Ok get_mgr _ w w (mgr w)) by reflexivity.
  destruct (send_query_routers_any (dict_items (routers (mgr w))) w)
    as (Hm & Hs & Hres & Hiff).
  split; [exact Hm|]. split; [exact Hs|]. split; [exact Hres|].
  rewrite Hiff, Forall_forall. split.
  - intros H d r Hr. apply (H (d, r)). apply elem_of_dict_items. exact Hr.
  - intros H [d r] Hin. apply elem_of_dict_items in Hin. apply (H d r Hin).
Qed.

End GeneralQueryAny.

(** ** Object identities in the adjacency *)

Lemma keeps_and {A} (P Q : World -> Prop) (c : M A) :
  keeps P c -> keeps Q c -> keeps (fun w => P w /\ Q w) c.
Proof. intros HP HQ w [H1 H2]. split; [apply HP | apply HQ]; assumption. Qed.

Lemma adj_below_reads (n : nat) (w w' : World) :
  next_oid (mgr w') = next_oid (mgr w) ->
  (forall a b, adj w' a b <> None -> adj w a b <> None) ->
  adj_below n w -> adj_below n w'.
Proof.
  intros Hn Ha [H1 H2]. split; [congruence|]. intros a b H. apply H2, Ha, H.
Qed.

Lemma keeps_next_oid_adjacency_contains (n : nat) (o1 o2 : nat) :
  keeps (adj_below n) (adjacency_contains o1 o2).
Proof.
  intros w H. rewrite adjacency_contains_eq. simpl.
  apply (adj_below_reads n w); [apply w_vivify_frame | | exact H].
  intros a b. rewrite adj_w_vivify. exact id.
Qed.

Lemma keeps_adj_below_getitem (n : nat) (o1 o2 : nat) :
  keeps (adj_below n) (adjacency_getitem o1 o2).
Proof.
  intros w H.
  destruct (adjacency_getitem_read o1 o2 w) as (w' & E & _ & _ & Ha).
  assert (Hn : next_oid (mgr (adjacency_getitem o1 o2 w).2) = next_oid (mgr w)).
  { apply (keeps_adjacency_getitem (fun w' => next_oid (mgr w') = next_oid (mgr w))); auto. }
  apply (adj_below_reads n w); [exact Hn | | exact H].
  rewrite E. simpl. intros a b. rewrite Ha. exact id.
Qed.

Lemma keeps_adj_below_delitem (n : nat) (o1 o2 : nat) :
  keeps (adj_below n) (adjacency_delitem o1 o2).
Proof.
  intros w H.
  assert (Hn : next_oid (mgr (adjacency_delitem o1 o2 w).2) = next_oid (mgr w)).
  { apply (keeps_adjacency_delitem (fun w' => next_oid (mgr w') = next_oid (mgr w))); auto. }
  apply (adj_below_reads n w); [exact Hn | | exact H].
  unfold adjacency_delitem. rewrite (bind_Ok _ _ _ _ _ (adjacency_row_eq _ _)).
  destruct (row_of (adjacency (mgr w)) o1 !! o2) eqn:Hv.
  - unfold put_row. m_simpl. intros a b. unfold adj at 1. simpl.
    rewrite <- (row_of_vivify o1 w), adj_read_delete.
    case_decide; [congruence|]. fold (adj (w_vivify o1 w) a b).
    rewrite adj_w_vivify. exact id.
  - simpl. intros a b. rewrite adj_w_vivify. exact id.
Qed.

Lemma keeps_adj_below_setitem (n : nat) (o1 o2 : nat) (p : Z) :
  (o1 < n)%nat -> (o2 < n)%nat ->
  keeps (adj_below n) (adjacency_setitem o1 o2 p).
Proof.
  intros H1 H2 w [Hn Hb]. rewrite adjacency_setitem_eq. simpl.
  split; [exact Hn|]. intros a b. unfold adj. simpl. rewrite adj_read_insert_row.
  case_decide as Hab; [destruct Hab as [-> ->]; auto | apply Hb].
Qed.

Section AdjacencyBound.
Context {lib : PoxLib}.

Lemma ConnectionUp_adjacency_next (event : ConnectionUpEvent) (w : World) :
  adjacency (mgr (_handle_ConnectionUp event w).2) = adjacency (mgr w) /\
  (next_oid (mgr w) <= next_oid (mgr (_handle_ConnectionUp event w).2))%nat.
Proof.
  destruct (routers (mgr w) !! conn_dpid (cu_connection event)) as [r0|] eqn:E.
  - split; [apply (ConnectionUp_known_router event w r0 E)|].
    unfold _handle_ConnectionUp. m_simpl. rewrite E. simpl.
    destruct (got_first_connection_up (mgr w)); simpl; lia.
  - destruct (ConnectionUp_new_router event w E) as (_ & _ & Hn & Ha & _).
    split; [exact Ha | lia].
Qed.

Lemma keeps_bounded_LinkEvent (disc : list Link) (event : LinkEvent) :
  keeps (fun w => registry_ok w /\ adj_bounded w) (_handle_LinkEvent disc event).
Proof.
  intros w [Hok Hb]. set (n := next_oid (mgr w)).
  assert (Hbelow : adj_below n w) by (split; [reflexivity | exact Hb]).
  assert (Hconv : forall w', registry_ok w' /\ adj_below n w' ->
                             registry_ok w' /\ adj_bounded w').
  { intros w' [H1 [H2 H3]]. split; [exact H1|]. intros a b H. rewrite H2. apply H3, H. }
  apply Hconv.
  destruct (routers (mgr w) !! dpid1 (le_link event)) as [r1|] eqn:E1.
  2:{ rewrite (LinkEvent_unrecognized_router1 _ _ _ E1). split; assumption. }
  destruct (routers (mgr w) !! dpid2 (le_link event)) as [r2|] eqn:E2.
  2:{ rewrite (LinkEvent_unrecognized_router2 _ _ _ _ E1 E2). split; assumption. }
  assert (Hbody : _handle_LinkEvent disc event w
                  = link_event_body disc event (r_oid r1) (r_oid r2) w).
  { rewrite handle_LinkEvent_body.
    rewrite (bind_Ok _ _ _ _ _ (routers_getitem_Some _ _ _ E1)).
    rewrite (bind_Ok _ _ _ _ _ (routers_getitem_Some _ _ _ E2)). reflexivity. }
  rewrite Hbody.
  destruct (proj1 Hok _ _ E1) as [_ Ho1]. destruct (proj1 Hok _ _ E2) as [_ Ho2].
  fold n in Ho1, Ho2.
  apply (keeps_link_event_body (fun w' => registry_ok w' /\ adj_below n w')
           (r_oid r1) (r_oid r2)); [..|split; assumption].
  - apply keeps_and; [apply pres_adjacency_contains | apply keeps_next_oid_adjacency_contains].
  - apply keeps_and; [apply pres_adjacency_contains | apply keeps_next_oid_adjacency_contains].
  - apply keeps_and; [apply pres_adjacency_delitem | apply keeps_adj_below_delitem].
  - apply keeps_and; [apply pres_adjacency_delitem | apply keeps_adj_below_delitem].
  - apply keeps_and; [apply pres_adjacency_getitem | apply keeps_adj_below_getitem].
  - intros p. apply keeps_and;
      [apply pres_adjacency_setitem | apply keeps_adj_below_setitem; assumption].
  - intros p. apply keeps_and;
      [apply pres_adjacency_setitem | apply keeps_adj_below_setitem; assumption].
  - intros d p. apply keeps_and; [apply pres_igmp_ports_append|].
    apply (keeps_igmp_ports_append (adj_below n)). intros w' d' g H. exact H.
  - intros d p. apply keeps_and; [apply pres_igmp_ports_remove|].
    apply (keeps_igmp_ports_remove (adj_below n)). intros w' d' g H. exact H.
  - intros d p. apply keeps_and; [apply pres_connected_hosts_discard|].
    apply (keeps_connected_hosts_discard (adj_below n)). intros w' d' p' H. exact H.
Qed.

Lemma keeps_bounded_dispatch (ev : Event) :
  keeps (fun w => registry_ok w /\ adj_bounded w) (dispatch ev).
Proof.
  destruct ev as [e|d|disc e|e|].
  - intros w [Hok Hb]. split; [apply pres_handle_ConnectionUp; exact Hok|].
    simpl. destruct (ConnectionUp_adjacency_next e w) as [Ha Hn].
    intros a b. unfold adj. rewrite Ha. intros H. destruct (Hb a b H). lia.
  - intros w [Hok Hb]. split; [apply pres_handle_ConnectionDown; exact Hok|].
    simpl. destruct (ConnectionDown_outcome d w) as (_ & _ & Ha & _ & _ & _ & Hn).
    intros a b. unfold adj. rewrite Ha, Hn. apply Hb.
  - apply keeps_bounded_LinkEvent.
  - intros w [Hok Hb]. split; [apply pres_handle_PacketIn; exact Hok|].
    simpl. destruct (PacketIn_outcome e w) as (w' & msgs & E & _ & _ & Ha & _ & _ & Hn & _).
    rewrite E. simpl. intros a b. rewrite Ha, Hn. apply Hb.
  - intros w [Hok Hb]. split; [apply (pres_dispatch EvTimer); exact Hok|].
    assert (K : keeps adj_bounded (dispatch EvTimer)).
    { simpl. pose proof (keeps_launch_igmp_general_query adj_bounded) as L. keeps_auto. }
    apply K. exact Hb.
Qed.

Lemma bounded_run_events (evs : list Event) :
  registry_ok (run_events evs World_init) /\ adj_bounded (run_events evs World_init).
Proof.
  apply (keeps_run_events (fun w => registry_ok w /\ adj_bounded w) keeps_bounded_dispatch).
  split; [apply registry_ok_init|]. intros a b H. exfalso. apply H. reflexivity.
Qed.

(** X24.  A switch that registers anew starts without adjacency.  After any
    sequence of events, a connection-up for a dpid that is not registered
    (never seen, or taken down before) registers a Router object with a new
    identity: no adjacency entry reads a port for it, in either direction,
    so none of its ports counts as an inter-router port and its host table
    is empty, whatever entries the Router object that earlier stood for the
    dpid has left in the adjacency. *)
Theorem X24_registered_anew_without_adjacency
    (evs : list Event) (event : ConnectionUpEvent) :
  routers (mgr (run_events evs World_init)) !! conn_dpid (cu_connection event) = None ->
  let w := run_events evs World_init in
  let out := _handle_ConnectionUp event w in
  exists r,
    routers (mgr out.2) !! conn_dpid (cu_connection event) = Some r /\
    r_oid r = next_oid (mgr w) /\
    connected_hosts r = ∅ /\
    (forall x, adj out.2 (r_oid r) x = None /\ adj out.2 x (r_oid r) = None) /\
    (forall p, ~ is_router_port out.2 (r_oid r) p).
Proof.
  intros H w out. subst out.
  destruct (ConnectionUp_new_router event w H) as (_ & Hr & _ & Ha & _).
  destruct (bounded_run_events evs) as [_ Hb]. fold w in Hb.
  assert (Hnone : forall x, adj (_handle_ConnectionUp event w).2 (next_oid (mgr w)) x = None /\
                            adj (_handle_ConnectionUp event w).2 x (next_oid (mgr w)) = None).
  { intros x. unfold adj. rewrite Ha. fold (adj w (next_oid (mgr w)) x).
    fold (adj w x (next_oid (mgr w))). split.
    - destruct (adj w (next_oid (mgr w)) x) eqn:E; [|reflexivity].
      destruct (Hb (next_oid (mgr w)) x); [congruence | lia].
    - destruct (adj w x (next_oid (mgr w))) eqn:E; [|reflexivity].
      destruct (Hb x (next_oid (mgr w))); [congruence | lia]. }
  eexists. split; [rewrite Hr; apply lookup_insert_eq|]. simpl.
  split; [reflexivity|]. split; [reflexivity|]. split; [exact Hnone|].
  intros p [nb Hp]. destruct (Hnone nb) as [Hx _]. congruence.
Qed.

End AdjacencyBound.

(** ** Which handlers can raise *)

Section NeverRaises.
Context {lib : PoxLib}.

(** X22.  [_handle_ConnectionUp] never raises: the assertion of line 92
    cannot fail in it.  It sends nothing, leaves the adjacency alone and
    never replaces or changes a Router object that is registered, whether
    under the event's dpid or another; afterwards the event's dpid is
    registered and the flag is set. *)
Theorem X22_ConnectionUp_never_raises (event : ConnectionUpEvent) (w : World) :
  let out := _handle_ConnectionUp event w in
  out.1 = Ok tt /\
  wire out.2 = wire w /\
  adjacency (mgr out.2) = adjacency (mgr w) /\
  (forall d r, routers (mgr w) !! d = Some r -> routers (mgr out.2) !! d = Some r) /\
  is_Some (routers (mgr out.2) !! conn_dpid (cu_connection event)) /\
  got_first_connection_up (mgr out.2) = true.
Proof.
  intros out. subst out.
  destruct (ConnectionUp_flags event w) as [Hf _].
  destruct (routers (mgr w) !! conn_dpid (cu_connection event)) as [r0|] eqn:E.
  - destruct (ConnectionUp_known_router event w r0 E) as (Hok & Hr & Ha & Hw).
    split; [exact Hok|]. split; [exact Hw|]. split; [exact Ha|].
    rewrite Hr. split; [auto|]. split; [eauto | exact Hf].
  - destruct (ConnectionUp_new_router event w E) as (Hok & Hr & _ & Ha & Hw).
    split; [exact Hok|]. split; [exact Hw|]. split; [exact Ha|].
    rewrite Hr. split; [|split; [rewrite lookup_insert_eq; eauto | exact Hf]].
    intros d r Hl. rewrite lookup_insert_ne; [exact Hl | congruence].
Qed.

(** X25.  After any sequence of events from the start, a connection-up, a
    connection-down, a packet-in and a timer tick all return normally: in the
    states the controller can reach, the link handler is the only one that
    can raise. *)
Theorem X25_only_link_events_can_raise (evs : list Event) :
  let w := run_events evs World_init in
  (forall e, (dispatch (EvConnectionUp e) w).1 = Ok tt) /\
  (forall d, (dispatch (EvConnectionDown d) w).1 = Ok tt) /\
  (forall e, (dispatch (EvPacketIn e) w).1 = Ok tt) /\
  (dispatch EvTimer w).1 = Ok tt.
Proof.
  intros w. split; [|split; [|split]].
  - intros e. simpl.
    destruct (routers (mgr w) !! conn_dpid (cu_connection e)) as [r0|] eqn:E.
    + apply (ConnectionUp_known_router e w r0 E).
    + apply (ConnectionUp_new_router e w E).
  - intros d. simpl. apply ConnectionDown_outcome.
  - intros e. simpl. destruct (PacketIn_outcome e w) as (w' & msgs & E & _).
    rewrite E. reflexivity.
  - simpl. unfold bind, get_mgr. simpl.
    destruct (general_query_timer (mgr w)); [|reflexivity].
    rewrite launch_igmp_general_query_connected; [reflexivity|].
    apply registry_ok_run_events, registry_ok_init.
Qed.

End NeverRaises.

(** ** The order of the registry *)

#[local] Instance created_before_trans : Transitive created_before.
Proof. intros x y z. unfold created_before. lia. Qed.

#[local] Instance created_before_total : Total created_before.
Proof. intros x y. unfold created_before. lia. Qed.



Section Increasing.
Context {A : Type} (g : A -> nat).



End Increasing.







Section RegistryOrder.
Context {lib : PoxLib}.





End RegistryOrder.

(** ** The general query on the wire *)

Section GeneralQueryOnWire.
#[local] Existing Instance pox_defaults.





End GeneralQueryOnWire.

(** ** The further properties at concrete inputs *)

(** Switch 1, connected at time 0 and asked six seconds later. *)
Lemma C9_is_holding_down_raises_NameError_witness :
  routers (mgr (@run_events pox_defaults two_switches World_init)) !! 1 = Some sw1_router /\
  is_holding_down 6%float sw1_router = Raised NameError.
Proof.
  assert (H : routers (mgr (@run_events pox_defaults two_switches World_init)) !! 1
              = Some sw1_router) by (vm_compute; reflexivity).
  split; [exact H|].
  apply (@C9_is_holding_down_raises_NameError pox_defaults two_switches 1 sw1_router
           6%float H).
Defined.

(** Switch 2 connects through [sw2_conn] and later through [sw2_reconn],
    which reports a third port. *)
Lemma X3_Router_connect_twice_keeps_first_ports_witness :
  exists r1 r2,
    @Router_connect pox_defaults 1%float sw2_conn (set_dpid (Some 2) (Router_init 1%nat))
    = Ok r1 /\
    @Router_connect pox_defaults 9%float sw2_reconn r1 = Ok r2 /\
    connection r2 = Some sw2_reconn /\ connected_at r2 = Some 9%float /\
    ports r2 = Some (conn_ports sw2_conn) /\
    igmp_ports r2
    = igmp_ports (set_dpid (Some 2) (Router_init 1%nat))
      ++ List.filter (@not_reserved pox_defaults) (conn_ports sw2_conn) /\
    connected_hosts r2 = connected_hosts (set_dpid (Some 2) (Router_init 1%nat)).
Proof.
  apply (@X3_Router_connect_twice_keeps_first_ports pox_defaults).
  - reflexivity.
  - right. reflexivity.
  - reflexivity.
Defined.

(** The first switch connects to the controller at its start. *)
Lemma X4_ConnectionUp_registers_new_router_witness :
  let event := mk_ConnectionUpEvent sw1_conn 0%float in
  let w := World_init in
  let c := cu_connection event in
  let out := @_handle_ConnectionUp pox_defaults event w in
  out.1 = Ok tt /\
  routers (mgr out.2)
  = <[conn_dpid c :=
        mk_Router (next_oid (mgr w)) (Some c) (Some (conn_ports c))
                  (List.filter (@not_reserved pox_defaults) (conn_ports c))
                  (Some (conn_dpid c)) (Some (conn_id c)) (Some (cu_now event)) ∅]>
      (routers (mgr w)) /\
  next_oid (mgr out.2) = S (next_oid (mgr w)) /\
  adjacency (mgr out.2) = adjacency (mgr w) /\
  wire out.2 = wire w /\
  got_first_connection_up (mgr out.2) = true /\
  general_query_timer (mgr out.2)
  = (if got_first_connection_up (mgr w) then general_query_timer (mgr w)
     else Some igmp_query_interval) /\
  timers_started (mgr out.2)
  = (if got_first_connection_up (mgr w) then timers_started (mgr w)
     else timers_started (mgr w) ++ [igmp_query_interval]).
Proof.
  intros event w.
  apply (@X4_ConnectionUp_registers_new_router pox_defaults event w).
  reflexivity.
Defined.


(** A link event before any switch has connected. *)
Lemma X11_LinkEvent_unregistered_dpid_raises_witness :
  _handle_LinkEvent [link_a] (mk_LinkEvent link_a true) World_init
  = (Raised KeyError, World_init).
Proof.
  apply X11_LinkEvent_unregistered_dpid_raises. left. reflexivity.
Defined.

(** The second cable between two switches that are already adjacent. *)
Lemma X12_link_up_without_commit_witness :
  let w := @run_events pox_defaults a_committed World_init in
  let r1 := commit_port 1 [2] sw1_router in
  let r2 := commit_port 1 [2] sw2_router in
  let out := _handle_LinkEvent [link_a; flip link_a; link_b; flip link_b]
               (mk_LinkEvent link_b true) w in
  out.1 = Ok tt /\ same_reads w out.2 /\
  (adj w (r_oid r1) (r_oid r2) <> None -> out.2 = w).
Proof.
  intros w r1 r2.
  apply (X12_link_up_without_commit _ link_b r1 r2 w).
  - vm_compute. reflexivity.
  - vm_compute. reflexivity.
  - left. vm_compute. discriminate.
Defined.

(** A link on port 5, which neither switch reported. *)
Lemma X13_link_up_commit_without_port_raises_witness :
  let w := @run_events pox_defaults two_switches World_init in
  let out := _handle_LinkEvent [link_unlisted; flip link_unlisted]
               (mk_LinkEvent link_unlisted true) w in
  out.1 = Raised ValueError /\
  routers (mgr out.2) = routers (mgr w) /\
  wire out.2 = wire w /\
  adj out.2 (r_oid sw1_router) (r_oid sw2_router) = Some (port1 link_unlisted).
Proof.
  intros w.
  apply (X13_link_up_commit_without_port_raises _ link_unlisted sw1_router sw2_router w).
  - vm_compute. reflexivity.
  - vm_compute. reflexivity.
  - vm_compute. reflexivity.
  - right. left.
  - intros H. apply list_elem_of_In in H. simpl in H.
    destruct H as [H|[H|H]]; [discriminate | discriminate | exact H].
Defined.

(** The only cable between the two switches goes down. *)
Lemma X14_link_removal_without_parallel_witness :
  let w := @run_events pox_defaults a_committed World_init in
  let r1 := commit_port 1 [2] sw1_router in
  let r2 := commit_port 1 [2] sw2_router in
  let out := _handle_LinkEvent [] (mk_LinkEvent link_a false) w in
  out.1 = Ok tt /\
  routers (mgr out.2)
  = <[dpid2 link_a := set_igmp_ports (igmp_ports r2 ++ [port2 link_a]) r2]>
      (<[dpid1 link_a := set_igmp_ports (igmp_ports r1 ++ [port1 link_a]) r1]>
         (routers (mgr w))) /\
  wire out.2 = wire w /\
  forall a b, adj out.2 a b
              = if decide (a = r_oid r2 /\ b = r_oid r1) then None
                else if decide (a = r_oid r1 /\ b = r_oid r2) then None
                else adj w a b.
Proof.
  intros w r1 r2.
  apply (X14_link_removal_without_parallel [] link_a r1 r2 w).
  - vm_compute. reflexivity.
  - vm_compute. reflexivity.
  - vm_compute. discriminate.
  - reflexivity.
Defined.

(** The committed cable goes down and the spare takes over. *)
Lemma X15_link_removal_promotes_parallel_witness :
  let w := @run_events pox_defaults a_committed_b_spare World_init in
  let r1 := commit_port 1 [2] sw1_router in
  let r2 := commit_port 1 [2] sw2_router in
  let disc := [link_b; flip link_b] in
  let out := _handle_LinkEvent disc (mk_LinkEvent link_a false) w in
  out.1 = Ok tt /\
  routers (mgr out.2)
  = <[dpid2 link_a := set_igmp_ports [1] r2]>
      (<[dpid1 link_a := set_igmp_ports [1] r1]> (routers (mgr w))) /\
  wire out.2 = wire w /\
  (forall a b, adj out.2 a b
               = if decide (a = r_oid r2 /\ b = r_oid r1) then Some (port2 link_b)
                 else if decide (a = r_oid r1 /\ b = r_oid r2) then Some (port1 link_b)
                 else adj w a b) /\
  dpid1 link_b = dpid1 link_a /\ dpid2 link_b = dpid2 link_a /\
  link_b ∈ disc /\ flip link_b ∈ disc.
Proof.
  intros w r1 r2 disc.
  apply (X15_link_removal_promotes_parallel disc link_a link_b r1 r2 [1] [1] w).
  - vm_compute. reflexivity.
  - vm_compute. reflexivity.
  - vm_compute. discriminate.
  - reflexivity.
  - reflexivity.
  - reflexivity.
Defined.

(** [link_a] comes up between the two fresh switches and goes down again. *)
Lemma X16_link_up_then_down_witness :
  let w := @run_events pox_defaults two_switches World_init in
  let evs := [EvLinkEvent [link_a; flip link_a] (mk_LinkEvent link_a true);
              EvLinkEvent [] (mk_LinkEvent link_a false)] in
  @outcomes pox_defaults evs w = [Ok tt; Ok tt] /\
  (forall a b, adj (@run_events pox_defaults evs w) a b = adj w a b) /\
  routers (mgr (@run_events pox_defaults evs w))
  = <[dpid2 link_a := commit_port (port2 link_a) ([2] ++ [port2 link_a]) sw2_router]>
      (<[dpid1 link_a := commit_port (port1 link_a) ([2] ++ [port1 link_a]) sw1_router]>
         (routers (mgr w))) /\
  [2] ++ [port1 link_a] ≡ₚ igmp_ports sw1_router /\
  [2] ++ [port2 link_a] ≡ₚ igmp_ports sw2_router /\
  wire (@run_events pox_defaults evs w) = wire w.
Proof.
  intros w.
  apply (@X16_link_up_then_down pox_defaults [link_a; flip link_a] [] link_a
           sw1_router sw2_router [2] [2] w).
  - vm_compute. reflexivity.
  - vm_compute. reflexivity.
  - vm_compute. discriminate.
  - vm_compute. reflexivity.
  - vm_compute. reflexivity.
  - right. left.
  - reflexivity.
  - reflexivity.
  - reflexivity.
Defined.

(** An ARP frame from a registered switch. *)
Lemma X17_PacketIn_ignored_witness :
  let w := @run_events pox_defaults two_switches World_init in
  @_handle_PacketIn pox_defaults arp_on_sw1_port2 w = (Ok tt, w).
Proof.
  intros w. apply (@X17_PacketIn_ignored pox_defaults arp_on_sw1_port2 w).
  right. split; [reflexivity|]. left. reflexivity.
Defined.

(** A report from [host_6] on the port that already maps to [host_5]. *)
Lemma X20_igmp_on_edge_port_with_known_host_witness :
  let w := @run_events pox_defaults
             (two_switches ++ [EvPacketIn (report_on_sw1_port2 host_5)]) World_init in
  let event := report_on_sw1_port2 host_6 in
  let out := @_handle_PacketIn pox_defaults event w in
  out.1 = Ok tt /\
  routers (mgr out.2) = routers (mgr w) /\
  wire out.2 = wire w ++ [drop_message event] /\
  (forall a b, adj out.2 a b = adj w a b).
Proof.
  intros w event.
  apply (@X20_igmp_on_edge_port_with_known_host pox_defaults event w
           (set_connected_hosts {[2 := host_5]} sw1_router) (mk_igmp 34 0 0 0 0 8) host_5).
  - vm_compute. reflexivity.
  - vm_compute. reflexivity.
  - intros [nb H]. vm_compute in H. discriminate.
  - vm_compute. reflexivity.
Defined.

(** The first datagram for 224.1.1.1 on port 2 of switch 1. *)
Lemma X21_multicast_on_edge_port_witness :
  let w := @run_events pox_defaults two_switches World_init in
  let event := data_on_sw1_port2 in
  let out := @_handle_PacketIn pox_defaults event w in
  out.1 = Ok tt /\
  routers (mgr out.2)
  = match connected_hosts sw1_router !! pe_port event with
    | None => <[conn_dpid (pe_connection event) :=
                  set_connected_hosts
                    (<[pe_port event := srcip multicast_data]> (connected_hosts sw1_router))
                    sw1_router]> (routers (mgr w))
    | Some _ => routers (mgr w)
    end /\
  wire out.2 = wire w ++ [@flood_message pox_defaults event;
                          @flood_flow_message pox_defaults event (dstip multicast_data)] /\
  (forall a b, adj out.2 a b = adj w a b).
Proof.
  intros w event.
  apply (@X21_multicast_on_edge_port pox_defaults event w sw1_router multicast_data).
  - vm_compute. reflexivity.
  - vm_compute. reflexivity.
  - vm_compute. reflexivity.
  - vm_compute. reflexivity.
  - intros [nb H]. vm_compute in H. discriminate.
Defined.

(** Switch 2 goes down while [link_a] is committed and connects again. *)
Lemma X24_registered_anew_without_adjacency_witness :
  let evs := a_committed ++ [EvConnectionDown 2] in
  let event := mk_ConnectionUpEvent sw2_reconn 9%float in
  let w := @run_events pox_defaults evs World_init in
  let out := @_handle_ConnectionUp pox_defaults event w in
  exists r,
    routers (mgr out.2) !! conn_dpid (cu_connection event) = Some r /\
    r_oid r = next_oid (mgr w) /\
    connected_hosts r = ∅ /\
    (forall x, adj out.2 (r_oid r) x = None /\ adj out.2 x (r_oid r) = None) /\
    (forall p, ~ is_router_port out.2 (r_oid r) p).
Proof.
  intros evs event.
  apply (@X24_registered_anew_without_adjacency pox_defaults evs event).
  vm_compute. reflexivity.
Defined.
